(** * Personal finance manager: the ledger codec, filter and aggregator

    A shallow embedding of [personal-finance-manager.py].  The functions
    below follow the Python source line by line: [load_transactions_from_csv],
    [save_transactions_to_csv], [FinanceApp.validate_input],
    [FinanceApp.add_transaction], [FinanceApp.calculate_balance],
    [FinanceApp.calculate_summary] and [FinanceApp.apply_filters].

    Conventions.
    - A Python [str] is a [string]; a character is a code point below 256.
    - A Python [float] is an IEEE 754 binary64 value, a [spec_float] of the
      standard library with precision 53 and maximal exponent 1024; the
      arithmetic is that of [SpecFloat] (round to nearest, ties to even).
    - A raised [ValueError] is the [None] of an [option]; a message box is an
      entry appended to a list of [dialog]s.
    - The ledger file is the bytes it holds, written as UTF-8; what is read
      from it is what [csv.reader] yields.  The category file is the text it
      holds. *)

From Stdlib Require Import ZArith List Bool String Ascii Lia.
From Stdlib Require Import Sorted Permutation.
From Stdlib Require Import Floats.SpecFloat.
Import ListNotations.

Local Open Scope string_scope.
Local Open Scope list_scope.
Local Open Scope Z_scope.

(** ** Python built-ins on strings *)

Module PyStr.

Definition code (c : ascii) : Z := Z.of_N (N_of_ascii c).

Definition in_range (lo hi : Z) (c : ascii) : bool :=
  (lo <=? code c) && (code c <=? hi).

(** [str.isspace] on one character: the code points below 256 that Python
    treats as white space. *)
Definition isspace (c : ascii) : bool :=
  in_range 9 13 c || in_range 28 32 c || (code c =? 133) || (code c =? 160).

Fixpoint lstrip (s : string) : string :=
  match s with
  | String c r => if isspace c then lstrip r else s
  | EmptyString => EmptyString
  end.

Fixpoint rstrip (s : string) : string :=
  match s with
  | String c r =>
      match rstrip r with
      | EmptyString => if isspace c then EmptyString else String c EmptyString
      | r' => String c r'
      end
  | EmptyString => EmptyString
  end.

(** [s.strip()] *)
Definition strip (s : string) : string := rstrip (lstrip s).

(** ["".join(parts)] *)
Definition join (parts : list string) : string := String.concat "" parts.

(** [s.lower()] on code points below 256: A-Z and the accented capitals
    0xC0-0xDE (but the multiplication sign 0xD7) move up by 32. *)
Definition lower_char (c : ascii) : ascii :=
  if in_range 65 90 c || (in_range 192 222 c && negb (code c =? 215))
  then ascii_of_N (N_of_ascii c + 32) else c.

Fixpoint lower (s : string) : string :=
  match s with
  | String c r => String (lower_char c) (lower r)
  | EmptyString => EmptyString
  end.

(** [sub in s] *)
Fixpoint contains (sub s : string) : bool :=
  prefix sub s ||
  match s with
  | String _ r => contains sub r
  | EmptyString => false
  end.

(** Truth value of a string: [if s:] *)
Definition truthy (s : string) : bool :=
  match s with EmptyString => false | _ => true end.

(** [x in xs] for a list of strings *)
Definition mem (x : string) (xs : list string) : bool :=
  existsb (String.eqb x) xs.

Definition isdigit (c : ascii) : bool := in_range 48 57 c.

Definition digit_val (c : ascii) : Z := code c - 48.

(** Reads a maximal run of ASCII digits: the number read on top of [acc],
    how many digits there were, and the rest of the string. *)
Fixpoint read_digits (s : string) (acc : Z) (n : Z) : Z * Z * string :=
  match s with
  | String c r =>
      if isdigit c then read_digits r (10 * acc + digit_val c) (n + 1)
      else (acc, n, s)
  | EmptyString => (acc, n, s)
  end.

End PyStr.

(** ** Python floats: binary64 *)

Module PyFloat.
Import PyStr.

Definition float := spec_float.

Definition prec64 : Z := 53.
Definition emax64 : Z := 1024.

Definition zero : float := S754_zero false.
Definition add : float -> float -> float := SFadd prec64 emax64.
Definition sub : float -> float -> float := SFsub prec64 emax64.
Definition leb : float -> float -> bool := SFleb.
Definition ltb : float -> float -> bool := SFltb.

(** The float nearest to [m * 10 ^ e], for a decimal mantissa [m >= 0]. *)
Definition of_decimal (neg : bool) (m e : Z) : float :=
  match m with
  | Zpos p =>
      if 0 <=? e
      then binary_round prec64 emax64 neg (p * Z.to_pos (10 ^ e)) 0
      else SFdiv prec64 emax64 (S754_finite neg p 0)
                 (S754_finite false (Z.to_pos (10 ^ (- e))) 0)
  | _ => S754_zero neg
  end.

(** The float of the integer [n]. *)
Definition of_Z (n : Z) : float := binary_normalize prec64 emax64 n 0 false.

Definition read_sign (s : string) : bool * string :=
  match s with
  | String "-" r => (true, r)
  | String "+" r => (false, r)
  | _ => (false, s)
  end.

(** Characters above 127 are replaced before parsing: white space by a
    blank, anything else by a question mark. *)
Definition to_ascii_char (c : ascii) : ascii :=
  if code c <=? 127 then c else if isspace c then " "%char else "?"%char.

Fixpoint to_ascii (s : string) : string :=
  match s with
  | String c r => String (to_ascii_char c) (to_ascii r)
  | EmptyString => EmptyString
  end.

(** An underscore is allowed only between two digits; the accepted ones are
    dropped.  [prev] is the character before [s]. *)
Fixpoint drop_underscores (prev : ascii) (s : string) : option string :=
  match s with
  | String c r =>
      if (c =? "_")%char
      then if isdigit prev then drop_underscores c r else None
      else if (prev =? "_")%char && negb (isdigit c) then None
      else option_map (String c) (drop_underscores c r)
  | EmptyString => if (prev =? "_")%char then None else Some EmptyString
  end.

(** White space of the C locale, stripped around the number. *)
Definition c_isspace (c : ascii) : bool := in_range 9 13 c || (code c =? 32).

Fixpoint c_lstrip (s : string) : string :=
  match s with
  | String c r => if c_isspace c then c_lstrip r else s
  | EmptyString => EmptyString
  end.

Fixpoint c_rstrip (s : string) : string :=
  match s with
  | String c r =>
      match c_rstrip r with
      | EmptyString => if c_isspace c then EmptyString else String c EmptyString
      | r' => String c r'
      end
  | EmptyString => EmptyString
  end.

(** The body of a number after its sign: [inf], [infinity], [nan] in any
    letter case, or digits with an optional point and an optional exponent. *)
Definition parse_unsigned (neg : bool) (s : string) : option float :=
  let l := lower s in
  if (l =? "inf")%string || (l =? "infinity")%string then Some (S754_infinity neg)
  else if (l =? "nan")%string then Some S754_nan
  else
    let '(ip, n1, s2) := read_digits s 0 0 in
    let '(m, n2, s3) :=
      match s2 with
      | String "." r => read_digits r ip 0
      | _ => (ip, 0, s2)
      end in
    if n1 + n2 =? 0 then None
    else
      match s3 with
      | EmptyString => Some (of_decimal neg m (- n2))
      | String c r =>
          if (c =? "e")%char || (c =? "E")%char then
            let '(eneg, r1) := read_sign r in
            let '(ev, n3, r2) := read_digits r1 0 0 in
            if n3 =? 0 then None
            else
              match r2 with
              | EmptyString =>
                  Some (of_decimal neg m ((if eneg then - ev else ev) - n2))
              | _ => None
              end
          else None
      end.

(** [float(s)] for a string [s]; [None] is a [ValueError]. *)
Definition of_string (s : string) : option float :=
  match drop_underscores " "%char (to_ascii s) with
  | Some t =>
      let '(neg, body) := read_sign (c_rstrip (c_lstrip t)) in
      parse_unsigned neg body
  | None => None
  end.

(** *** [repr] of a float

    Python prints the shortest decimal digit string that [float] reads back
    to the same value, the nearest to the value among the shortest. *)

Fixpoint digits_of_fuel (fuel : nat) (n : Z) (acc : string) : string :=
  match fuel with
  | O => acc
  | S f =>
      let acc' := String (ascii_of_N (Z.to_N (48 + n mod 10))) acc in
      if n <? 10 then acc' else digits_of_fuel f (n / 10) acc'
  end.

(** The decimal digits of [n >= 0]. *)
Definition digits_of (n : Z) : string :=
  digits_of_fuel (S (Z.to_nat (Z.log2 n))) n "".

Definition strlen (s : string) : Z := Z.of_nat (String.length s).

(** The least [j >= 1] with [num * 10 ^ j >= den], found from [j]. *)
Fixpoint first_scale (fuel : nat) (num den j : Z) : Z :=
  match fuel with
  | O => j
  | S f => if den <=? num * 10 ^ j then j else first_scale f num den (j + 1)
  end.

(** The [k] with [10 ^ (k - 1) <= num / den < 10 ^ k], for [num, den > 0]. *)
Definition decimal_exponent (num den : Z) : Z :=
  if den <=? num then strlen (digits_of (num / den))
  else 1 - first_scale (Z.to_nat (Z.log2 den) + 1) num den 1.

(** Drops the zeros at the end of [d], counting them into the exponent. *)
Fixpoint drop_zeros (fuel : nat) (d s : Z) : Z * Z :=
  match fuel with
  | O => (d, s)
  | S f => if (d mod 10 =? 0) && (0 <? d) then drop_zeros f (d / 10) (s + 1)
           else (d, s)
  end.

Fixpoint zeros (n : nat) : string :=
  match n with O => "" | S k => String "0" (zeros k) end.

(** The layout of [repr]: exponent form when the decimal point falls more
    than four places before the digits or more than sixteen places in. *)
Definition layout (digits : string) (decpt : Z) : string :=
  let n := strlen digits in
  if (decpt <=? -4) || (16 <? decpt) then
    let ex := decpt - 1 in
    let exd := digits_of (Z.abs ex) in
    let mant :=
      match digits with
      | String c EmptyString => digits
      | String c r => String c (String "." r)
      | EmptyString => digits
      end in
    let sign := if ex <? 0 then "-" else "+" in
    let pad := if strlen exd <? 2 then "0" else "" in
    (mant ++ "e" ++ sign ++ pad ++ exd)%string
  else if decpt <=? 0 then
    let zs := zeros (Z.to_nat (- decpt)) in
    ("0." ++ zs ++ digits)%string
  else if n <=? decpt then
    let zs := zeros (Z.to_nat (decpt - n)) in
    (digits ++ zs ++ ".0")%string
  else
    let int_part := substring 0 (Z.to_nat decpt) digits in
    let frac_part := substring (Z.to_nat decpt) (Z.to_nat (n - decpt)) digits in
    (int_part ++ "." ++ frac_part)%string.

(** The text of the decimal [+- d * 10 ^ s], for [d > 0]. *)
Definition render (neg : bool) (d s : Z) : string :=
  let '(d', s') := drop_zeros 18 d s in
  let ds := digits_of d' in
  ((if neg then "-" else "") ++ layout ds (strlen ds + s'))%string.

(** The same float: the same zero, infinity, not-a-number or the same sign,
    mantissa and exponent. *)
Definition same (x y : float) : bool :=
  match x, y with
  | S754_zero a, S754_zero b => Bool.eqb a b
  | S754_infinity a, S754_infinity b => Bool.eqb a b
  | S754_nan, S754_nan => true
  | S754_finite a m e, S754_finite b m' e' =>
      Bool.eqb a b && (m =? m')%positive && (e =? e')
  | _, _ => false
  end.

(** [float(text) == x] *)
Definition reads_back (x : float) (text : string) : bool :=
  match of_string text with
  | Some y => same y x
  | None => false
  end.

(** The candidates with [n] digits around [num / den], the absolute value
    of [x]: the decimal below and the one above, both at the exponent
    [s = k - n].  One that [float] reads back as [x] is taken, the nearer
    one when both do. *)
Definition candidate (x : float) (neg : bool) (num den k n : Z)
  : option string :=
  let s := k - n in
  let num' := num * 10 ^ Z.max (- s) 0 in
  let den' := den * 10 ^ Z.max s 0 in
  let lo := num' / den' in
  let hi := lo + 1 in
  let tlo := render neg lo s in
  let thi := render neg hi s in
  let oklo := (0 <? lo) && reads_back x tlo in
  let okhi := reads_back x thi in
  if oklo && okhi then
    match 2 * num' ?= (2 * lo + 1) * den' with
    | Lt => Some tlo
    | Gt => Some thi
    | Eq => Some (if Z.even lo then tlo else thi)
    end
  else if oklo then Some tlo
  else if okhi then Some thi
  else None.

(** The first candidate that reads back, with [n], [n + 1], ... digits. *)
Fixpoint shortest_from (fuel : nat) (x : float) (neg : bool) (num den k n : Z)
  : option string :=
  match fuel with
  | O => None
  | S f =>
      match candidate x neg num den k n with
      | Some t => Some t
      | None => shortest_from f x neg num den k (n + 1)
      end
  end.

(** The exact decimal value of [+- m * 2 ^ e], written without a point. *)
Definition exact (neg : bool) (m : positive) (e : Z) : string :=
  let sign := if neg then "-" else "" in
  if 0 <=? e then (sign ++ digits_of (Zpos m * 2 ^ e))%string
  else (sign ++ digits_of (Zpos m * 5 ^ (- e)) ++ "e-" ++ digits_of (- e))%string.

(** [repr(x)], which is also [str(x)] and what [csv.writer] writes for a
    float: the shortest text that reads back as [x].  Seventeen digits
    always suffice for a binary64 value; the exact value closes the search. *)
Definition repr (x : float) : string :=
  match x with
  | S754_zero s => if s then "-0.0" else "0.0"
  | S754_infinity s => if s then "-inf" else "inf"
  | S754_nan => "nan"
  | S754_finite s m e =>
      let num := Zpos m * 2 ^ Z.max e 0 in
      let den := 2 ^ Z.max (- e) 0 in
      let k := decimal_exponent num den in
      match shortest_from 17 x s num den k 1 with
      | Some t => t
      | None => exact s m e
      end
  end.

End PyFloat.

(** ** [datetime.datetime.strptime(s, '%Y-%m-%d').date()] *)

Module PyDate.
Import PyStr.

Record date := { year : Z; month : Z; day : Z }.

(** [a <= b] on dates: by year, then month, then day. *)
Definition leb (a b : date) : bool :=
  (year a <? year b)
  || ((year a =? year b)
      && ((month a <? month b)
          || ((month a =? month b) && (day a <=? day b)))).

Definition is_leap (y : Z) : bool :=
  (y mod 4 =? 0) && (negb (y mod 100 =? 0) || (y mod 400 =? 0)).

Definition days_in_month (y m : Z) : Z :=
  if m =? 2 then (if is_leap y then 29 else 28)
  else if (m =? 4) || (m =? 6) || (m =? 9) || (m =? 11) then 30
  else 31.

(** [%Y]: exactly four digits. *)
Definition read_year (s : string) : option (Z * string) :=
  match s with
  | String a (String b (String c (String d r))) =>
      if isdigit a && isdigit b && isdigit c && isdigit d
      then Some (1000 * digit_val a + 100 * digit_val b
                 + 10 * digit_val c + digit_val d, r)
      else None
  | _ => None
  end.

(** [%m]: [1[0-2]], else [0[1-9]], else [[1-9]]. *)
Definition read_month (s : string) : option (Z * string) :=
  match s with
  | String a r =>
      match r with
      | String b r' =>
          if (a =? "1")%char && in_range 48 50 b
          then Some (10 + digit_val b, r')
          else if (a =? "0")%char && in_range 49 57 b
          then Some (digit_val b, r')
          else if in_range 49 57 a then Some (digit_val a, r)
          else None
      | EmptyString => if in_range 49 57 a then Some (digit_val a, r) else None
      end
  | EmptyString => None
  end.

(** [%d]: [3[01]], else [[12]\d], else [0[1-9]], else [[1-9]], else a blank
    and [[1-9]]. *)
Definition read_day (s : string) : option (Z * string) :=
  match s with
  | String a r =>
      match r with
      | String b r' =>
          if (a =? "3")%char && in_range 48 49 b
          then Some (30 + digit_val b, r')
          else if in_range 49 50 a && isdigit b
          then Some (10 * digit_val a + digit_val b, r')
          else if (a =? "0")%char && in_range 49 57 b
          then Some (digit_val b, r')
          else if in_range 49 57 a then Some (digit_val a, r)
          else if (a =? " ")%char && in_range 49 57 b
          then Some (digit_val b, r')
          else None
      | EmptyString => if in_range 49 57 a then Some (digit_val a, r) else None
      end
  | EmptyString => None
  end.

(** The whole string must be a year, a dash, a month, a dash and a day, and
    name a day of the calendar; [None] is a [ValueError]. *)
Definition strptime (s : string) : option date :=
  match read_year s with
  | Some (y, String "-" s1) =>
      match read_month s1 with
      | Some (m, String "-" s2) =>
          match read_day s2 with
          | Some (d, EmptyString) =>
              if (1 <=? y) && (d <=? days_in_month y m)
              then Some {| year := y; month := m; day := d |}
              else None
          | _ => None
          end
      | _ => None
      end
  | _ => None
  end.

End PyDate.

(** ** The data handling module *)

Import PyStr.

Definition len {A : Type} (l : list A) : Z := Z.of_nat (List.length l).

(** [class Transaction] *)
Record Transaction := {
  date : string;
  transaction_type : string;
  category : string;
  reason : string;
  amount : PyFloat.float;
  notes : string;
  mode : string
}.

(** A row of the file, as [csv.reader] yields it. *)
Definition row := list string.

(** The message boxes the program shows. *)
Inductive dialog :=
| HeaderMismatch (found : row)   (* showwarning: CSV header mismatch *)
| CsvDataError (r : row)         (* showerror: CSV data error at row *)
| LoadError                      (* showerror: Error loading transactions *)
| SaveError                      (* showerror: Error saving transactions *)
| InputError (message : string)  (* showerror: Input Error *)
| FilterWarning.                 (* showwarning: Invalid date format. Dates ignored. *)

Definition expected_header : row :=
  ["Date"; "Type"; "Category"; "Reason"; "Amount"; "Notes"; "Mode"].

(** The split of the trailing fields [parts] into the mode and the parts of
    the notes (lines 50-62). *)
Definition split_parts (parts : list string) : string * list string :=
  if 1 <? len parts then (last parts "", removelast parts)
  else if len parts =? 1 then
    if mem (hd "" parts) ["Online"; "Cash"] then (hd "" parts, [])
    else ("Online", parts)
  else ("Online", []).

(** The body of the [try] for one row (lines 49-64); [None] is the
    [ValueError] of a row with fewer than five fields or of [float]. *)
Definition decode_row (r : row) : option Transaction :=
  match r with
  | date :: transaction_type :: category :: reason :: amount :: parts =>
      let '(mode, notes_parts) := split_parts parts in
      let notes := strip (join notes_parts) in
      match PyFloat.of_string amount with
      | Some a =>
          Some {| date := date; transaction_type := transaction_type;
                  category := category; reason := reason; amount := a;
                  notes := notes; mode := mode |}
      | None => None
      end
  | _ => None
  end.

(** One turn of the loop over the data rows: an empty row is passed over, a
    row that decodes is appended, any other row is reported. *)
Definition load_step (st : list Transaction * list dialog) (r : row)
  : list Transaction * list dialog :=
  let '(transactions, shown) := st in
  match r with
  | [] => st
  | _ =>
      match decode_row r with
      | Some t => (transactions ++ [t], shown)
      | None => (transactions, shown ++ [CsvDataError r])
      end
  end.

(** What [csv.reader] makes of the file: the rows it yields, and whether it
    raised after the last of them, as it does at a field above the size
    limit or at bytes that are no text.  A file that exists but cannot be
    opened is a reader that raises before any row. *)
Record reading := {
  rows_read : list row;
  reader_raised : bool
}.

(** [load_transactions_from_csv]: [None] is a file that does not exist.
    The first row is taken for the header, the others go through the loop;
    what the reader raises ends the loop and is shown (lines 71-72), and the
    transactions loaded until then are returned. *)
Definition load_transactions_from_csv (file : option reading)
  : list Transaction * list dialog :=
  match file with
  | None => ([], [])
  | Some r =>
      let '(transactions, shown) :=
        match rows_read r with
        | [] => ([], [])
        | header :: rows =>
            let shown :=
              if list_eq_dec string_dec header expected_header then []
              else [HeaderMismatch header] in
            fold_left load_step rows ([], shown)
        end in
      (transactions, if reader_raised r then shown ++ [LoadError] else shown)
  end.

(** The row [csv.writer] is given for a transaction (line 32), the amount
    in the text form the writer gives a float. *)
Definition encode_row (t : Transaction) : row :=
  [date t; transaction_type t; category t; reason t;
   PyFloat.repr (amount t); notes t; mode t].

(** *** What [csv.writer] writes

    The writer has the default dialect: fields separated by commas, a field
    put between double quotes when it holds a comma, a double quote, a
    carriage return or a line feed, a double quote inside it doubled, and
    every row ended by a carriage return and a line feed. *)

Definition LF : ascii := "010"%char.
Definition CR : ascii := "013"%char.
Definition double_quote : ascii := "034"%char.

Fixpoint needs_quotes (s : string) : bool :=
  match s with
  | String c r =>
      (c =? ",")%char || (c =? double_quote)%char || (c =? CR)%char
      || (c =? LF)%char || needs_quotes r
  | EmptyString => false
  end.

Fixpoint double_quotes (s : string) : string :=
  match s with
  | String c r =>
      if (c =? double_quote)%char
      then String c (String c (double_quotes r))
      else String c (double_quotes r)
  | EmptyString => EmptyString
  end.

Definition csv_field (f : string) : string :=
  if needs_quotes f
  then String double_quote (double_quotes f ++ String double_quote "")
  else f.

(** The line of a row; a row of one empty field is written as two double
    quotes. *)
Definition csv_line (r : row) : string :=
  let fields :=
    match r with
    | [EmptyString] => String double_quote (String double_quote "")
    | _ => String.concat "," (map csv_field r)
    end in
  (fields ++ String CR (String LF ""))%string.

(** The bytes of a text in UTF-8, the encoding of the files. *)
Definition utf8_char (c : ascii) : string :=
  if code c <? 128 then String c ""
  else String (ascii_of_N (Z.to_N (192 + code c / 64)))
         (String (ascii_of_N (Z.to_N (128 + code c mod 64))) "").

Fixpoint utf8 (s : string) : string :=
  match s with
  | String c r => (utf8_char c ++ utf8 r)%string
  | EmptyString => EmptyString
  end.

(** [csv_writer.writerow(r)]: the line goes to the buffer of the file. *)
Definition writerow (buffer : string) (r : row) : string :=
  (buffer ++ csv_line r)%string.

(** [save_transactions_to_csv] on the file [old], the bytes it holds
    ([None]: no such file).  [can_open] tells whether [open(filename, 'w')]
    succeeds; once it has, the file is empty.  The rows are written to the
    buffer of the file and reach the file when the buffer is flushed, at
    the latest when the file is closed.  [cut] is [None] when all of this
    goes through; when the system refuses a write (the disk is full, say),
    it is the number of bytes that had reached the file, and the exception
    is caught and shown. *)
Definition save_transactions_to_csv (can_open : bool) (cut : option nat)
    (transactions : list Transaction) (old : option string)
  : option string * list dialog :=
  if can_open then
    let buffer :=
      fold_left writerow (map encode_row transactions)
                (writerow "" expected_header) in
    match cut with
    | None => (Some (utf8 buffer), [])
    | Some k => (Some (substring 0 k (utf8 buffer)), [SaveError])
    end
  else (old, [SaveError]).

(** ** The application: [class FinanceApp] *)

(** [validate_input]: the verdict and the message boxes shown.  [categories]
    is [self.categories]. *)
Definition validate_input (categories : list string)
    (date_str amount_str reason_str category_str : string)
  : bool * list dialog :=
  if negb (truthy date_str) || negb (truthy amount_str)
     || negb (truthy reason_str) || negb (truthy category_str)
  then (false, [InputError "Date, Category, Reason, and Amount are required."])
  else if negb (mem category_str categories)
  then (false, [InputError "Invalid Category selected."])
  else
    match PyDate.strptime date_str with
    | None => (false, [InputError "Invalid date format. Use YYYY-MM-DD."])
    | Some _ =>
        match PyFloat.of_string amount_str with
        | Some amount =>
            if PyFloat.leb amount PyFloat.zero
            then (false, [InputError "Amount must be positive."])
            else (true, [])
        | None => (true, [InputError "Invalid amount. Enter a numeric value."])
        end
    end.

(** What the entry widgets of the form hold when a button is pressed. *)
Record form := {
  date_entry : string;
  type_var : string;
  category_var : string;
  reason_entry : string;
  amount_entry : string;
  notes_entry : string;
  mode_var : string
}.

(** One turn of the loop of [calculate_balance]. *)
Definition balance_step (balance : PyFloat.float) (t : Transaction)
  : PyFloat.float :=
  if (transaction_type t =? "Credit")%string
  then PyFloat.add balance (amount t)
  else PyFloat.sub balance (amount t).

(** [calculate_balance(transactions, mode)]; [mode = None] is the default
    argument. *)
Definition calculate_balance (transactions : list Transaction)
    (mode_filter : option string) : PyFloat.float :=
  let transactions :=
    match mode_filter with
    | Some m =>
        if truthy m
        then filter (fun t => (mode t =? m)%string) transactions
        else transactions
    | None => transactions
    end in
  fold_left balance_step transactions PyFloat.zero.

(** The six running sums of [calculate_summary]. *)
Record summary := {
  total_credits : PyFloat.float;
  total_debits : PyFloat.float;
  online_credits : PyFloat.float;
  online_debits : PyFloat.float;
  cash_credits : PyFloat.float;
  cash_debits : PyFloat.float
}.

Definition summary_zero : summary :=
  {| total_credits := PyFloat.zero; total_debits := PyFloat.zero;
     online_credits := PyFloat.zero; online_debits := PyFloat.zero;
     cash_credits := PyFloat.zero; cash_debits := PyFloat.zero |}.

(** One turn of the loop of [calculate_summary]. *)
Definition summary_step (s : summary) (t : Transaction) : summary :=
  let a := amount t in
  if (transaction_type t =? "Credit")%string then
    if (mode t =? "Online")%string then
      {| total_credits := PyFloat.add (total_credits s) a;
         total_debits := total_debits s;
         online_credits := PyFloat.add (online_credits s) a;
         online_debits := online_debits s;
         cash_credits := cash_credits s;
         cash_debits := cash_debits s |}
    else
      {| total_credits := PyFloat.add (total_credits s) a;
         total_debits := total_debits s;
         online_credits := online_credits s;
         online_debits := online_debits s;
         cash_credits := PyFloat.add (cash_credits s) a;
         cash_debits := cash_debits s |}
  else
    if (mode t =? "Online")%string then
      {| total_credits := total_credits s;
         total_debits := PyFloat.add (total_debits s) a;
         online_credits := online_credits s;
         online_debits := PyFloat.add (online_debits s) a;
         cash_credits := cash_credits s;
         cash_debits := cash_debits s |}
    else
      {| total_credits := total_credits s;
         total_debits := PyFloat.add (total_debits s) a;
         online_credits := online_credits s;
         online_debits := online_debits s;
         cash_credits := cash_credits s;
         cash_debits := PyFloat.add (cash_debits s) a |}.

(** [calculate_summary(transactions)] *)
Definition calculate_summary (transactions : list Transaction) : summary :=
  fold_left summary_step transactions summary_zero.

(** What the filter widgets hold when [apply_filters] runs. *)
Record criteria := {
  filter_start_date_entry : string;
  filter_end_date_entry : string;
  filter_type_var : string;
  filter_category_var : string;
  search_entry : string;
  filter_mode_var : string
}.

(** The list comprehension of line 609: every date is parsed, and the first
    one that does not parse raises ([None]). *)
Fixpoint within_dates (start_date end_date : PyDate.date)
    (ts : list Transaction) : option (list Transaction) :=
  match ts with
  | [] => Some []
  | t :: rest =>
      match PyDate.strptime (date t) with
      | None => None
      | Some d =>
          match within_dates start_date end_date rest with
          | None => None
          | Some kept =>
              if PyDate.leb start_date d && PyDate.leb d end_date
              then Some (t :: kept) else Some kept
          end
      end
  end.

(** The [try] of lines 606-611: the list after the date constraint, and
    the warning shown when a [ValueError] was caught. *)
Definition date_constraint (start_date_str end_date_str : string)
    (filtered : list Transaction) : list Transaction * list dialog :=
  match PyDate.strptime start_date_str with
  | None => (filtered, [FilterWarning])
  | Some start_date =>
      match PyDate.strptime end_date_str with
      | None => (filtered, [FilterWarning])
      | Some end_date =>
          match within_dates start_date end_date filtered with
          | Some kept => (kept, [])
          | None => (filtered, [FilterWarning])
          end
      end
  end.

(** Lines 613-620: the constraints on type, mode, category and text. *)
Definition other_constraints (c : criteria) (filtered : list Transaction)
  : list Transaction :=
  let search_term := lower (search_entry c) in
  let filtered :=
    if (filter_type_var c =? "All")%string then filtered
    else filter (fun t => (transaction_type t =? filter_type_var c)%string)
                filtered in
  let filtered :=
    if (filter_mode_var c =? "All")%string then filtered
    else filter (fun t => (mode t =? filter_mode_var c)%string) filtered in
  let filtered :=
    if (filter_category_var c =? "All")%string then filtered
    else filter (fun t => (category t =? filter_category_var c)%string)
                filtered in
  if truthy search_term
  then filter (fun t => contains search_term (lower (reason t))
                        || contains search_term (lower (category t))
                        || contains search_term (lower (notes t)))
              filtered
  else filtered.

(** [apply_filters]: the new [self.filtered_transactions] and the warning. *)
Definition apply_filters (c : criteria) (transactions : list Transaction)
  : list Transaction * list dialog :=
  let '(filtered, boxes) :=
    date_constraint (filter_start_date_entry c) (filter_end_date_entry c)
                    transactions in
  (other_constraints c filtered, boxes).

(** ** The category list

    The category file is text: [None] is a file that does not exist, and a
    string is what the file holds.  Text is stored as it is written; on
    reading, every carriage return, alone or before a line feed, comes out
    as one line feed. *)

Fixpoint universal_newlines (s : string) : string :=
  match s with
  | String c r =>
      if (c =? CR)%char then
        match r with
        | String d r' =>
            if (d =? LF)%char then String LF (universal_newlines r')
            else String LF (universal_newlines r)
        | EmptyString => String LF EmptyString
        end
      else String c (universal_newlines r)
  | EmptyString => EmptyString
  end.

(** The lines of a text, each with the line feed that ends it; the last one
    may have none. *)
Fixpoint split_lines (s : string) : list string :=
  match s with
  | String c r =>
      if (c =? LF)%char then String c EmptyString :: split_lines r
      else
        match split_lines r with
        | l :: ls => String c l :: ls
        | [] => [String c EmptyString]
        end
  | EmptyString => []
  end.

(** [f.readlines()] on a file opened for reading as text. *)
Definition readlines (content : string) : list string :=
  split_lines (universal_newlines content).

Fixpoint insort (x : string) (l : list string) : list string :=
  match l with
  | y :: r => if String.leb x y then x :: l else y :: insort x r
  | [] => [x]
  end.

(** [sorted(l)] and [l.sort()] on strings: by code points. *)
Fixpoint sorted (l : list string) : list string :=
  match l with
  | x :: r => insort x (sorted r)
  | [] => []
  end.

(** [l.remove(x)]: without the first [x]. *)
Fixpoint list_remove (x : string) (l : list string) : list string :=
  match l with
  | y :: r => if (y =? x)%string then r else y :: list_remove x r
  | [] => []
  end.

(** The message boxes of the category functions. *)
Inductive category_box :=
| SaveCategoriesError      (* showerror: Error saving categories *)
| EmptyCategoryName        (* showwarning: Category name cannot be empty. *)
| CategoryExists.          (* showwarning: Category already exists. *)

(** [f.write(category + "\n")]: the text goes to the buffer of the file. *)
Definition write_category (buffer category : string) : string :=
  (buffer ++ category ++ String LF EmptyString)%string.

(** [save_categories] on the file [old].  [can_open] tells whether
    [open(filename, 'w')] succeeds; once it has, the file is empty.  [cut]
    is [None] when the writing goes through; when the system refuses a
    write, it is the number of characters that had reached the file, and
    the exception is caught and shown. *)
Definition save_categories (can_open : bool) (cut : option nat)
    (categories : list string) (old : option string)
  : option string * list category_box :=
  if can_open then
    let buffer := fold_left write_category categories EmptyString in
    match cut with
    | None => (Some buffer, [])
    | Some k => (Some (substring 0 k buffer), [SaveCategoriesError])
    end
  else (old, [SaveCategoriesError]).

Definition default_categories : list string :=
  ["Food"; "Utilities"; "Salary"; "Entertainment"; "Transportation"; "Other"].

(** [load_categories]: the list, the file afterwards and the message boxes.
    [can_open] and [cut] are for the saving of the default list when the
    file does not exist. *)
Definition load_categories (can_open : bool) (cut : option nat)
    (file : option string) : list string * option string * list category_box :=
  match file with
  | Some content =>
      let categories := map strip (readlines content) in
      (sorted (nodup string_dec categories), file, [])
  | None =>
      let '(file', boxes) :=
        save_categories can_open cut default_categories file in
      (default_categories, file', boxes)
  end.

(** [add_category] with the text of the entry: the list, the file and the
    message boxes afterwards. *)
Definition add_category (can_open : bool) (cut : option nat)
    (new_category_entry : string) (categories : list string)
    (file : option string) : list string * option string * list category_box :=
  let new_category := strip new_category_entry in
  if truthy new_category && negb (mem new_category categories) then
    let categories := sorted (categories ++ [new_category]) in
    let '(file', boxes) := save_categories can_open cut categories file in
    (categories, file', boxes)
  else if negb (truthy new_category) then
    (categories, file, [EmptyCategoryName])
  else (categories, file, [CategoryExists]).

(** [delete_category], as far as the category list and its file go:
    [selected] is the name selected in the list box, if any, and [confirmed]
    the answer to the question asked.  The filter that the handler applies
    at its end is [App.apply_filters] below. *)
Definition delete_category (can_open : bool) (cut : option nat)
    (selected : option string) (confirmed : bool) (categories : list string)
    (file : option string) : list string * option string * list category_box :=
  match selected with
  | Some category_to_delete =>
      if confirmed then
        if mem category_to_delete categories then
          let categories := list_remove category_to_delete categories in
          let '(file', boxes) :=
            save_categories can_open cut categories file in
          (categories, file', boxes)
        else (categories, file, [])
      else (categories, file, [])
  | None => (categories, file, [])
  end.

(** ** The running application

    [self.transactions] and [self.filtered_transactions] are lists of
    references to [Transaction] objects, and the filtered list shares its
    objects with the ledger.  The class defines no [__eq__], so
    [list.index] finds an object by its identity.  An object is an [entry]:
    its identity and its fields, which nothing changes once it is made. *)

Module App.

Record entry := { ident : nat; fields : Transaction }.

(** A message box: one of those above, or a [showinfo]. *)
Inductive box :=
| Shown (d : dialog)
| Info (message : string).

Record app := {
  transactions : list entry;
  filtered_transactions : list entry;
  current_balance : PyFloat.float;
  next_ident : nat;               (* the identity of the next object made *)
  widgets : criteria;             (* what the filter widgets hold *)
  disk : option string;           (* the bytes of transactions.csv *)
  boxes : list box                (* the message boxes shown so far *)
}.

(** [l.index(o)]: the first place of [l] that holds the object [o];
    [None] is a [ValueError]. *)
Fixpoint index (o : entry) (l : list entry) : option nat :=
  match l with
  | x :: r => if (ident x =? ident o)%nat then Some O
              else option_map S (index o r)
  | [] => None
  end.

(** The list comprehension of line 609 on objects. *)
Fixpoint within_dates (start_date end_date : PyDate.date) (os : list entry)
  : option (list entry) :=
  match os with
  | [] => Some []
  | o :: rest =>
      match PyDate.strptime (date (fields o)) with
      | None => None
      | Some d =>
          match within_dates start_date end_date rest with
          | None => None
          | Some kept =>
              if PyDate.leb start_date d && PyDate.leb d end_date
              then Some (o :: kept) else Some kept
          end
      end
  end.

Definition date_constraint (start_date_str end_date_str : string)
    (filtered : list entry) : list entry * list dialog :=
  match PyDate.strptime start_date_str with
  | None => (filtered, [FilterWarning])
  | Some start_date =>
      match PyDate.strptime end_date_str with
      | None => (filtered, [FilterWarning])
      | Some end_date =>
          match within_dates start_date end_date filtered with
          | Some kept => (kept, [])
          | None => (filtered, [FilterWarning])
          end
      end
  end.

Definition other_constraints (c : criteria) (filtered : list entry)
  : list entry :=
  let search_term := lower (search_entry c) in
  let filtered :=
    if (filter_type_var c =? "All")%string then filtered
    else filter (fun o => (transaction_type (fields o) =? filter_type_var c)%string)
                filtered in
  let filtered :=
    if (filter_mode_var c =? "All")%string then filtered
    else filter (fun o => (mode (fields o) =? filter_mode_var c)%string)
                filtered in
  let filtered :=
    if (filter_category_var c =? "All")%string then filtered
    else filter (fun o => (category (fields o) =? filter_category_var c)%string)
                filtered in
  if truthy search_term
  then filter (fun o => contains search_term (lower (reason (fields o)))
                        || contains search_term (lower (category (fields o)))
                        || contains search_term (lower (notes (fields o))))
              filtered
  else filtered.

(** [apply_filters] on the state. *)
Definition apply_filters (st : app) : app :=
  let c := widgets st in
  let '(filtered, warned) :=
    date_constraint (filter_start_date_entry c) (filter_end_date_entry c)
                    (transactions st) in
  {| transactions := transactions st;
     filtered_transactions := other_constraints c filtered;
     current_balance := current_balance st;
     next_ident := next_ident st;
     widgets := c;
     disk := disk st;
     boxes := boxes st ++ map Shown warned |}.

(** [save_and_update]: the ledger is saved, the balance recomputed and the
    filter applied. *)
Definition save_and_update (can_open : bool) (cut : option nat) (st : app)
  : app :=
  let ledger := map fields (transactions st) in
  let '(disk', shown) :=
    save_transactions_to_csv can_open cut ledger (disk st) in
  apply_filters
    {| transactions := transactions st;
       filtered_transactions := filtered_transactions st;
       current_balance := calculate_balance ledger None;
       next_ident := next_ident st;
       widgets := widgets st;
       disk := disk';
       boxes := boxes st ++ map Shown shown |}.

Definition with_ledger (st : app) (ledger : list entry) (fresh : nat)
    (shown : list box) : app :=
  {| transactions := ledger;
     filtered_transactions := filtered_transactions st;
     current_balance := current_balance st;
     next_ident := fresh;
     widgets := widgets st;
     disk := disk st;
     boxes := boxes st ++ shown |}.

(** The [Transaction] object made from a form whose amount text [float]
    read as [amount]. *)
Definition make (fresh : nat) (f : form) (amount : PyFloat.float) : entry :=
  {| ident := fresh;
     fields := {| date := date_entry f; transaction_type := type_var f;
                  category := category_var f; reason := reason_entry f;
                  amount := amount; notes := strip (notes_entry f);
                  mode := mode_var f |} |}.

(** [add_transaction]: the state afterwards and whether an exception went
    uncaught. *)
Definition add_transaction (can_open : bool) (cut : option nat)
    (categories : list string) (f : form) (st : app) : app * bool :=
  let '(ok, shown) :=
    validate_input categories (date_entry f) (amount_entry f)
                   (reason_entry f) (category_var f) in
  let st := with_ledger st (transactions st) (next_ident st)
                        (map Shown shown) in
  if ok then
    match PyFloat.of_string (amount_entry f) with
    | Some amount =>
        let new_transaction := make (next_ident st) f amount in
        (save_and_update can_open cut
           (with_ledger st (transactions st ++ [new_transaction])
                        (S (next_ident st)) []),
         false)
    | None => (st, true)
    end
  else (st, false).

(** [edit_transaction] up to the opening of the window: the object to
    edit, when a row is selected.  [selected] is the row of the selected
    item. *)
Definition edit_transaction (selected : option nat) (st : app)
  : option entry * app * bool :=
  match selected with
  | None =>
      (None, with_ledger st (transactions st) (next_ident st)
                         [Info "Select a transaction to edit."], false)
  | Some selected_index =>
      match nth_error (filtered_transactions st) selected_index with
      | Some old_transaction => (Some old_transaction, st, false)
      | None => (None, st, true)
      end
  end.

(** [save_edit], the handler of the button of the edit window opened for
    [old_transaction]. *)
Definition save_edit (can_open : bool) (cut : option nat)
    (categories : list string) (old_transaction : entry) (f : form)
    (st : app) : app * bool :=
  let '(ok, shown) :=
    validate_input categories (date_entry f) (amount_entry f)
                   (reason_entry f) (category_var f) in
  let st := with_ledger st (transactions st) (next_ident st)
                        (map Shown shown) in
  if ok then
    match PyFloat.of_string (amount_entry f) with
    | Some amount =>
        let updated_transaction := make (next_ident st) f amount in
        match index old_transaction (transactions st) with
        | Some original_index =>
            let ledger :=
              firstn original_index (transactions st)
              ++ updated_transaction
                 :: skipn (S original_index) (transactions st) in
            (apply_filters
               (save_and_update can_open cut
                  (with_ledger st ledger (S (next_ident st)) [])),
             false)
        | None => (with_ledger st (transactions st) (S (next_ident st)) [],
                   true)
        end
    | None => (st, true)
    end
  else (st, false).

(** [delete_transaction]; [confirmed] is the answer to the question. *)
Definition delete_transaction (can_open : bool) (cut : option nat)
    (selected : option nat) (confirmed : bool) (st : app) : app * bool :=
  match selected with
  | None =>
      (with_ledger st (transactions st) (next_ident st)
                   [Info "Select a transaction to delete."], false)
  | Some selected_index =>
      if confirmed then
        match nth_error (filtered_transactions st) selected_index with
        | Some transaction_to_delete =>
            match index transaction_to_delete (transactions st) with
            | Some original_index_to_delete =>
                let ledger :=
                  firstn original_index_to_delete (transactions st)
                  ++ skipn (S original_index_to_delete) (transactions st) in
                (apply_filters
                   (save_and_update can_open cut
                      (with_ledger st ledger (next_ident st) [])),
                 false)
            | None => (st, true)
            end
        | None => (st, true)
        end
      else (st, false)
  end.

(** [clear_all_transactions] *)
Definition clear_all_transactions (can_open : bool) (cut : option nat)
    (confirmed : bool) (st : app) : app :=
  if confirmed then
    apply_filters
      (save_and_update can_open cut (with_ledger st [] (next_ident st) []))
  else st.

(** The objects made for the loaded transactions, numbered from [n]. *)
Fixpoint objects (n : nat) (ts : list Transaction) : list entry :=
  match ts with
  | t :: rest => {| ident := n; fields := t |} :: objects (S n) rest
  | [] => []
  end.

(** [__init__], as far as the ledger goes: the file is loaded and the whole
    ledger is shown.  [file] is transactions.csv as it is found and [read]
    what [csv.reader] makes of it; the message boxes are those of the
    loading of the ledger. *)
Definition init (c : criteria) (file : option string) (read : option reading)
  : app :=
  let '(ts, shown) := load_transactions_from_csv read in
  let ledger := objects 0 ts in
  {| transactions := ledger;
     filtered_transactions := ledger;
     current_balance := calculate_balance ts None;
     next_ident := List.length ts;
     widgets := c;
     disk := file;
     boxes := map Shown shown |}.

(** What the user does: the buttons with what the widgets hold. *)
Inductive action :=
| Add (f : form)
| SaveEdit (old_transaction : entry) (f : form)
| Delete (selected : option nat) (confirmed : bool)
| ClearAll (confirmed : bool)
| Filter.

(** The handler of an action. *)
Definition run (can_open : bool) (cut : option nat)
    (categories : list string) (a : action) (st : app) : app :=
  match a with
  | Add f => fst (add_transaction can_open cut categories f st)
  | SaveEdit old f => fst (save_edit can_open cut categories old f st)
  | Delete selected confirmed =>
      fst (delete_transaction can_open cut selected confirmed st)
  | ClearAll confirmed => clear_all_transactions can_open cut confirmed st
  | Filter => apply_filters st
  end.

End App.

(** ** Definitions used to state the properties *)

(** *** Floats that are whole multiples of a power of two *)

(** [shl p n] is [p * 2 ^ n]. *)
Definition shl (p : positive) (n : nat) : positive := Nat.iter n xO p.

(** The binary64 form of [+- p * 2 ^ e] for [p] below [2 ^ 53]: the mantissa
    is brought to 53 bits. *)
Definition canon (s : bool) (p : positive) (e : Z) : PyFloat.float :=
  let d := Zpos (digits2_pos p) in
  S754_finite s (shl p (Z.to_nat (53 - d))) (e + d - 53).

(** The float nearest to [n * 2 ^ e]. *)
Definition dyadic (n e : Z) : PyFloat.float :=
  binary_normalize PyFloat.prec64 PyFloat.emax64 n e false.

Definition sign_of (n : Z) : bool := n <? 0.

(** The value of a float counted in units of [2 ^ (- g)], when it is a whole
    number of them. *)
Definition units (g : Z) (x : PyFloat.float) : Z :=
  match x with
  | S754_finite s m e =>
      if 0 <=? e + g then cond_Zopp s (Zpos m * 2 ^ (e + g))
      else cond_Zopp s (Zpos m / 2 ^ (- (e + g)))
  | _ => 0
  end.

(** [x] is a whole multiple of [2 ^ (- g)]: whole units for [g = 0], halves
    for [g = 1], quarters for [g = 2]. *)
Definition whole (g : Z) (x : PyFloat.float) : Prop :=
  x = dyadic (units g x) (- g).

Definition is_credit (t : Transaction) : bool :=
  (transaction_type t =? "Credit")%string.

Definition is_online (t : Transaction) : bool :=
  (mode t =? "Online")%string.

(** The exact sum, in units of [2 ^ (- g)], of the amounts of the
    transactions that satisfy [P]. *)
Fixpoint sum_where (P : Transaction -> bool) (g : Z) (ts : list Transaction)
  : Z :=
  match ts with
  | [] => 0
  | t :: rest =>
      (if P t then units g (amount t) else 0) + sum_where P g rest
  end.

(** The sum of the absolute values of all amounts, in the same units. *)
Fixpoint sum_abs (g : Z) (ts : list Transaction) : Z :=
  match ts with
  | [] => 0
  | t :: rest => Z.abs (units g (amount t)) + sum_abs g rest
  end.

(** One turn of a loop that adds the amount when [P] holds: each of the six
    sums of [calculate_summary] is such a loop. *)
Definition cond_add (P : Transaction -> bool) (acc : PyFloat.float)
    (t : Transaction) : PyFloat.float :=
  if P t then PyFloat.add acc (amount t) else acc.

Definition is_debit (t : Transaction) : bool := negb (is_credit t).

(** The transactions [calculate_balance] keeps for a mode filter. *)
Definition restrict (mode_filter : option string) (ts : list Transaction)
  : list Transaction :=
  match mode_filter with
  | Some m => if truthy m then filter (fun t => (mode t =? m)%string) ts else ts
  | None => ts
  end.

(** [x] is a decimal number with at most two fractional digits: a hundred
    times its value is an integer. *)
Definition two_digit_decimal (x : PyFloat.float) : bool :=
  match x with
  | S754_zero _ => true
  | S754_finite _ m e =>
      if 0 <=? e then true else (100 * Zpos m) mod 2 ^ (- e) =? 0
  | _ => false
  end.

(** *** The wording of the specification *)

(** The rule of the specification for the trailing fields of a row, as it
    is worded: the notes and the mode. *)
Definition spec_trailing (parts : list string) : string * string :=
  match parts with
  | [] => ("", "Online")
  | [p] =>
      if (p =? "Online")%string || (p =? "Cash")%string then ("", p)
      else (p, "Online")
  | _ => (join (removelast parts), last parts "")
  end.

(** A valid transaction in the sense of the specification; its amount is a
    binary64 value, as every Python float is. *)
Definition valid_transaction (t : Transaction) : Prop :=
  PyDate.strptime (date t) <> None
  /\ (transaction_type t = "Credit" \/ transaction_type t = "Debit")
  /\ category t <> ""
  /\ valid_binary PyFloat.prec64 PyFloat.emax64 (amount t) = true
  /\ PyFloat.ltb PyFloat.zero (amount t) = true
  /\ (mode t = "Online" \/ mode t = "Cash").

(** No comma, double quote, carriage return or line feed. *)
Fixpoint delimiter_free (s : string) : bool :=
  match s with
  | String c r =>
      negb ((code c =? 44) || (code c =? 34) || (code c =? 13) || (code c =? 10))
      && delimiter_free r
  | EmptyString => true
  end.

(** The amount text has exactly two digits after the point. *)
Fixpoint two_fraction_digits (s : string) : bool :=
  match s with
  | String "." (String a (String b EmptyString)) => isdigit a && isdigit b
  | String c r => isdigit c && two_fraction_digits r
  | EmptyString => false
  end.

(** The transaction lies in the closed range of dates. *)
Definition dated_within (start_date end_date : PyDate.date) (t : Transaction)
  : bool :=
  match PyDate.strptime (date t) with
  | Some d => PyDate.leb start_date d && PyDate.leb d end_date
  | None => false
  end.

(** [a < b] on dates: an earlier year, or the same year and an earlier
    month, or the same month and an earlier day. *)
Definition date_ltb (a b : PyDate.date) : bool :=
  (PyDate.year a <? PyDate.year b)
  || ((PyDate.year a =? PyDate.year b)
      && ((PyDate.month a <? PyDate.month b)
          || ((PyDate.month a =? PyDate.month b)
              && (PyDate.day a <? PyDate.day b)))).

(** The transaction meets the constraints on type, mode, category and
    text of the criteria. *)
Definition passes (c : criteria) (t : Transaction) : bool :=
  let search_term := lower (search_entry c) in
  ((filter_type_var c =? "All")%string
   || (transaction_type t =? filter_type_var c)%string)
  && ((filter_mode_var c =? "All")%string
      || (mode t =? filter_mode_var c)%string)
  && ((filter_category_var c =? "All")%string
      || (category t =? filter_category_var c)%string)
  && (negb (truthy search_term)
      || contains search_term (lower (reason t))
      || contains search_term (lower (category t))
      || contains search_term (lower (notes t))).

(** What a row adds to the ledger and to the message boxes when loaded. *)
Definition decoded (r : row) : list Transaction :=
  match decode_row r with Some t => [t] | None => [] end.

Definition reported (r : row) : list dialog :=
  match r with
  | [] => []
  | _ => match decode_row r with Some _ => [] | None => [CsvDataError r] end
  end.

(** *** Sample data *)

(** A data row with the given date, type, amount text and mode. *)
Definition sample_row (d ty a m : string) : row :=
  [d; ty; "Food"; "Lunch"; a; ""; m].

(** The transactions loaded from a file of sample rows. *)
Definition loaded_from (rows : list row) : list Transaction :=
  fst (load_transactions_from_csv
         (Some {| rows_read := expected_header :: rows;
                  reader_raised := false |})).

Definition padded_notes_salary : Transaction :=
  {| date := "2024-01-01"; transaction_type := "Credit";
     category := "Salary"; reason := "Pay"; amount := PyFloat.of_Z 1000;
     notes := " advance"; mode := "Online" |}.

(** Two credits of 0.1 and 0.2. *)
Definition two_tenths : list Transaction :=
  loaded_from [sample_row "2024-01-01" "Credit" "0.1" "Online";
               sample_row "2024-01-02" "Credit" "0.2" "Cash"].

(** Credits of 0.1 online, 0.2 and 0.3 in cash. *)
Definition three_credits : list Transaction :=
  loaded_from [sample_row "2024-01-01" "Credit" "0.1" "Online";
               sample_row "2024-01-02" "Credit" "0.2" "Cash";
               sample_row "2024-01-03" "Credit" "0.3" "Cash"].

(** A credit of 0.1, a debit of 0.3 and a credit of 0.2. *)
Definition credit_debit_credit : list Transaction :=
  loaded_from [sample_row "2024-01-01" "Credit" "0.1" "Online";
               sample_row "2024-01-02" "Debit" "0.3" "Cash";
               sample_row "2024-01-03" "Credit" "0.2" "Cash"].

(** Amounts in quarters of a unit. *)
Definition quarters : list Transaction :=
  loaded_from [sample_row "2024-01-01" "Credit" "12.5" "Online";
               sample_row "2024-01-02" "Debit" "3.25" "Cash";
               sample_row "2024-01-03" "Credit" "100" "Cash";
               sample_row "2024-01-04" "Debit" "0.75" "Online"].

(** The month of January 2024, with no other constraint. *)
Definition january : criteria :=
  {| filter_start_date_entry := "2024-01-01";
     filter_end_date_entry := "2024-01-31";
     filter_type_var := "All"; filter_category_var := "All";
     search_entry := ""; filter_mode_var := "All" |}.

Definition dated (d : string) : Transaction :=
  {| date := d; transaction_type := "Debit"; category := "Food";
     reason := "Lunch"; amount := PyFloat.of_Z 10; notes := "";
     mode := "Cash" |}.

(** The form filled in for a salary, with the given text in the amount
    entry. *)
Definition form_with_amount (a : string) : form :=
  {| date_entry := "2024-01-01"; type_var := "Credit";
     category_var := "Salary"; reason_entry := "Pay"; amount_entry := a;
     notes_entry := ""; mode_var := "Online" |}.

Definition lunch : Transaction :=
  {| date := "2024-03-09"; transaction_type := "Debit";
     category := "Food"; reason := "Lunch, with tip";
     amount := PyFloat.of_decimal false 1250 (-2);
     notes := "paid in cash"; mode := "Cash" |}.

(** January 2024 with the two bounds exchanged. *)
Definition january_reversed : criteria :=
  {| filter_start_date_entry := "2024-01-31";
     filter_end_date_entry := "2024-01-01";
     filter_type_var := "All"; filter_category_var := "All";
     search_entry := ""; filter_mode_var := "All" |}.

(** The filter widgets with the date entries emptied. *)
Definition no_criteria : criteria :=
  {| filter_start_date_entry := ""; filter_end_date_entry := "";
     filter_type_var := "All"; filter_category_var := "All";
     search_entry := ""; filter_mode_var := "All" |}.

(** *** Notions for the category list *)

(** [a <= b] on strings, by code points. *)
Definition str_le (a b : string) : Prop := String.leb a b = true.

(** No carriage return and no line feed. *)
Fixpoint one_line (s : string) : bool :=
  match s with
  | String c r => negb (c =? CR)%char && negb (c =? LF)%char && one_line r
  | EmptyString => true
  end.

(** A name that the category file gives back as it is. *)
Definition plain_name (c : string) : Prop :=
  strip c = c /\ one_line c = true.

(** The text [save_categories] writes: every name followed by a line
    feed. *)
Definition category_text (categories : list string) : string :=
  String.concat ""
    (map (fun category => (category ++ String LF EmptyString)%string)
         categories).

(** *** Notions for the running application *)

(** What holds of the state at every moment: the objects of the ledger are
    distinct and older than the next one to be made, their notes have no
    white space around them, and the filtered list holds objects of the
    ledger only. *)
Definition well_formed (st : App.app) : Prop :=
  NoDup (map App.ident (App.transactions st))
  /\ Forall (fun o => (App.ident o < App.next_ident st)%nat)
            (App.transactions st)
  /\ Forall (fun o => strip (notes (App.fields o)) = notes (App.fields o))
            (App.transactions st)
  /\ incl (App.filtered_transactions st) (App.transactions st).

(** The transactions of the ledger, without their identities. *)
Definition ledger_of (st : App.app) : list Transaction :=
  map App.fields (App.transactions st).

(** The test of the constraints other than the dates, on an object. *)
Definition entry_passes (c : criteria) (o : App.entry) : bool :=
  passes c (App.fields o).

(** A state to start from: the ledger holds the given transactions as
    objects 0, 1, ..., all of them shown, and [file] is on the disk. *)
Definition sample_state (ts : list Transaction) (file : option string)
  : App.app :=
  {| App.transactions := App.objects 0 ts;
     App.filtered_transactions := App.objects 0 ts;
     App.current_balance := calculate_balance ts None;
     App.next_ident := List.length ts;
     App.widgets := no_criteria;
     App.disk := file;
     App.boxes := [] |}.

(** *** Further notions for the codec *)

(** A row with no field: what [csv.reader] yields for a blank line. *)
Definition is_blank (r : row) : bool :=
  match r with [] => true | _ => false end.

(** The warning for the first row of a file. *)
Definition header_warning (header : row) : list dialog :=
  if list_eq_dec string_dec header expected_header then []
  else [HeaderMismatch header].

(** The bytes of a file of the given rows, as the specification of the
    [csv] module has them: the lines of the rows one after the other. *)
Definition file_bytes (rows : list row) : string :=
  utf8 (String.concat "" (map csv_line rows)).

(** *** Notions for the texts of numbers *)

(** A character that [float] neither strips, replaces nor drops. *)
Definition plain_char (c : ascii) : bool :=
  (code c <=? 127) && negb (PyFloat.c_isspace c) && negb (c =? "_")%char.

Fixpoint plain (s : string) : bool :=
  match s with
  | String c r => plain_char c && plain r
  | EmptyString => true
  end.

Definition sign_text (neg : bool) : string := if neg then "-" else "".

(** * The built-ins on known values *)

Example float_of_tenth :
  PyFloat.of_string "0.1" = Some (S754_finite false 7205759403792794 (-56)).
Proof. reflexivity. Qed.

Example float_of_texts :
  map PyFloat.of_string ["1000.00"; " 12.5 "; "1_000"; "-5"; "1e3"; ".5"]
  = map Some [PyFloat.of_Z 1000; PyFloat.of_decimal false 125 (-1);
              PyFloat.of_Z 1000; PyFloat.of_Z (-5); PyFloat.of_Z 1000;
              PyFloat.of_decimal false 5 (-1)].
Proof. vm_compute. reflexivity. Qed.

Example float_rejects :
  map PyFloat.of_string [""; "abc"; "12,50"; "1e"; "."; "_1"; "1 000"; "0x10"]
  = [None; None; None; None; None; None; None; None].
Proof. vm_compute. reflexivity. Qed.

Example float_rounds_to_even :
  PyFloat.of_string "9007199254740993" = PyFloat.of_string "9007199254740992".
Proof. vm_compute. reflexivity. Qed.

Example repr_of_floats :
  map (fun s => option_map PyFloat.repr (PyFloat.of_string s))
      ["1000.00"; "0.1"; "-5"; "1e16"; "1e15"; "0.00001"; "0.0001";
       "123456789.125"; "12345678901234567"; "5e-324"; "1.7976931348623157e308"]
  = map Some ["1000.0"; "0.1"; "-5.0"; "1e+16"; "1000000000000000.0"; "1e-05";
              "0.0001"; "123456789.125"; "1.2345678901234568e+16"; "5e-324";
              "1.7976931348623157e+308"].
Proof. vm_compute. reflexivity. Qed.

Example strptime_accepts :
  map PyDate.strptime ["2024-02-29"; "2024-1-5"; "2024-10- 5"]
  = map Some [{| PyDate.year := 2024; PyDate.month := 2; PyDate.day := 29 |};
              {| PyDate.year := 2024; PyDate.month := 1; PyDate.day := 5 |};
              {| PyDate.year := 2024; PyDate.month := 10; PyDate.day := 5 |}].
Proof. reflexivity. Qed.

Example strptime_rejects :
  map PyDate.strptime ["2023-02-29"; "2024-13-01"; "2024-12-32"; "0000-01-01";
                       "17/01/2024"; "2024-01-01 "; ""]
  = [None; None; None; None; None; None; None].
Proof. reflexivity. Qed.

Example strip_and_lower :
  strip "  paid in cash  " = "paid in cash" /\ lower "Lunch AT Joe" = "lunch at joe"
  /\ contains "at" "lunch at joe" = true /\ contains "tea" "lunch" = false.
Proof. repeat split. Qed.

(** * Properties of the codec *)

Section Decode.

Variables d ty c r a : string.
Variable x : PyFloat.float.
Hypothesis amount_parses : PyFloat.of_string a = Some x.

Lemma decode_row_split (parts : list string) :
  decode_row (d :: ty :: c :: r :: a :: parts)
  = Some {| date := d; transaction_type := ty; category := c; reason := r;
            amount := x;
            notes := strip (join (snd (split_parts parts)));
            mode := fst (split_parts parts) |}.
Proof.
  unfold decode_row. destruct (split_parts parts) as [m ns].
  now rewrite amount_parses.
Qed.

End Decode.

Lemma split_parts_nil : split_parts [] = ("Online", []).
Proof. reflexivity. Qed.

Lemma split_parts_one (p : string) :
  split_parts [p]
  = if mem p ["Online"; "Cash"] then (p, []) else ("Online", [p]).
Proof. reflexivity. Qed.

Lemma split_parts_many (pre : list string) (m : string) :
  pre <> [] -> split_parts (pre ++ [m]) = (m, pre).
Proof.
  intro Hpre. unfold split_parts, len. rewrite length_app. cbn [List.length].
  destruct pre as [|p pre]; [congruence|]. cbn [List.length].
  replace (1 <? Z.of_nat (S (List.length pre) + 1)) with true
    by (symmetry; apply Z.ltb_lt; lia).
  now rewrite last_last, removelast_last.
Qed.

Lemma mem_online_cash (p : string) :
  mem p ["Online"; "Cash"] = true <-> p = "Online" \/ p = "Cash".
Proof.
  unfold mem. cbn [existsb]. rewrite orb_false_r, orb_true_iff.
  now rewrite !String.eqb_eq.
Qed.

Lemma strip_empty : strip "" = "".
Proof. reflexivity. Qed.

(** C1, as the code has it: a row of five leading fields whose amount
    [float] accepts decodes to a transaction with these five fields; with no
    trailing field the notes are empty and the mode is Online; with one
    trailing field that is exactly Online or Cash it is the mode and the
    notes are empty, any other single field is the notes, stripped of the
    white space around it, with mode Online; with two or more trailing
    fields the last is the mode and the others, joined with no separator and
    then stripped, are the notes. *)
Theorem decode_row_trailing_fields (d ty c r a : string) (x : PyFloat.float)
    (parts : list string) :
  PyFloat.of_string a = Some x ->
  exists t,
    decode_row (d :: ty :: c :: r :: a :: parts) = Some t
    /\ date t = d /\ transaction_type t = ty /\ category t = c
    /\ reason t = r /\ amount t = x
    /\ (parts = [] -> notes t = "" /\ mode t = "Online")
    /\ (forall p, parts = [p] -> p = "Online" \/ p = "Cash" ->
          notes t = "" /\ mode t = p)
    /\ (forall p, parts = [p] -> p <> "Online" -> p <> "Cash" ->
          notes t = strip p /\ mode t = "Online")
    /\ (forall pre m, parts = pre ++ [m] -> pre <> [] ->
          notes t = strip (join pre) /\ mode t = m).
Proof.
  intro Hx. eexists. split; [apply (decode_row_split d ty c r a x Hx)|].
  cbn [date transaction_type category reason amount notes mode].
  do 5 (split; [reflexivity|]).
  split; [|split; [|split]].
  - intros ->. split; reflexivity.
  - intros p -> Hp. rewrite split_parts_one.
    apply mem_online_cash in Hp. rewrite Hp. split; reflexivity.
  - intros p -> Hon Hcash. rewrite split_parts_one.
    destruct (mem p ["Online"; "Cash"]) eqn:E.
    + apply mem_online_cash in E. tauto.
    + cbn [fst snd join String.concat]. split; reflexivity.
  - intros pre m -> Hpre. rewrite split_parts_many by exact Hpre.
    split; reflexivity.
Qed.

Lemma decode_row_trailing_fields_witness :
  PyFloat.of_string "1000.00" = Some (PyFloat.of_Z 1000)
  /\ exists t,
       decode_row ["2024-01-01"; "Credit"; "Salary"; "Pay"; "1000.00";
                   " Bought"; " snacks "; "Cash"] = Some t
       /\ notes t = "Bought snacks" /\ mode t = "Cash".
Proof.
  split; [reflexivity|].
  destruct (decode_row_trailing_fields "2024-01-01" "Credit" "Salary" "Pay"
              "1000.00" (PyFloat.of_Z 1000) [" Bought"; " snacks "; "Cash"]
              eq_refl)
    as (t & Ht & _ & _ & _ & _ & _ & _ & _ & _ & Hmany).
  exists t. split; [exact Ht|].
  exact (Hmany [" Bought"; " snacks "] "Cash" eq_refl ltac:(discriminate)).
Defined.

(** C1 as it is worded fails: a single trailing field with white space
    around it does not become the notes as it stands. *)
Lemma decode_row_notes_stripped_counterexample :
  exists t,
    decode_row ["2024-01-01"; "Credit"; "Salary"; "Pay"; "1000.00"; " bonus"]
    = Some t
    /\ (notes t, mode t) <> spec_trailing [" bonus"]
    /\ notes t = "bonus".
Proof.
  eexists. split; [reflexivity|]. split; [discriminate|reflexivity].
Qed.

(** ** Saving *)

Lemma str_app_nil_r (s : string) : (s ++ "")%string = s.
Proof. induction s as [|c s IH]; cbn [append]; now rewrite ?IH. Qed.

Lemma str_app_assoc (a b c : string) :
  ((a ++ b) ++ c)%string = (a ++ (b ++ c))%string.
Proof. induction a as [|x a IH]; cbn [append]; now rewrite ?IH. Qed.

Lemma concat_cons (t : string) (ts : list string) :
  String.concat "" (t :: ts) = (t ++ String.concat "" ts)%string.
Proof.
  destruct ts as [|u ts]; cbn [String.concat]; [now rewrite str_app_nil_r|].
  reflexivity.
Qed.

(** The buffer after the rows were written holds their lines, in order. *)
Lemma writerow_all (rows : list row) (buffer : string) :
  fold_left writerow rows buffer
  = (buffer ++ String.concat "" (map csv_line rows))%string.
Proof.
  revert buffer. induction rows as [|r rows IH]; intro buffer.
  - cbn [fold_left map String.concat]. now rewrite str_app_nil_r.
  - cbn [fold_left map]. rewrite IH, concat_cons. unfold writerow.
    now rewrite str_app_assoc.
Qed.

Lemma written_bytes (ts : list Transaction) :
  utf8 (fold_left writerow (map encode_row ts) (writerow "" expected_header))
  = file_bytes (expected_header :: map encode_row ts).
Proof.
  rewrite writerow_all. unfold file_bytes. cbn [map]. rewrite concat_cons.
  reflexivity.
Qed.

(** The first [k] bytes of a text are a beginning of it. *)
Lemma substring_prefix (k : nat) (s : string) :
  exists rest, s = (substring 0 k s ++ rest)%string.
Proof.
  revert k. induction s as [|c s IH]; intro k.
  - exists "". now destruct k.
  - destruct k as [|k]; cbn [substring].
    + now exists (String c s).
    + destruct (IH k) as [rest Hrest]. exists rest. cbn [append].
      now rewrite <- Hrest.
Qed.

(** C3, as the code has it: saving opens the destination itself for
    writing, which empties it, and writes the header and the rows in place.
    When the file cannot be opened it is left as it was and the error is
    shown; when nothing fails it holds the lines of the header and of one
    row per transaction, in the order of the ledger; when the writing fails
    after [k] bytes have reached the file, the error is shown and the file
    holds those bytes, a beginning of the new content that can end anywhere,
    also inside a row.  Nothing restores the former content. *)
Theorem save_overwrites_in_place (ts : list Transaction)
    (old : option string) :
  let content := file_bytes (expected_header :: map encode_row ts) in
  (forall cut,
     save_transactions_to_csv false cut ts old = (old, [SaveError]))
  /\ save_transactions_to_csv true None ts old = (Some content, [])
  /\ (forall k,
        save_transactions_to_csv true (Some k) ts old
        = (Some (substring 0 k content), [SaveError])
        /\ exists rest, content = (substring 0 k content ++ rest)%string).
Proof.
  cbv zeta. unfold save_transactions_to_csv. rewrite written_bytes.
  split; [reflexivity|]. split; [reflexivity|].
  intro k. split; [reflexivity|]. apply substring_prefix.
Qed.

(** C3 as it is worded fails: a save of two transactions that fails after
    sixty-seven bytes leaves the file with the header and the beginning of
    the first row, not with what it held before. *)
Lemma save_failure_loses_file_counterexample :
  let old := Some (file_bytes [expected_header; encode_row (dated "2024-01-17")]) in
  let after :=
    save_transactions_to_csv true (Some 67%nat) [lunch; lunch] old in
  snd after = [SaveError]
  /\ fst after
     = Some (utf8 (csv_line expected_header) ++ "2024-03-09,Debit,Food,")%string
  /\ fst after <> old.
Proof.
  cbv zeta. split; [reflexivity|]. split; [vm_compute; reflexivity|].
  vm_compute. discriminate.
Qed.

(** ** Loading *)

Lemma load_step_spec (st : list Transaction * list dialog) (r : row) :
  load_step st r = (fst st ++ decoded r, snd st ++ reported r).
Proof.
  destruct st as [ts ds]. unfold load_step, decoded, reported. cbn [fst snd].
  destruct r as [|f r'].
  - cbn [decode_row]. now rewrite !app_nil_r.
  - destruct (decode_row (f :: r')); now rewrite app_nil_r.
Qed.

Lemma load_rows_spec (rows : list row) (st : list Transaction * list dialog) :
  fold_left load_step rows st
  = (fst st ++ flat_map decoded rows, snd st ++ flat_map reported rows).
Proof.
  revert st. induction rows as [|r rows IH]; intro st; cbn [fold_left flat_map].
  - rewrite !app_nil_r. now destruct st.
  - rewrite IH, load_step_spec. cbn [fst snd]. now rewrite <- !app_assoc.
Qed.

Lemma load_ledger (header : row) (rows : list row) (raised : bool) :
  fst (load_transactions_from_csv
         (Some {| rows_read := header :: rows; reader_raised := raised |}))
  = flat_map decoded rows.
Proof.
  unfold load_transactions_from_csv. cbn [rows_read reader_raised].
  now rewrite load_rows_spec.
Qed.

Lemma load_dialogs (header : row) (rows : list row) (raised : bool) :
  exists w w',
    snd (load_transactions_from_csv
           (Some {| rows_read := header :: rows; reader_raised := raised |}))
    = w ++ flat_map reported rows ++ w'.
Proof.
  unfold load_transactions_from_csv. cbn [rows_read reader_raised].
  rewrite load_rows_spec. cbn [snd fst].
  destruct raised.
  - eexists. exists [LoadError]. now rewrite <- app_assoc.
  - eexists. exists []. now rewrite app_nil_r.
Qed.

Lemma decode_row_amount_rejected (d ty c r a : string) (parts : list string) :
  PyFloat.of_string a = None ->
  decode_row (d :: ty :: c :: r :: a :: parts) = None.
Proof.
  intro H. unfold decode_row. destruct (split_parts parts). now rewrite H.
Qed.

(** C4, as the code has it: a data row whose amount field [float] does not
    accept is reported and adds nothing to the ledger, and the rows before
    and after it are loaded as without it; every loaded transaction is the
    decoding of a row of the file.  A row whose amount [float] accepts is
    loaded with that amount, whatever its sign.  This holds of the rows the
    reader yields, whether or not it raises after them. *)
Theorem load_skips_rows_float_rejects (header : row) (before after : list row)
    (d ty c r a : string) (parts : list string) (raised : bool) :
  PyFloat.of_string a = None ->
  let bad := d :: ty :: c :: r :: a :: parts in
  let loaded :=
    load_transactions_from_csv
      (Some {| rows_read := header :: before ++ bad :: after;
               reader_raised := raised |}) in
  fst loaded
  = fst (load_transactions_from_csv
           (Some {| rows_read := header :: before ++ after;
                    reader_raised := raised |}))
  /\ In (CsvDataError bad) (snd loaded)
  /\ (forall t, In t (fst loaded) ->
        exists good, In good (before ++ after) /\ decode_row good = Some t)
  /\ (forall a' x, PyFloat.of_string a' = Some x ->
        exists t,
          In t (fst (load_transactions_from_csv
                       (Some {| rows_read :=
                                  header :: before
                                  ++ (d :: ty :: c :: r :: a' :: parts) :: after;
                                reader_raised := raised |})))
          /\ amount t = x).
Proof.
  intros Hbad. cbv zeta.
  assert (Hnone := decode_row_amount_rejected d ty c r a parts Hbad).
  set (bad := d :: ty :: c :: r :: a :: parts) in *.
  assert (Hdec : decoded bad = []) by (unfold decoded; now rewrite Hnone).
  assert (Hrep : reported bad = [CsvDataError bad])
    by (unfold reported, bad; fold bad; now rewrite Hnone).
  rewrite !load_ledger. rewrite !flat_map_app. cbn [flat_map].
  rewrite Hdec. cbn [app].
  split; [reflexivity|]. split; [|split].
  - destruct (load_dialogs header (before ++ bad :: after) raised)
      as (w & w' & ->).
    apply in_or_app. right. apply in_or_app. left.
    rewrite flat_map_app. apply in_or_app. right.
    cbn [flat_map]. apply in_or_app. left. rewrite Hrep. now left.
  - intros t Ht. rewrite <- flat_map_app in Ht.
    apply in_flat_map in Ht. destruct Ht as (good & Hin & Hgood).
    exists good. split; [exact Hin|].
    unfold decoded in Hgood.
    destruct (decode_row good) as [t'|]; [|contradiction].
    destruct Hgood as [->|[]]. reflexivity.
  - intros a' x' Hx'. eexists. split.
    + rewrite load_ledger, flat_map_app. apply in_or_app. right.
      cbn [flat_map]. apply in_or_app. left. unfold decoded.
      rewrite (decode_row_split d ty c r a' x' Hx'). now left.
    + reflexivity.
Qed.

Lemma load_skips_rows_float_rejects_witness :
  PyFloat.of_string "12,50" = None
  /\ loaded_from [sample_row "2024-01-01" "Credit" "100" "Cash";
                  sample_row "2024-01-02" "Debit" "12,50" "Cash";
                  sample_row "2024-01-03" "Debit" "30" "Online"]
     = loaded_from [sample_row "2024-01-01" "Credit" "100" "Cash";
                    sample_row "2024-01-03" "Debit" "30" "Online"].
Proof.
  split; [reflexivity|].
  exact (proj1 (load_skips_rows_float_rejects expected_header
                  [sample_row "2024-01-01" "Credit" "100" "Cash"]
                  [sample_row "2024-01-03" "Debit" "30" "Online"]
                  "2024-01-02" "Debit" "Food" "Lunch" "12,50" [""; "Cash"]
                  false eq_refl)).
Defined.

(** C4 as it is worded fails: rows whose amounts are zero and negative are
    loaded, and the ledger then holds amounts that are not above zero. *)
Lemma load_keeps_nonpositive_counterexample :
  let loaded :=
    load_transactions_from_csv
      (Some {| rows_read :=
                 [expected_header;
                  sample_row "2024-01-01" "Credit" "0" "Online";
                  sample_row "2024-01-02" "Debit" "-5" "Cash"];
               reader_raised := false |}) in
  snd loaded = []
  /\ map amount (fst loaded) = [PyFloat.of_Z 0; PyFloat.of_Z (-5)]
  /\ forallb (fun t => PyFloat.ltb PyFloat.zero (amount t)) (fst loaded) = false.
Proof.
  cbv zeta. repeat split; vm_compute; reflexivity.
Qed.

(** * Exact additions in binary64

    Adding or subtracting two floats that are whole multiples of the same
    power of two rounds nothing away as long as the operands and the result
    stay below [2 ^ 53] of these units. *)

Section ExactAddition.
Import PyFloat.

Lemma pos_iter_shl p d : Pos.iter xO p d = shl p (Pos.to_nat d).
Proof. unfold shl. now rewrite Pos2Nat.inj_iter. Qed.

Lemma shl_shl p a b : shl (shl p a) b = shl p (a + b).
Proof. unfold shl. rewrite Nat.add_comm. now rewrite Nat.iter_add. Qed.

Lemma digits_shl p n :
  Zpos (digits2_pos (shl p n)) = Zpos (digits2_pos p) + Z.of_nat n.
Proof.
  induction n as [|n IH].
  - simpl. lia.
  - change (shl p (S n)) with (xO (shl p n)). cbn [digits2_pos].
    rewrite Pos2Z.inj_succ, IH. lia.
Qed.

Lemma Zpos_shl p n : Zpos (shl p n) = Zpos p * 2 ^ Z.of_nat n.
Proof.
  induction n as [|n IH].
  - simpl. lia.
  - change (shl p (S n)) with (xO (shl p n)).
    rewrite Pos2Z.inj_xO, IH, Nat2Z.inj_succ, Z.pow_succ_r by lia. ring.
Qed.

Lemma iter_pos_nat {A : Type} (f : A -> A) (j : positive) (x : A) :
  iter_pos f j x = Nat.iter (Pos.to_nat j) f x.
Proof.
  revert x. induction j as [j IH|j IH|]; intro x; cbn [iter_pos].
  - rewrite !IH, Pos2Nat.inj_xI.
    replace (S (2 * Pos.to_nat j)) with (Pos.to_nat j + (Pos.to_nat j + 1))%nat
      by lia.
    now rewrite !Nat.iter_add.
  - rewrite !IH, Pos2Nat.inj_xO.
    replace (2 * Pos.to_nat j)%nat with (Pos.to_nat j + Pos.to_nat j)%nat by lia.
    now rewrite Nat.iter_add.
  - reflexivity.
Qed.

Lemma shr_exact q n :
  Nat.iter n shr_1 (Build_shr_record (Zpos (shl q n)) false false)
  = Build_shr_record (Zpos q) false false.
Proof.
  induction n as [|n IH].
  - reflexivity.
  - rewrite Nat.iter_succ_r. change (shl q (S n)) with (xO (shl q n)).
    simpl shr_1. exact IH.
Qed.

Lemma fexp64 x : fexp prec64 emax64 x = Z.max (x - 53) (-1074).
Proof. reflexivity. Qed.

Lemma round_aux_shift s q j ez :
  Zpos (digits2_pos q) = 53 ->
  -1074 <= ez + Z.of_nat j <= 971 ->
  binary_round_aux prec64 emax64 s (Zpos (shl q j)) ez loc_Exact
  = S754_finite s q (ez + Z.of_nat j).
Proof.
  intros Hd Hr. unfold binary_round_aux, shr_fexp.
  cbn [Zdigits2 shr_record_of_loc]. rewrite digits_shl, Hd, !fexp64.
  replace (Z.max (53 + Z.of_nat j + ez - 53) (-1074) - ez) with (Z.of_nat j) by lia.
  assert (Hshr : shr {| shr_m := Zpos (shl q j); shr_r := false; shr_s := false |} ez (Z.of_nat j)
                 = ({| shr_m := Zpos q; shr_r := false; shr_s := false |}, ez + Z.of_nat j)).
  { destruct j as [|j].
    - simpl. f_equal. lia.
    - unfold shr. rewrite Nat2Z.inj_succ. 
      destruct (Z.succ (Z.of_nat j)) as [|pj|pj] eqn:E; try lia.
      rewrite iter_pos_nat. f_equal.
      replace (Pos.to_nat pj) with (S j) by lia. apply shr_exact. }
  rewrite Hshr. cbn [shr_m loc_of_shr_record round_nearest_even shr_r shr_s Zdigits2].
  rewrite Hd, fexp64.
  replace (Z.max (53 + (ez + Z.of_nat j) - 53) (-1074) - (ez + Z.of_nat j)) with 0 by lia.
  cbn [shr shr_m].
  replace (ez + Z.of_nat j <=? emax64 - prec64) with true; [reflexivity|].
  symmetry. apply Z.leb_le. unfold emax64, prec64. lia.
Qed.

Lemma round_shl s p k e :
  Zpos (digits2_pos p) <= 53 ->
  -1074 <= e + Zpos (digits2_pos p) - 53 <= 971 ->
  binary_round prec64 emax64 s (shl p k) (e - Z.of_nat k) = canon s p e.
Proof.
  intros Hd Hr. unfold binary_round, canon, shl_align.
  rewrite digits_shl, fexp64.
  set (d := Zpos (digits2_pos p)) in *.
  assert (Hq : Zpos (digits2_pos (shl p (Z.to_nat (53 - d)))) = 53).
  { rewrite digits_shl. fold d. lia. }
  destruct (Z.max (d + Z.of_nat k + (e - Z.of_nat k) - 53) (-1074) - (e - Z.of_nat k))
    as [|x|x] eqn:E.
  - replace (shl p k) with (shl (shl p (Z.to_nat (53 - d))) 0).
    + rewrite round_aux_shift by (auto; lia). f_equal. lia.
    + change (shl (shl p (Z.to_nat (53 - d))) 0) with (shl p (Z.to_nat (53 - d))).
      f_equal. lia.
  - replace (shl p k) with (shl (shl p (Z.to_nat (53 - d))) (Pos.to_nat x)).
    + rewrite round_aux_shift by (auto; lia). f_equal. lia.
    + rewrite shl_shl. f_equal. lia.
  - rewrite pos_iter_shl, shl_shl.
    replace (k + Pos.to_nat x)%nat with (Z.to_nat (53 - d)) by lia.
    change (Zpos (shl p (Z.to_nat (53 - d))))
      with (Zpos (shl (shl p (Z.to_nat (53 - d))) 0)).
    rewrite round_aux_shift by (auto; lia). f_equal. lia.
Qed.

Lemma digits_le p : forall n, 0 <= n -> Zpos p < 2 ^ n -> Zpos (digits2_pos p) <= n.
Proof.
  induction p as [q IH|q IH|]; intros n Hn Hlt; cbn [digits2_pos];
    rewrite ?Pos2Z.inj_succ.
  - assert (n <> 0) by (intros ->; simpl in Hlt; lia).
    replace n with (Z.succ (n - 1)) in Hlt by lia.
    rewrite Z.pow_succ_r in Hlt by lia.
    specialize (IH (n - 1)). lia.
  - assert (n <> 0) by (intros ->; simpl in Hlt; lia).
    replace n with (Z.succ (n - 1)) in Hlt by lia.
    rewrite Z.pow_succ_r in Hlt by lia.
    specialize (IH (n - 1)). lia.
  - assert (n <> 0) by (intros ->; simpl in Hlt; lia). lia.
Qed.

Lemma dyadic_canon s p e :
  Zpos p < 2 ^ 53 -> -1022 <= e <= 971 ->
  binary_round prec64 emax64 s p e = canon s p e.
Proof.
  intros Hp He.
  assert (Hd := digits_le p 53 ltac:(lia) Hp).
  assert (0 < Zpos (digits2_pos p)) by lia.
  change p with (shl p 0) at 1.
  replace e with (e - Z.of_nat 0) at 1 by (simpl; lia).
  apply round_shl; lia.
Qed.

Lemma normalize_shift n K e :
  Z.abs n < 2 ^ 53 -> -1022 <= e <= 971 ->
  binary_normalize prec64 emax64 (n * 2 ^ Z.of_nat K) (e - Z.of_nat K) false
  = dyadic n e.
Proof.
  intros Hn He. unfold dyadic. destruct n as [|p|p].
  - reflexivity.
  - rewrite <- Zpos_shl. cbn [binary_normalize].
    assert (Hd := digits_le p 53 ltac:(lia) ltac:(lia)).
    assert (0 < Zpos (digits2_pos p)) by lia.
    rewrite round_shl, dyadic_canon by lia. reflexivity.
  - change (Zneg p) with (- Zpos p). rewrite Z.mul_opp_l, <- Zpos_shl.
    cbn [Z.opp binary_normalize].
    assert (Hd := digits_le p 53 ltac:(lia) ltac:(lia)).
    assert (0 < Zpos (digits2_pos p)) by lia.
    rewrite round_shl, dyadic_canon by lia. reflexivity.
Qed.

Lemma shl_align_fst m ex ez :
  ez <= ex -> fst (shl_align m ex ez) = shl m (Z.to_nat (ex - ez)).
Proof.
  intro H. unfold shl_align. destruct (ez - ex) as [|x|x] eqn:E.
  - replace (ex - ez) with 0 by lia. reflexivity.
  - lia.
  - cbn [fst]. rewrite pos_iter_shl. f_equal. lia.
Qed.

Lemma dyadic_shape n e :
  Z.abs n < 2 ^ 53 -> -1022 <= e <= 971 -> n <> 0 ->
  exists p, Zpos p = Z.abs n /\ dyadic n e = canon (sign_of n) p e.
Proof.
  intros Hn He Hz. destruct n as [|p|p]; [congruence| |]; exists p; split;
    try reflexivity; unfold dyadic; cbn [binary_normalize];
    apply dyadic_canon; lia.
Qed.

Lemma cond_Zopp_sign n p : Zpos p = Z.abs n -> cond_Zopp (sign_of n) (Zpos p) = n.
Proof.
  unfold sign_of, cond_Zopp. destruct (Z.ltb_spec n 0); lia.
Qed.

Lemma canon_aligned s p s' p' e :
  Zpos p < 2 ^ 53 -> Zpos p' < 2 ^ 53 ->
  let x := canon s p e in
  let y := canon s' p' e in
  exists K : nat,
    (match x, y with
     | S754_finite _ mx ex, S754_finite _ my ey =>
         Z.min ex ey = e - Z.of_nat K
         /\ Zpos (fst (shl_align mx ex (Z.min ex ey))) = Zpos p * 2 ^ Z.of_nat K
         /\ Zpos (fst (shl_align my ey (Z.min ex ey))) = Zpos p' * 2 ^ Z.of_nat K
     | _, _ => False
     end).
Proof.
  intros Hp Hp'. cbv zeta. unfold canon.
  assert (Hd := digits_le p 53 ltac:(lia) Hp).
  assert (Hd' := digits_le p' 53 ltac:(lia) Hp').
  set (d := Zpos (digits2_pos p)) in *. set (d' := Zpos (digits2_pos p')) in *.
  assert (0 < d) by (unfold d; lia). assert (0 < d') by (unfold d'; lia).
  exists (Z.to_nat (53 - Z.min d d')).
  rewrite !shl_align_fst, !shl_shl, !Zpos_shl by lia.
  repeat split; try lia; do 2 f_equal; lia.
Qed.

Lemma add_dyadic a b e :
  Z.abs a < 2 ^ 53 -> Z.abs b < 2 ^ 53 -> Z.abs (a + b) < 2 ^ 53 ->
  -1022 <= e <= 971 ->
  add (dyadic a e) (dyadic b e) = dyadic (a + b) e.
Proof.
  intros Ha Hb Hab He.
  destruct (Z.eq_dec a 0) as [->|Ha0].
  { destruct (Z.eq_dec b 0) as [->|Hb0]; [reflexivity|].
    change (0 + b) with b.
    destruct (dyadic_shape b e Hb He Hb0) as (p & _ & E). rewrite E.
    reflexivity. }
  destruct (Z.eq_dec b 0) as [->|Hb0].
  { rewrite Z.add_0_r.
    destruct (dyadic_shape a e Ha He Ha0) as (p & _ & E). rewrite E.
    reflexivity. }
  destruct (dyadic_shape a e Ha He Ha0) as (p & Hp & Ea).
  destruct (dyadic_shape b e Hb He Hb0) as (q & Hq & Eb).
  rewrite Ea, Eb.
  destruct (canon_aligned (sign_of a) p (sign_of b) q e
              ltac:(lia) ltac:(lia)) as (K & HK).
  unfold add. unfold canon in *. cbn [SFadd]. cbv zeta.
  destruct HK as (-> & -> & ->).
  rewrite <- (normalize_shift (a + b) K e Hab He). f_equal.
  rewrite <- (cond_Zopp_sign a p Hp) at 2. rewrite <- (cond_Zopp_sign b q Hq) at 2.
  unfold cond_Zopp. destruct (sign_of a), (sign_of b); ring.
Qed.

Lemma sub_dyadic a b e :
  Z.abs a < 2 ^ 53 -> Z.abs b < 2 ^ 53 -> Z.abs (a - b) < 2 ^ 53 ->
  -1022 <= e <= 971 ->
  sub (dyadic a e) (dyadic b e) = dyadic (a - b) e.
Proof.
  intros Ha Hb Hab He.
  destruct (Z.eq_dec b 0) as [->|Hb0].
  { rewrite Z.sub_0_r. destruct (Z.eq_dec a 0) as [->|Ha0]; [reflexivity|].
    destruct (dyadic_shape a e Ha He Ha0) as (p & _ & E). rewrite E.
    reflexivity. }
  destruct (Z.eq_dec a 0) as [->|Ha0].
  { destruct (dyadic_shape b e Hb He Hb0) as (q & Hq & Eb).
    assert (Hm : Z.abs (- b) < 2 ^ 53) by lia.
    destruct (dyadic_shape (- b) e Hm He ltac:(lia)) as (q' & Hq' & E).
    change (0 - b) with (- b). rewrite E, Eb.
    assert (q' = q) by lia. subst q'.
    unfold canon, sub. cbn [SFsub]. f_equal.
    unfold sign_of.
    destruct (Z.ltb_spec b 0), (Z.ltb_spec (- b) 0); try reflexivity; lia. }
  destruct (dyadic_shape a e Ha He Ha0) as (p & Hp & Ea).
  destruct (dyadic_shape b e Hb He Hb0) as (q & Hq & Eb).
  rewrite Ea, Eb.
  destruct (canon_aligned (sign_of a) p (sign_of b) q e
              ltac:(lia) ltac:(lia)) as (K & HK).
  unfold sub. unfold canon in *. cbn [SFsub]. cbv zeta.
  destruct HK as (-> & -> & ->).
  rewrite <- (normalize_shift (a - b) K e Hab He). f_equal.
  rewrite <- (cond_Zopp_sign a p Hp) at 2. rewrite <- (cond_Zopp_sign b q Hq) at 2.
  unfold cond_Zopp. destruct (sign_of a), (sign_of b); ring.
Qed.



End ExactAddition.

(** * What [repr] writes, [float] reads back

    The text [repr] gives for a binary64 value is read by [float] as that
    value: by the search of [repr] when it ends within seventeen digits,
    and for the exact decimal value because a decimal that is a float is
    read without rounding. *)

Section ReadBack.
Import PyFloat.

(** *** The canonical form read back *)

Lemma round_aux_canonical s q j ez :
  fexp prec64 emax64 (Zpos (digits2_pos q) + (ez + Z.of_nat j)) = ez + Z.of_nat j ->
  ez + Z.of_nat j <= 971 ->
  binary_round_aux prec64 emax64 s (Zpos (shl q j)) ez loc_Exact
  = S754_finite s q (ez + Z.of_nat j).
Proof.
  intros Hc Hr. unfold binary_round_aux, shr_fexp.
  cbn [Zdigits2 shr_record_of_loc]. rewrite digits_shl.
  replace (Zpos (digits2_pos q) + Z.of_nat j + ez)
    with (Zpos (digits2_pos q) + (ez + Z.of_nat j)) by lia.
  rewrite Hc.
  replace (ez + Z.of_nat j - ez) with (Z.of_nat j) by lia.
  assert (Hshr : shr {| shr_m := Zpos (shl q j); shr_r := false; shr_s := false |} ez (Z.of_nat j)
                 = ({| shr_m := Zpos q; shr_r := false; shr_s := false |}, ez + Z.of_nat j)).
  { destruct j as [|j].
    - simpl. f_equal. lia.
    - unfold shr. rewrite Nat2Z.inj_succ.
      destruct (Z.succ (Z.of_nat j)) as [|pj|pj] eqn:E; try lia.
      rewrite iter_pos_nat. f_equal.
      replace (Pos.to_nat pj) with (S j) by lia. apply shr_exact. }
  rewrite Hshr. cbn [shr_m loc_of_shr_record round_nearest_even shr_r shr_s Zdigits2].
  rewrite Hc, Z.sub_diag.
  cbn [shr shr_m].
  replace (ez + Z.of_nat j <=? emax64 - prec64) with true; [reflexivity|].
  symmetry. apply Z.leb_le. unfold emax64, prec64. lia.
Qed.

Lemma digits_upper p : Zpos p < 2 ^ Zpos (digits2_pos p).
Proof.
  induction p as [q IH|q IH|]; cbn [digits2_pos];
    rewrite ?Pos2Z.inj_succ, ?Z.pow_succ_r by lia; try lia.
Qed.

Lemma digits_lower p : 2 ^ (Zpos (digits2_pos p) - 1) <= Zpos p.
Proof.
  induction p as [q IH|q IH|]; cbn [digits2_pos];
    rewrite ?Pos2Z.inj_succ.
  - replace (Z.succ (Zpos (digits2_pos q)) - 1) with (Z.succ (Zpos (digits2_pos q) - 1)) by lia.
    rewrite Z.pow_succ_r by lia. lia.
  - replace (Z.succ (Zpos (digits2_pos q)) - 1) with (Z.succ (Zpos (digits2_pos q) - 1)) by lia.
    rewrite Z.pow_succ_r by lia. lia.
  - simpl. lia.
Qed.

Lemma bounded_spec m e :
  bounded prec64 emax64 m e = true ->
  fexp prec64 emax64 (Zpos (digits2_pos m) + e) = e /\ e <= 971.
Proof.
  unfold bounded, canonical_mantissa. intro H.
  apply andb_true_iff in H as [H1 H2].
  apply Z.eqb_eq in H1. apply Z.leb_le in H2. unfold emax64, prec64 in H2.
  split; [exact H1 | lia].
Qed.

(** An integer that is a float reads as that float. *)
Lemma of_decimal_whole s m e :
  0 <= e -> bounded prec64 emax64 m e = true ->
  of_decimal s (Zpos m * 2 ^ e) 0 = S754_finite s m e.
Proof.
  intros He Hb. apply bounded_spec in Hb as [Hc Hr].
  rewrite fexp64 in Hc.
  replace e with (Z.of_nat (Z.to_nat e)) at 1 by lia.
  rewrite <- Zpos_shl. unfold of_decimal.
  change (0 <=? 0) with true. cbv iota.
  change (Z.to_pos (10 ^ 0)) with 1%positive. rewrite Pos.mul_1_r.
  replace 0 with (e - Z.of_nat (Z.to_nat e)) by lia.
  rewrite round_shl by lia.
  unfold canon. replace (Zpos (digits2_pos m)) with 53 by lia.
  simpl. f_equal. lia.
Qed.

(** A decimal fraction that is a float reads as that float. *)
Lemma of_decimal_fraction s m k :
  0 < k -> bounded prec64 emax64 m (- k) = true ->
  of_decimal s (Zpos m * 5 ^ k) (- k) = S754_finite s m (- k).
Proof.
  intros Hk Hb. apply bounded_spec in Hb as [Hc Hr].
  assert (H5 : 0 < 5 ^ k) by (apply Z.pow_pos_nonneg; lia).
  assert (H2 : 0 < 2 ^ k) by (apply Z.pow_pos_nonneg; lia).
  assert (H10 : 10 ^ k = 2 ^ k * 5 ^ k).
  { change 10 with (2 * 5). now rewrite Z.pow_mul_l. }
  destruct (Zpos m * 5 ^ k) as [|D|D] eqn:ED; try lia.
  unfold of_decimal.
  replace (0 <=? - k) with false by (symmetry; apply Z.leb_gt; lia).
  rewrite Z.opp_involutive.
  destruct (10 ^ k) as [|T|T] eqn:ET; try lia.
  cbn [Z.to_pos]. unfold SFdiv, SFdiv_core_binary.
  cbn [Zdigits2]. rewrite !Z.add_0_r, Z.sub_diag, xorb_false_r.
  set (d1 := Zpos (digits2_pos D)). set (d2 := Zpos (digits2_pos T)).
  set (d := Zpos (digits2_pos m)) in *.
  assert (Hd : d1 - d2 <= d - k).
  { assert (Hup : Zpos D < 2 ^ (d + d2 - k)).
    { assert (Hm := digits_upper m). fold d in Hm.
      assert (HT := digits_lower T). fold d2 in HT.
      assert (Hd2 : k < d2).
      { destruct (Z_lt_le_dec k d2) as [|Hle]; [assumption|].
        assert (Zpos T < 2 ^ k).
        { eapply Z.lt_le_trans; [apply digits_upper|].
          fold d2. apply Z.pow_le_mono_r; lia. }
        nia. }
      replace (d + d2 - k) with (d + (d2 - 1 - k) + 1) by lia.
      rewrite !Z.pow_add_r by lia.
      assert (H5' : 2 ^ (d2 - 1 - k) <= 5 ^ k).
      { replace (d2 - 1) with (d2 - 1 - k + k) in HT by lia.
        rewrite Z.pow_add_r in HT by lia. nia. }
      assert (0 < 2 ^ (d2 - 1 - k)) by (apply Z.pow_pos_nonneg; lia).
      assert (0 < 2 ^ d) by (apply Z.pow_pos_nonneg; lia).
      rewrite <- ED. 
      (* m * 5^k < 2^d * 5^k, and 5^k < 2 * 2^(d2-1-k) *)
      assert (H5'' : 5 ^ k < 2 ^ (d2 - 1 - k) * 2 ^ 1).
      { assert (HT2 := digits_upper T). fold d2 in HT2.
        replace d2 with (d2 - 1 - k + 1 + k) in HT2 by lia.
        rewrite !Z.pow_add_r in HT2 by lia. nia. }
      nia. }
    assert (d1 <= d + d2 - k); [|lia].
    apply digits_le; [|exact Hup].
    assert (0 < d2) by (unfold d2; lia). assert (0 < d) by (unfold d; lia).
    assert (Hd2 : k < d2).
    { destruct (Z_lt_le_dec k d2) as [|Hle]; [assumption|].
      assert (Zpos T < 2 ^ k).
      { eapply Z.lt_le_trans; [apply digits_upper|].
        fold d2. apply Z.pow_le_mono_r; lia. }
      nia. }
    lia. }
  rewrite fexp64 in Hc. rewrite fexp64.
  set (e' := Z.min (Z.max (d1 - d2 - 53) (-1074)) 0).
  assert (He' : e' <= - k) by (unfold e'; lia).
  assert (He'' : -1074 <= e') by (unfold e'; lia).
  destruct (0 - e') as [|sp|sp] eqn:Es; try lia.
  set (j := Z.to_nat (- e' - k)).
  assert (Hq : Z.shiftl (Zpos D) (Zpos sp) = Zpos (shl m j) * Zpos T).
  { rewrite Z.shiftl_mul_pow2 by lia. rewrite Zpos_shl, <- ED.
    replace (Zpos sp) with (Z.of_nat j + k) by lia.
    rewrite Z.pow_add_r by lia. rewrite H10. ring. }
  change (IntDef.Z.shiftl (Zpos D) (Zpos sp)) with (Z.shiftl (Zpos D) (Zpos sp)).
  change IntDef.Z.div_eucl with Z.div_eucl.
  assert (Hdiv : Z.div_eucl (Z.shiftl (Zpos D) (Zpos sp)) (Zpos T) = (Zpos (shl m j), 0)).
  { rewrite Hq.
    assert (Hpair : forall a b, Z.div_eucl a b = (a / b, a mod b)).
    { intros a b. unfold Z.div, Z.modulo. now destruct (Z.div_eucl a b). }
    rewrite Hpair, Z.div_mul, Z.mod_mul by lia. reflexivity. }
  rewrite Hdiv.
  assert (Hloc : new_location (Zpos T) 0 = loc_Exact).
  { unfold new_location, new_location_even, new_location_odd.
    now destruct (IntDef.Z.even (Zpos T)). }
  rewrite Hloc.
  rewrite round_aux_canonical.
  - f_equal. lia.
  - rewrite fexp64. replace (e' + Z.of_nat j) with (- k) by lia. exact Hc.
  - lia.
Qed.

(** *** Digits written and read *)

Lemma plain_app a b : plain (a ++ b) = plain a && plain b.
Proof.
  induction a as [|c a IH]; [reflexivity|].
  cbn [plain append]. now rewrite IH, andb_assoc.
Qed.

Lemma to_ascii_plain s : plain s = true -> to_ascii s = s.
Proof.
  induction s as [|c s IH]; [reflexivity|].
  cbn [plain to_ascii]. intro H. apply andb_true_iff in H as [Hc Hs].
  rewrite IH by assumption. f_equal.
  unfold plain_char in Hc. unfold to_ascii_char.
  destruct (code c <=? 127); [reflexivity | discriminate].
Qed.

Lemma drop_underscores_plain s : forall prev,
  (prev =? "_")%char = false -> plain s = true ->
  drop_underscores prev s = Some s.
Proof.
  induction s as [|c s IH]; intros prev Hp H.
  - cbn [drop_underscores]. now rewrite Hp.
  - cbn [plain] in H. apply andb_true_iff in H as [Hc Hs].
    assert (Hu : (c =? "_")%char = false).
    { unfold plain_char in Hc. now destruct (c =? "_")%char; rewrite ?andb_false_r in Hc. }
    cbn [drop_underscores]. rewrite Hu, Hp. cbn [andb].
    now rewrite IH.
Qed.

Lemma plain_not_space c : plain_char c = true -> c_isspace c = false.
Proof.
  unfold plain_char. destruct (c_isspace c); [|reflexivity].
  now rewrite andb_false_r.
Qed.

Lemma c_lstrip_plain s : plain s = true -> c_lstrip s = s.
Proof.
  destruct s as [|c s]; [reflexivity|].
  cbn [plain c_lstrip]. intro H. apply andb_true_iff in H as [Hc _].
  now rewrite plain_not_space.
Qed.

Lemma c_rstrip_plain s : plain s = true -> c_rstrip s = s.
Proof.
  induction s as [|c s IH]; [reflexivity|].
  cbn [plain]. intro H. apply andb_true_iff in H as [Hc Hs].
  cbn [c_rstrip]. rewrite IH by assumption.
  destruct s; [now rewrite plain_not_space | reflexivity].
Qed.

Lemma digit_char_spec n :
  let c := ascii_of_N (Z.to_N (48 + n mod 10)) in
  isdigit c = true /\ digit_val c = n mod 10 /\ plain_char c = true.
Proof.
  assert (H := Z.mod_pos_bound n 10 ltac:(lia)).
  assert (Hc : n mod 10 = 0 \/ n mod 10 = 1 \/ n mod 10 = 2 \/ n mod 10 = 3
               \/ n mod 10 = 4 \/ n mod 10 = 5 \/ n mod 10 = 6 \/ n mod 10 = 7
               \/ n mod 10 = 8 \/ n mod 10 = 9) by lia.
  repeat (destruct Hc as [-> | Hc]; [now vm_compute|]).
  rewrite Hc. now vm_compute.
Qed.

Lemma digits_of_fuel_app f : forall n acc,
  digits_of_fuel f n acc = (digits_of_fuel f n "" ++ acc)%string.
Proof.
  induction f as [|f IH]; intros n acc; [reflexivity|].
  cbn [digits_of_fuel].
  destruct (n <? 10); [reflexivity|].
  rewrite IH. rewrite (IH _ (String _ "")).
  set (d := digits_of_fuel f (n / 10) "").
  clearbody d. induction d as [|c d IHd]; [reflexivity|].
  cbn [append]. now rewrite IHd.
Qed.

Lemma digits_of_fuel_plain f : forall n acc,
  plain acc = true -> plain (digits_of_fuel f n acc) = true.
Proof.
  induction f as [|f IH]; intros n acc H; [exact H|].
  cbn [digits_of_fuel].
  assert (Hp : plain (String (ascii_of_N (Z.to_N (48 + n mod 10))) acc) = true).
  { cbn [plain]. rewrite H. now rewrite (proj2 (proj2 (digit_char_spec n))). }
  destruct (n <? 10); [exact Hp | now apply IH].
Qed.

Lemma digits_of_fuel_head f : forall n acc,
  exists c r, digits_of_fuel (S f) n acc = String c r /\ isdigit c = true.
Proof.
  induction f as [|f IH]; intros n acc.
  - cbn [digits_of_fuel]. destruct (n <? 10);
      eexists; eexists; (split; [reflexivity | apply digit_char_spec]).
  - change (digits_of_fuel (S (S f)) n acc)
      with (let acc' := String (ascii_of_N (Z.to_N (48 + n mod 10))) acc in
            if n <? 10 then acc' else digits_of_fuel (S f) (n / 10) acc').
    cbv zeta. destruct (n <? 10).
    + eexists; eexists; (split; [reflexivity | apply digit_char_spec]).
    + apply IH.
Qed.

Lemma read_digits_of_fuel f : forall n acc a c,
  0 <= n < 2 ^ Z.of_nat (S f) ->
  exists L, 0 < L /\
    read_digits (digits_of_fuel (S f) n acc) a c
    = read_digits acc (a * 10 ^ L + n) (c + L).
Proof.
  induction f as [|f IH]; intros n acc a c Hn.
  - exists 1. split; [lia|].
    change (2 ^ Z.of_nat 1) with 2 in Hn.
    cbn [digits_of_fuel].
    replace (n <? 10) with true by (symmetry; apply Z.ltb_lt; lia).
    cbn [read_digits].
    destruct (digit_char_spec n) as (Hd & Hv & _). rewrite Hd, Hv.
    rewrite Z.mod_small by lia. f_equal. lia.
  - change (digits_of_fuel (S (S f)) n acc)
      with (let acc' := String (ascii_of_N (Z.to_N (48 + n mod 10))) acc in
            if n <? 10 then acc' else digits_of_fuel (S f) (n / 10) acc').
    cbv zeta. destruct (n <? 10) eqn:E.
    + exists 1. split; [lia|]. apply Z.ltb_lt in E.
      cbn [read_digits].
      destruct (digit_char_spec n) as (Hd & Hv & _). rewrite Hd, Hv.
      rewrite Z.mod_small by lia. f_equal. lia.
    + apply Z.ltb_ge in E.
      assert (Hn' : 0 <= n / 10 < 2 ^ Z.of_nat (S f)).
      { split; [apply Z.div_pos; lia|].
        apply Z.div_lt_upper_bound; [lia|].
        rewrite (Nat2Z.inj_succ (S f)), Z.pow_succ_r in Hn by lia. lia. }
      destruct (IH (n / 10) (String (ascii_of_N (Z.to_N (48 + n mod 10))) acc) a c Hn')
        as (L & HL & Hread).
      exists (L + 1). split; [lia|]. rewrite Hread.
      cbn [read_digits].
      destruct (digit_char_spec n) as (Hd & Hv & _). rewrite Hd, Hv.
      f_equal; [|lia].
      rewrite Z.pow_add_r by lia. 
      assert (Hdm := Z.div_mod n 10 ltac:(lia)). lia.
Qed.

Lemma digits_of_fuel_enough n : 0 <= n -> n < 2 ^ Z.of_nat (S (Z.to_nat (Z.log2 n))).
Proof.
  intro Hn. rewrite Nat2Z.inj_succ, Z2Nat.id by apply Z.log2_nonneg.
  destruct (Z.eq_dec n 0) as [->|]; [reflexivity|].
  apply Z.log2_spec. lia.
Qed.

(** The digits of [n], followed by something that is no digit, read as
    [n]. *)
Lemma read_digits_of n rest a c :
  0 <= n ->
  read_digits rest 0 0 = (0, 0, rest) ->
  exists L, 0 < L /\
    read_digits (digits_of n ++ rest) a c = (a * 10 ^ L + n, c + L, rest).
Proof.
  intros Hn Hrest. unfold digits_of. rewrite <- digits_of_fuel_app.
  destruct (read_digits_of_fuel (Z.to_nat (Z.log2 n)) n rest a c) as (L & HL & Hread).
  { split; [assumption | now apply digits_of_fuel_enough]. }
  exists L. split; [assumption|]. rewrite Hread.
  destruct rest as [|r rest']; [reflexivity|].
  cbn [read_digits] in Hrest |- *.
  destruct (isdigit r); [|reflexivity].
  exfalso.
  assert (Hmono : forall s a c, let '(_, n', _) := read_digits s a c in c <= n').
  { clear. induction s as [|x s IH]; intros a c; cbn [read_digits]; [lia|].
    destruct (isdigit x); [|lia].
    specialize (IH (10 * a + digit_val x) (c + 1)).
    destruct (read_digits s (10 * a + digit_val x) (c + 1)) as [[? ?] ?]. lia. }
  specialize (Hmono rest' (10 * 0 + digit_val r) (0 + 1)).
  rewrite Hrest in Hmono. lia.
Qed.

Lemma digits_of_plain n : plain (digits_of n) = true.
Proof. now apply digits_of_fuel_plain. Qed.

Lemma digits_of_head n rest :
  exists c r, (digits_of n ++ rest)%string = String c r /\ isdigit c = true.
Proof.
  unfold digits_of.
  destruct (digits_of_fuel_head (Z.to_nat (Z.log2 n)) n "") as (c & r & -> & Hc).
  now exists c, (r ++ rest)%string.
Qed.

Lemma read_sign_digit c r : isdigit c = true -> read_sign (String c r) = (false, String c r).
Proof.
  destruct c as [[] [] [] [] [] [] [] []]; intro H; try discriminate H; reflexivity.
Qed.

Lemma not_a_word c r :
  isdigit c = true ->
  let l := lower (String c r) in
  ((l =? "inf") || (l =? "infinity"))%string = false /\ (l =? "nan")%string = false.
Proof.
  intro H. cbn [lower]. cbn [String.eqb].
  destruct c as [[] [] [] [] [] [] [] []]; try discriminate H; split; reflexivity.
Qed.

Lemma of_string_signed neg body c r :
  body = String c r -> isdigit c = true -> plain body = true ->
  of_string (sign_text neg ++ body) = parse_unsigned neg body.
Proof.
  intros Hb Hc Hp. unfold of_string.
  assert (Hpl : plain (sign_text neg ++ body) = true).
  { rewrite plain_app, Hp. now destruct neg. }
  rewrite to_ascii_plain, drop_underscores_plain by (assumption || reflexivity).
  rewrite c_lstrip_plain, c_rstrip_plain by (rewrite ?c_lstrip_plain; assumption).
  destruct neg; cbn [sign_text append read_sign]; [reflexivity|].
  rewrite Hb, read_sign_digit by assumption. reflexivity.
Qed.

(** A whole number read. *)
Lemma of_string_whole neg n :
  0 <= n -> of_string (sign_text neg ++ digits_of n) = Some (of_decimal neg n 0).
Proof.
  intro Hn.
  destruct (digits_of_head n "") as (c & r & Hb & Hc).
  assert (Happ : forall s, (s ++ "")%string = s).
  { induction s as [|x s IH]; [reflexivity|]. cbn [append]. now rewrite IH. }
  rewrite Happ in Hb.
  rewrite (of_string_signed neg _ c r Hb Hc (digits_of_plain n)).
  unfold parse_unsigned.
  destruct (not_a_word c r Hc) as [H1 H2]. rewrite Hb. cbv zeta in H1, H2.
  rewrite H1, H2. rewrite <- Hb.
  destruct (read_digits_of n "" 0 0 Hn eq_refl) as (L & HL & Hread).
  rewrite Happ in Hread. rewrite Hread.
  replace (0 + L + 0 =? 0) with false by (symmetry; apply Z.eqb_neq; lia).
  now replace (0 * 10 ^ L + n) with n by lia.
Qed.

(** A whole number with a negative exponent read. *)
Lemma of_string_scaled neg n k :
  0 <= n -> 0 <= k ->
  of_string (sign_text neg ++ digits_of n ++ "e-" ++ digits_of k)
  = Some (of_decimal neg n (- k)).
Proof.
  intros Hn Hk.
  destruct (digits_of_head n ("e-" ++ digits_of k)) as (c & r & Hb & Hc).
  assert (Happ : forall s, (s ++ "")%string = s).
  { induction s as [|x s IH]; [reflexivity|]. cbn [append]. now rewrite IH. }
  assert (Hp : plain (digits_of n ++ "e-" ++ digits_of k) = true).
  { rewrite !plain_app, !digits_of_plain. reflexivity. }
  rewrite (of_string_signed neg _ c r Hb Hc Hp).
  unfold parse_unsigned.
  destruct (not_a_word c r Hc) as [H1 H2]. rewrite Hb. cbv zeta in H1, H2.
  rewrite H1, H2. rewrite <- Hb.
  destruct (read_digits_of n ("e-" ++ digits_of k) 0 0 Hn eq_refl) as (L & HL & Hread).
  rewrite Hread. cbn [append].
  replace (0 + L + 0 =? 0) with false by (symmetry; apply Z.eqb_neq; lia).
  change (("e" =? "e")%char || ("e" =? "E")%char) with true. cbv iota.
  cbn [read_sign].
  destruct (read_digits_of k "" 0 0 Hk eq_refl) as (L' & HL' & Hread').
  rewrite Happ in Hread'. rewrite Hread'.
  replace (0 + L' =? 0) with false by (symmetry; apply Z.eqb_neq; lia).
  f_equal. f_equal; lia.
Qed.

(** *** [float(repr(x)) == x] *)

Lemma same_eq x y : same x y = true -> x = y.
Proof.
  destruct x as [a|a| |a m e], y as [b|b| |b m' e']; cbn [same];
    try discriminate; try reflexivity.
  - intro H. apply eqb_prop in H. now subst.
  - intro H. apply eqb_prop in H. now subst.
  - intro H. apply andb_true_iff in H as [H He].
    apply andb_true_iff in H as [Hs Hm].
    apply eqb_prop in Hs. apply Pos.eqb_eq in Hm. apply Z.eqb_eq in He.
    now subst.
Qed.

Lemma reads_back_spec x t : reads_back x t = true -> of_string t = Some x.
Proof.
  unfold reads_back. destruct (of_string t) as [y|]; [|discriminate].
  intro H. now rewrite (same_eq _ _ H).
Qed.

Lemma candidate_reads_back x neg num den k n t :
  candidate x neg num den k n = Some t -> reads_back x t = true.
Proof.
  unfold candidate.
  set (lo := (num * 10 ^ Z.max (- (k - n)) 0) / (den * 10 ^ Z.max (k - n) 0)).
  destruct (0 <? lo); cbn [andb];
    destruct (reads_back x (render neg lo (k - n))) eqn:Elo;
    destruct (reads_back x (render neg (lo + 1) (k - n))) eqn:Ehi;
    cbn [andb]; try discriminate;
    try (intro H; injection H as <-; assumption).
  destruct (_ ?= _); [destruct (Z.even lo)| |];
    intro H; injection H as <-; assumption.
Qed.

Lemma shortest_from_reads_back fuel x neg num den k : forall n t,
  shortest_from fuel x neg num den k n = Some t -> reads_back x t = true.
Proof.
  induction fuel as [|f IH]; intros n t; cbn [shortest_from]; [discriminate|].
  destruct (candidate x neg num den k n) as [t'|] eqn:E.
  - intro H. injection H as <-. eapply candidate_reads_back, E.
  - apply IH.
Qed.

Lemma exact_reads_back s m e :
  bounded prec64 emax64 m e = true ->
  of_string (exact s m e) = Some (S754_finite s m e).
Proof.
  intro Hb. unfold exact. fold (sign_text s).
  destruct (0 <=? e) eqn:E.
  - apply Z.leb_le in E.
    rewrite of_string_whole by (apply Z.mul_nonneg_nonneg; [lia | apply Z.pow_nonneg; lia]).
    f_equal. now apply of_decimal_whole.
  - apply Z.leb_gt in E.
    rewrite of_string_scaled;
      [| apply Z.mul_nonneg_nonneg; [lia | apply Z.pow_nonneg; lia] | lia].
    f_equal. set (k := - e) in *.
    replace e with (- k) in * by (unfold k; lia).
    apply of_decimal_fraction; [lia | exact Hb].
Qed.

(** What [repr] writes for a float, [float] reads back as that float. *)
Lemma repr_reads_back x :
  valid_binary prec64 emax64 x = true -> of_string (repr x) = Some x.
Proof.
  destruct x as [[]|[]| |s m e]; try (intros _; reflexivity).
  cbn [valid_binary repr]. intro Hb.
  destruct (shortest_from _ _ _ _ _ _ _) as [t|] eqn:E.
  - eapply reads_back_spec, shortest_from_reads_back, E.
  - now apply exact_reads_back.
Qed.

End ReadBack.

(** * Encoding and decoding back *)

(** C2, as the code has it: the row written for a transaction holds the
    date, type, category, reason, the [repr] of the amount, the notes and the
    mode, in this order; for a valid transaction whose notes hold no
    delimiter and have no white space at either end, decoding the row gives
    the transaction back, equal in every field. *)
Theorem decode_encode_row (t : Transaction) :
  valid_transaction t ->
  delimiter_free (notes t) = true ->
  strip (notes t) = notes t ->
  encode_row t = [date t; transaction_type t; category t; reason t;
                  PyFloat.repr (amount t); notes t; mode t]
  /\ decode_row (encode_row t) = Some t.
Proof.
  intros (_ & _ & _ & Hfloat & _) _ Hnotes. split; [reflexivity|].
  unfold encode_row.
  rewrite (decode_row_split _ _ _ _ _ _ (repr_reads_back _ Hfloat)).
  change [notes t; mode t] with ([notes t] ++ [mode t]).
  rewrite split_parts_many by discriminate.
  cbn [fst snd join String.concat]. rewrite Hnotes.
  now destruct t.
Qed.

Lemma decode_encode_row_witness :
  valid_transaction lunch
  /\ delimiter_free (notes lunch) = true
  /\ strip (notes lunch) = notes lunch
  /\ encode_row lunch = ["2024-03-09"; "Debit"; "Food"; "Lunch, with tip";
                         "12.5"; "paid in cash"; "Cash"]
  /\ decode_row (encode_row lunch) = Some lunch.
Proof.
  assert (Hvalid : valid_transaction lunch).
  { repeat split; try discriminate; right; reflexivity. }
  split; [exact Hvalid|]. split; [reflexivity|]. split; [reflexivity|].
  exact (decode_encode_row lunch Hvalid eq_refl eq_refl).
Defined.

(** C2 as it is worded fails twice: the amount of a valid transaction is
    written with one fractional digit, and notes that begin with a blank,
    which are free of delimiters, come back without it. *)
Lemma decode_encode_row_counterexample :
  valid_transaction padded_notes_salary
  /\ delimiter_free (notes padded_notes_salary) = true
  /\ nth 4 (encode_row padded_notes_salary) "" = "1000.0"
  /\ two_fraction_digits (nth 4 (encode_row padded_notes_salary) "") = false
  /\ decode_row (encode_row padded_notes_salary) <> Some padded_notes_salary.
Proof.
  split.
  { repeat split; try (left; reflexivity); discriminate. }
  split; [reflexivity|]. split; [vm_compute; reflexivity|].
  split; [vm_compute; reflexivity|].
  vm_compute. discriminate.
Qed.

(** * Properties of the aggregator *)

(** Each sum of [calculate_summary] is a loop of its own. *)
Lemma summary_fields (ts : list Transaction) (s : summary) :
  let r := fold_left summary_step ts s in
  total_credits r = fold_left (cond_add is_credit) ts (total_credits s)
  /\ total_debits r = fold_left (cond_add is_debit) ts (total_debits s)
  /\ online_credits r
     = fold_left (cond_add (fun t => is_credit t && is_online t)) ts
                 (online_credits s)
  /\ online_debits r
     = fold_left (cond_add (fun t => is_debit t && is_online t)) ts
                 (online_debits s)
  /\ cash_credits r
     = fold_left (cond_add (fun t => is_credit t && negb (is_online t))) ts
                 (cash_credits s)
  /\ cash_debits r
     = fold_left (cond_add (fun t => is_debit t && negb (is_online t))) ts
                 (cash_debits s).
Proof.
  cbv zeta. revert s. induction ts as [|t ts IH]; intro s; cbn [fold_left].
  - repeat split.
  - specialize (IH (summary_step s t)).
    destruct IH as (H1 & H2 & H3 & H4 & H5 & H6).
    rewrite H1, H2, H3, H4, H5, H6.
    unfold summary_step, cond_add, is_debit, is_credit, is_online.
    destruct (transaction_type t =? "Credit")%string,
             (mode t =? "Online")%string; repeat split.
Qed.

Section ExactSums.

Variable g : Z.
Hypothesis scale : 0 <= g <= 1022.

Lemma sum_abs_nonneg (ts : list Transaction) : 0 <= sum_abs g ts.
Proof. induction ts; cbn [sum_abs]; lia. Qed.

Lemma sum_where_bound (P : Transaction -> bool) (ts : list Transaction) :
  Z.abs (sum_where P g ts) <= sum_abs g ts.
Proof.
  induction ts as [|t ts IH]; cbn [sum_where sum_abs]; [lia|].
  destruct (P t); lia.
Qed.

Lemma cond_sum_exact (P : Transaction -> bool) (ts : list Transaction) :
  forall acc,
    Forall (fun t => whole g (amount t)) ts -> Z.abs acc + sum_abs g ts < 2 ^ 53 ->
    fold_left (cond_add P) ts (dyadic acc (- g))
    = dyadic (acc + sum_where P g ts) (- g).
Proof.
  induction ts as [|t ts IH]; intros acc Hw Hb; cbn [fold_left sum_where].
  - now rewrite Z.add_0_r.
  - inversion Hw as [|? ? Ht Hts]; subst. cbn [sum_abs] in Hb.
    pose proof (sum_abs_nonneg ts). unfold cond_add at 2.
    unfold whole in Ht. set (u := units g (amount t)) in *.
    destruct (P t).
    + rewrite Ht, add_dyadic by lia. rewrite IH by (auto; lia).
      f_equal. lia.
    + rewrite IH by (auto; lia). f_equal.
Qed.

Lemma balance_exact (ts : list Transaction) :
  forall acc,
    Forall (fun t => whole g (amount t)) ts -> Z.abs acc + sum_abs g ts < 2 ^ 53 ->
    fold_left balance_step ts (dyadic acc (- g))
    = dyadic (acc + (sum_where is_credit g ts - sum_where is_debit g ts))
             (- g).
Proof.
  induction ts as [|t ts IH]; intros acc Hw Hb; cbn [fold_left sum_where].
  - now rewrite Z.add_0_r.
  - inversion Hw as [|? ? Ht Hts]; subst. cbn [sum_abs] in Hb.
    pose proof (sum_abs_nonneg ts).
    unfold balance_step at 2. fold (is_credit t).
    replace (is_debit t) with (negb (is_credit t)) by reflexivity.
    unfold whole in Ht. set (u := units g (amount t)) in *.
    destruct (is_credit t); cbn [negb].
    + rewrite Ht, add_dyadic by lia. rewrite IH by (auto; lia).
      f_equal. lia.
    + rewrite Ht, sub_dyadic by lia. rewrite IH by (auto; lia).
      f_equal. lia.
Qed.

Lemma restrict_whole (mf : option string) (ts : list Transaction) :
  Forall (fun t => whole g (amount t)) ts -> Forall (fun t => whole g (amount t)) (restrict mf ts).
Proof.
  unfold restrict. intro H.
  destruct mf as [m|]; [destruct (truthy m)|]; auto.
  rewrite Forall_forall in *. intros t Ht. apply filter_In in Ht. now apply H.
Qed.

Lemma sum_abs_filter (f : Transaction -> bool) (ts : list Transaction) :
  sum_abs g (filter f ts) <= sum_abs g ts.
Proof.
  induction ts as [|t ts IH]; cbn [filter sum_abs]; [lia|].
  destruct (f t); cbn [sum_abs]; lia.
Qed.

Lemma sum_abs_restrict (mf : option string) (ts : list Transaction) :
  sum_abs g (restrict mf ts) <= sum_abs g ts.
Proof.
  unfold restrict. destruct mf as [m|]; [destruct (truthy m)|]; try lia.
  apply sum_abs_filter.
Qed.

Lemma sum_where_split (P Q : Transaction -> bool) (ts : list Transaction) :
  sum_where P g ts
  = sum_where (fun t => P t && Q t) g ts
    + sum_where (fun t => P t && negb (Q t)) g ts.
Proof.
  induction ts as [|t ts IH]; cbn [sum_where]; [reflexivity|].
  rewrite IH. destruct (P t), (Q t); cbn [andb negb]; lia.
Qed.

End ExactSums.

Lemma calculate_balance_restrict (ts : list Transaction)
    (mode_filter : option string) :
  calculate_balance ts mode_filter
  = fold_left balance_step (restrict mode_filter ts) PyFloat.zero.
Proof. reflexivity. Qed.

Lemma zero_dyadic (g : Z) : PyFloat.zero = dyadic 0 (- g).
Proof. reflexivity. Qed.

(** What the hypotheses on a ledger of whole amounts give for any of the
    six sums. *)
Lemma summary_sum_exact (g : Z) (P : Transaction -> bool)
    (ts : list Transaction) :
  0 <= g <= 1022 ->
  Forall (fun t => whole g (amount t)) ts ->
  sum_abs g ts < 2 ^ 53 ->
  fold_left (cond_add P) ts PyFloat.zero = dyadic (sum_where P g ts) (- g).
Proof.
  intros Hg Hw Hb. rewrite (zero_dyadic g).
  rewrite (cond_sum_exact g Hg P ts 0 Hw) by (cbn [Z.abs]; lia).
  reflexivity.
Qed.

(** The sample amounts 12.5, 3.25, 100 and 0.75 are whole quarters. *)
Lemma quarters_whole : Forall (fun t => whole 2 (amount t)) quarters.
Proof.
  let l := eval vm_compute in quarters in change quarters with l.
  repeat (apply Forall_cons; [vm_compute; reflexivity|]). apply Forall_nil.
Qed.

(** C5, as the code has it: the balance and the six sums are running
    binary64 sums: a further transaction adds its amount to, or subtracts it
    from, the float reached so far, and nothing rounds to two digits.  When
    every amount is a whole multiple of [2 ^ (- g)] and the absolute values
    of the amounts sum to less than [2 ^ 53] such units, no addition rounds:
    the balance, with or without a mode filter, and the six sums are the
    exact sums. *)
Theorem aggregates_exact_on_dyadic_amounts (g : Z) (ts : list Transaction)
    (mode_filter : option string) :
  0 <= g <= 1022 ->
  Forall (fun t => whole g (amount t)) ts ->
  sum_abs g ts < 2 ^ 53 ->
  let s := calculate_summary ts in
  let kept := restrict mode_filter ts in
  (forall t,
     calculate_balance (ts ++ [t]) None
     = balance_step (calculate_balance ts None) t
     /\ calculate_summary (ts ++ [t]) = summary_step s t)
  /\ calculate_balance ts mode_filter
     = dyadic (sum_where is_credit g kept - sum_where is_debit g kept) (- g)
  /\ total_credits s = dyadic (sum_where is_credit g ts) (- g)
  /\ total_debits s = dyadic (sum_where is_debit g ts) (- g)
  /\ online_credits s
     = dyadic (sum_where (fun t => is_credit t && is_online t) g ts) (- g)
  /\ online_debits s
     = dyadic (sum_where (fun t => is_debit t && is_online t) g ts) (- g)
  /\ cash_credits s
     = dyadic (sum_where (fun t => is_credit t && negb (is_online t)) g ts)
              (- g)
  /\ cash_debits s
     = dyadic (sum_where (fun t => is_debit t && negb (is_online t)) g ts)
              (- g).
Proof.
  intros Hg Hw Hb. cbv zeta. split; [|split].
  - intro t. unfold calculate_balance, calculate_summary.
    now rewrite !fold_left_app.
  - rewrite calculate_balance_restrict, (zero_dyadic g).
    rewrite (balance_exact g Hg (restrict mode_filter ts) 0).
    + reflexivity.
    + now apply restrict_whole.
    + pose proof (sum_abs_restrict g mode_filter ts). cbn [Z.abs]. lia.
  - unfold calculate_summary.
    destruct (summary_fields ts summary_zero) as (H1 & H2 & H3 & H4 & H5 & H6).
    rewrite H1, H2, H3, H4, H5, H6. cbn [summary_zero total_credits
      total_debits online_credits online_debits cash_credits cash_debits].
    repeat split; now apply summary_sum_exact.
Qed.

Lemma aggregates_exact_on_dyadic_amounts_witness :
  0 <= 2 <= 1022
  /\ Forall (fun t => whole 2 (amount t)) quarters
  /\ sum_abs 2 quarters < 2 ^ 53
  /\ calculate_balance quarters None = PyFloat.of_decimal false 1085 (-1)
  /\ calculate_balance quarters (Some "Cash") = PyFloat.of_decimal false 9675 (-2)
  /\ total_debits (calculate_summary quarters) = PyFloat.of_Z 4.
Proof.
  assert (Hg : 0 <= 2 <= 1022) by lia.
  assert (Hw := quarters_whole).
  assert (Hb : sum_abs 2 quarters < 2 ^ 53) by (vm_compute; reflexivity).
  split; [exact Hg|]. split; [exact Hw|]. split; [exact Hb|].
  split; [|split].
  - exact (proj1 (proj2
             (aggregates_exact_on_dyadic_amounts 2 quarters None Hg Hw Hb))).
  - exact (proj1 (proj2
             (aggregates_exact_on_dyadic_amounts 2 quarters (Some "Cash")
                Hg Hw Hb))).
  - exact (proj1 (proj2 (proj2 (proj2
             (aggregates_exact_on_dyadic_amounts 2 quarters None Hg Hw Hb))))).
Defined.

(** C5 as it is worded fails: the balance of credits of 0.1 and 0.2 is
    0.30000000000000004: not a number of two fractional digits, and not the
    float of 0.3. *)
Lemma balance_drift_counterexample :
  let b := calculate_balance two_tenths None in
  PyFloat.repr b = "0.30000000000000004"
  /\ two_digit_decimal b = false
  /\ PyFloat.of_string "0.3" <> Some b
  /\ two_digit_decimal (total_credits (calculate_summary two_tenths)) = false.
Proof.
  cbv zeta. repeat split; try (vm_compute; reflexivity).
  vm_compute. discriminate.
Qed.

(** C6, as the code has it: when every amount is a whole multiple of
    [2 ^ (- g)] and the absolute values of the amounts sum to less than
    [2 ^ 53] such units, the total of the credits is the sum of the online
    and the cash credits, and likewise for the debits. *)
Theorem summary_mode_partition (g : Z) (ts : list Transaction) :
  0 <= g <= 1022 ->
  Forall (fun t => whole g (amount t)) ts ->
  sum_abs g ts < 2 ^ 53 ->
  let s := calculate_summary ts in
  total_credits s = PyFloat.add (online_credits s) (cash_credits s)
  /\ total_debits s = PyFloat.add (online_debits s) (cash_debits s).
Proof.
  intros Hg Hw Hb. cbv zeta. unfold calculate_summary.
  destruct (summary_fields ts summary_zero) as (H1 & H2 & H3 & H4 & H5 & H6).
  rewrite H1, H2, H3, H4, H5, H6. cbn [summary_zero total_credits
    total_debits online_credits online_debits cash_credits cash_debits].
  rewrite !(summary_sum_exact g) by assumption.
  pose proof (sum_where_bound g) as Hbound.
  split.
  - rewrite add_dyadic.
    + f_equal. apply sum_where_split.
    + specialize (Hbound (fun t => is_credit t && is_online t) ts). lia.
    + specialize (Hbound (fun t => is_credit t && negb (is_online t)) ts). lia.
    + rewrite <- (sum_where_split g is_credit is_online).
      specialize (Hbound is_credit ts). lia.
    + lia.
  - rewrite add_dyadic.
    + f_equal. apply sum_where_split.
    + specialize (Hbound (fun t => is_debit t && is_online t) ts). lia.
    + specialize (Hbound (fun t => is_debit t && negb (is_online t)) ts). lia.
    + rewrite <- (sum_where_split g is_debit is_online).
      specialize (Hbound is_debit ts). lia.
    + lia.
Qed.

Lemma summary_mode_partition_witness :
  0 <= 2 <= 1022
  /\ Forall (fun t => whole 2 (amount t)) quarters
  /\ sum_abs 2 quarters < 2 ^ 53
  /\ total_credits (calculate_summary quarters)
     = PyFloat.add (online_credits (calculate_summary quarters))
                   (cash_credits (calculate_summary quarters)).
Proof.
  assert (Hg : 0 <= 2 <= 1022) by lia.
  assert (Hb : sum_abs 2 quarters < 2 ^ 53) by (vm_compute; reflexivity).
  split; [exact Hg|]. split; [exact quarters_whole|]. split; [exact Hb|].
  exact (proj1 (summary_mode_partition 2 quarters Hg quarters_whole Hb)).
Defined.

(** C6 as it is worded fails: with credits of 0.1 online and of 0.2 and 0.3
    in cash the total is 0.6000000000000001 and the two parts add up to
    0.6. *)
Lemma summary_mode_partition_counterexample :
  let s := calculate_summary three_credits in
  PyFloat.repr (total_credits s) = "0.6000000000000001"
  /\ PyFloat.repr (PyFloat.add (online_credits s) (cash_credits s)) = "0.6"
  /\ total_credits s <> PyFloat.add (online_credits s) (cash_credits s).
Proof.
  cbv zeta. repeat split; try (vm_compute; reflexivity).
  vm_compute. discriminate.
Qed.

(** C7, as the code has it: the balance adds the amount of a Credit and
    subtracts the amount of any other transaction, after keeping the
    transactions of the given mode when the mode filter is a non-empty
    string.  When every amount is a whole multiple of [2 ^ (- g)] and the
    absolute values of the amounts sum to less than [2 ^ 53] such units, the
    balance without a mode filter is the total of the credits minus the
    total of the debits. *)
Theorem balance_is_credits_minus_debits (g : Z) (ts : list Transaction) :
  0 <= g <= 1022 ->
  Forall (fun t => whole g (amount t)) ts ->
  sum_abs g ts < 2 ^ 53 ->
  let s := calculate_summary ts in
  calculate_balance ts None = PyFloat.sub (total_credits s) (total_debits s)
  /\ (forall m, m <> "" ->
        calculate_balance ts (Some m)
        = calculate_balance (filter (fun t => (mode t =? m)%string) ts) None)
  /\ calculate_balance ts (Some "") = calculate_balance ts None
  /\ (forall t b,
        balance_step b t
        = if is_credit t then PyFloat.add b (amount t)
          else PyFloat.sub b (amount t)).
Proof.
  intros Hg Hw Hb. cbv zeta. split; [|split; [|split]].
  - unfold calculate_summary.
    destruct (summary_fields ts summary_zero) as (H1 & H2 & _).
    rewrite H1, H2. cbn [summary_zero total_credits total_debits].
    rewrite !(summary_sum_exact g) by assumption.
    rewrite calculate_balance_restrict, (zero_dyadic g). cbn [restrict].
    rewrite (balance_exact g Hg ts 0 Hw) by (cbn [Z.abs]; lia).
    pose proof (sum_where_bound g is_credit ts).
    pose proof (sum_where_bound g is_debit ts).
    assert (Hdiff : Z.abs (sum_where is_credit g ts - sum_where is_debit g ts)
                    <= sum_abs g ts).
    { clear. induction ts as [|t ts IH]; cbn [sum_where sum_abs]; [lia|].
      unfold is_debit in *. destruct (is_credit t); cbn [negb]; lia. }
    rewrite sub_dyadic by lia. reflexivity.
  - intros m Hm. unfold calculate_balance.
    destruct m; [congruence|reflexivity].
  - reflexivity.
  - reflexivity.
Qed.

Lemma balance_is_credits_minus_debits_witness :
  0 <= 2 <= 1022
  /\ Forall (fun t => whole 2 (amount t)) quarters
  /\ sum_abs 2 quarters < 2 ^ 53
  /\ calculate_balance quarters None
     = PyFloat.sub (total_credits (calculate_summary quarters))
                   (total_debits (calculate_summary quarters)).
Proof.
  assert (Hg : 0 <= 2 <= 1022) by lia.
  assert (Hb : sum_abs 2 quarters < 2 ^ 53) by (vm_compute; reflexivity).
  split; [exact Hg|]. split; [exact quarters_whole|]. split; [exact Hb|].
  exact (proj1 (balance_is_credits_minus_debits 2 quarters Hg quarters_whole Hb)).
Defined.

(** C7 as it is worded fails: for a credit of 0.1, a debit of 0.3 and a
    credit of 0.2 the balance is 2.7755575615628914e-17 and the credits
    minus the debits are 5.551115123125783e-17. *)
Lemma balance_is_credits_minus_debits_counterexample :
  let s := calculate_summary credit_debit_credit in
  PyFloat.repr (calculate_balance credit_debit_credit None)
  = "2.7755575615628914e-17"
  /\ PyFloat.repr (PyFloat.sub (total_credits s) (total_debits s))
     = "5.551115123125783e-17"
  /\ calculate_balance credit_debit_credit None
     <> PyFloat.sub (total_credits s) (total_debits s).
Proof.
  cbv zeta. repeat split; try (vm_compute; reflexivity).
  vm_compute. discriminate.
Qed.

(** * Properties of the filter *)

Lemma filter_filter {A : Type} (f g : A -> bool) (l : list A) :
  filter f (filter g l) = filter (fun x => g x && f x) l.
Proof.
  induction l as [|x l IH]; cbn [filter]; [reflexivity|].
  destruct (g x); cbn [filter andb]; rewrite IH; reflexivity.
Qed.

Lemma filter_unless {A : Type} (b : bool) (f : A -> bool) (l : list A) :
  (if b then l else filter f l) = filter (fun x => b || f x) l.
Proof.
  destruct b; cbn [orb]; [|reflexivity].
  induction l as [|x l IH]; cbn [filter]; congruence.
Qed.

Lemma filter_when {A : Type} (b : bool) (f : A -> bool) (l : list A) :
  (if b then filter f l else l) = filter (fun x => negb b || f x) l.
Proof.
  destruct b; cbn [negb orb]; [reflexivity|].
  induction l as [|x l IH]; cbn [filter]; congruence.
Qed.

(** The constraints other than the dates keep the transactions that pass
    them all. *)
Lemma other_constraints_filter (c : criteria) (l : list Transaction) :
  other_constraints c l = filter (passes c) l.
Proof.
  unfold other_constraints. cbv zeta.
  rewrite filter_when, !filter_unless, !filter_filter.
  apply filter_ext. intro t. unfold passes. cbv zeta.
  now rewrite !orb_assoc, !andb_assoc.
Qed.

Lemma within_dates_all_parse (s e : PyDate.date) (ts : list Transaction) :
  (forall t, In t ts -> PyDate.strptime (date t) <> None) ->
  within_dates s e ts = Some (filter (dated_within s e) ts).
Proof.
  induction ts as [|t ts IH]; intro Hall; cbn [within_dates filter].
  - reflexivity.
  - unfold dated_within at 1.
    destruct (PyDate.strptime (date t)) as [d|] eqn:E.
    + rewrite IH by (intros u Hu; apply Hall; now right).
      now destruct (PyDate.leb s d && PyDate.leb d e).
    + exfalso. apply (Hall t); [now left|exact E].
Qed.

Lemma within_dates_unparsed (s e : PyDate.date) (ts : list Transaction) :
  (exists t, In t ts /\ PyDate.strptime (date t) = None) ->
  within_dates s e ts = None.
Proof.
  intros (t & Hin & Ht). induction ts as [|u ts IH]; [contradiction|].
  cbn [within_dates]. destruct Hin as [->|Hin].
  - now rewrite Ht.
  - destruct (PyDate.strptime (date u)); [|reflexivity].
    now rewrite (IH Hin).
Qed.

Lemma date_leb_refl (d : PyDate.date) : PyDate.leb d d = true.
Proof.
  unfold PyDate.leb. rewrite !Z.eqb_refl, Z.leb_refl.
  cbn [andb]. now rewrite !orb_true_r.
Qed.

Lemma date_ltb_not_leb (a b : PyDate.date) :
  date_ltb a b = true -> PyDate.leb b a = false.
Proof.
  unfold date_ltb, PyDate.leb. intro H.
  destruct (Z.ltb_spec (PyDate.year a) (PyDate.year b)),
           (Z.ltb_spec (PyDate.year b) (PyDate.year a)),
           (Z.eqb_spec (PyDate.year a) (PyDate.year b)),
           (Z.eqb_spec (PyDate.year b) (PyDate.year a)),
           (Z.ltb_spec (PyDate.month a) (PyDate.month b)),
           (Z.ltb_spec (PyDate.month b) (PyDate.month a)),
           (Z.eqb_spec (PyDate.month a) (PyDate.month b)),
           (Z.eqb_spec (PyDate.month b) (PyDate.month a)),
           (Z.ltb_spec (PyDate.day a) (PyDate.day b)),
           (Z.leb_spec (PyDate.day b) (PyDate.day a));
    cbn in *; try reflexivity; try discriminate; lia.
Qed.

Lemma apply_filters_dates_parse (c : criteria) (ts : list Transaction)
    (s e : PyDate.date) :
  PyDate.strptime (filter_start_date_entry c) = Some s ->
  PyDate.strptime (filter_end_date_entry c) = Some e ->
  (forall t, In t ts -> PyDate.strptime (date t) <> None) ->
  apply_filters c ts
  = (filter (fun t => dated_within s e t && passes c t) ts, []).
Proof.
  intros Hs He Hall. unfold apply_filters, date_constraint.
  rewrite Hs, He, (within_dates_all_parse s e ts Hall).
  now rewrite other_constraints_filter, filter_filter.
Qed.

Lemma apply_filters_bound_unparsed (c : criteria) (ts : list Transaction) :
  PyDate.strptime (filter_start_date_entry c) = None
  \/ PyDate.strptime (filter_end_date_entry c) = None ->
  apply_filters c ts = (filter (passes c) ts, [FilterWarning]).
Proof.
  intro H. unfold apply_filters, date_constraint.
  rewrite <- other_constraints_filter.
  destruct (PyDate.strptime (filter_start_date_entry c)) as [s|];
    [|reflexivity].
  destruct H as [H|H]; [discriminate|]. now rewrite H.
Qed.

(** C8, as the code has it: when both bounds parse and the date of every
    transaction of the list parses, no warning is shown, and of the
    transactions that meet the other constraints those dated exactly the
    start or the end (with start not after end) are kept and those dated
    before the start or after the end are not; the result is the list of
    the transactions within the two dates that meet the other constraints.
    When a bound does not parse, the warning is shown and the result is the
    list of the transactions that meet the other constraints. *)
Theorem date_range_is_inclusive (c : criteria) (ts : list Transaction) :
  (forall s e,
     PyDate.strptime (filter_start_date_entry c) = Some s ->
     PyDate.strptime (filter_end_date_entry c) = Some e ->
     (forall t, In t ts -> PyDate.strptime (date t) <> None) ->
     apply_filters c ts
     = (filter (fun t => dated_within s e t && passes c t) ts, [])
     /\ (forall t d,
           In t ts -> PyDate.strptime (date t) = Some d -> passes c t = true ->
           (PyDate.leb s e = true -> d = s \/ d = e ->
              In t (fst (apply_filters c ts)))
           /\ (date_ltb d s = true \/ date_ltb e d = true ->
                 ~ In t (fst (apply_filters c ts)))))
  /\ (PyDate.strptime (filter_start_date_entry c) = None
      \/ PyDate.strptime (filter_end_date_entry c) = None ->
      apply_filters c ts = (filter (passes c) ts, [FilterWarning])).
Proof.
  split; [|apply apply_filters_bound_unparsed].
  intros s e Hs He Hall.
  rewrite (apply_filters_dates_parse c ts s e Hs He Hall). cbn [fst].
  split; [reflexivity|]. intros t d Hin Hd Hpass. split.
  - intros Hse Hedge. apply filter_In. split; [exact Hin|].
    unfold dated_within. rewrite Hd, Hpass.
    destruct Hedge as [->| ->]; now rewrite date_leb_refl, Hse.
  - intros Hout Hkept. apply filter_In in Hkept. destruct Hkept as [_ Hkept].
    unfold dated_within in Hkept. rewrite Hd in Hkept.
    destruct Hout as [Hout|Hout]; apply date_ltb_not_leb in Hout;
      rewrite Hout in Hkept; cbn in Hkept;
      rewrite ?andb_false_r in Hkept; discriminate.
Qed.

Lemma date_range_is_inclusive_witness :
  let ts := [dated "2023-12-31"; dated "2024-01-01"; dated "2024-01-17";
             dated "2024-01-31"; dated "2024-02-01"] in
  (forall t, In t ts -> PyDate.strptime (date t) <> None)
  /\ apply_filters january ts
     = ([dated "2024-01-01"; dated "2024-01-17"; dated "2024-01-31"], []).
Proof.
  cbv zeta.
  assert (Hall : forall t,
             In t [dated "2023-12-31"; dated "2024-01-01"; dated "2024-01-17";
                   dated "2024-01-31"; dated "2024-02-01"] ->
             PyDate.strptime (date t) <> None).
  { intros t Ht. repeat (destruct Ht as [<-|Ht]; [discriminate|]).
    contradiction. }
  split; [exact Hall|].
  exact (proj1 (proj1 (date_range_is_inclusive january _)
                  {| PyDate.year := 2024; PyDate.month := 1; PyDate.day := 1 |}
                  {| PyDate.year := 2024; PyDate.month := 1; PyDate.day := 31 |}
                  eq_refl eq_refl Hall)).
Defined.

(** C8 as it is worded fails for some lists: with a transaction whose date
    does not parse in the list, a transaction dated the day after the end is
    kept although both bounds parse. *)
Lemma date_range_is_inclusive_counterexample :
  let ts := [dated "2024-01-17"; dated "17/01/2024"; dated "2024-02-01"] in
  PyDate.strptime (filter_start_date_entry january) <> None
  /\ PyDate.strptime (filter_end_date_entry january) <> None
  /\ In (dated "2024-02-01") (fst (apply_filters january ts)).
Proof.
  cbv zeta. split; [discriminate|]. split; [discriminate|].
  vm_compute. right. right. left. reflexivity.
Qed.

(** C10: when both bounds parse and the date of some transaction of the
    list does not, the date constraint is dropped for the whole call: it
    leaves the list as it is, the warning is shown, and the result is the
    list of all the transactions that meet the other constraints, in or out
    of the range. *)
Theorem unparsed_date_drops_date_constraint (c : criteria)
    (ts : list Transaction) (s e : PyDate.date) :
  PyDate.strptime (filter_start_date_entry c) = Some s ->
  PyDate.strptime (filter_end_date_entry c) = Some e ->
  (exists t, In t ts /\ PyDate.strptime (date t) = None) ->
  date_constraint (filter_start_date_entry c) (filter_end_date_entry c) ts
  = (ts, [FilterWarning])
  /\ apply_filters c ts = (other_constraints c ts, [FilterWarning])
  /\ (forall t, In t ts -> passes c t = true ->
        In t (fst (apply_filters c ts))).
Proof.
  intros Hs He Hbad.
  assert (Hdate : date_constraint (filter_start_date_entry c)
                    (filter_end_date_entry c) ts = (ts, [FilterWarning])).
  { unfold date_constraint.
    now rewrite Hs, He, (within_dates_unparsed s e ts Hbad). }
  assert (Happly : apply_filters c ts
                   = (other_constraints c ts, [FilterWarning])).
  { unfold apply_filters. now rewrite Hdate. }
  split; [exact Hdate|]. split; [exact Happly|].
  intros t Hin Hpass. rewrite Happly. cbn [fst].
  rewrite other_constraints_filter. apply filter_In. now split.
Qed.

Lemma unparsed_date_drops_date_constraint_witness :
  let ts := [dated "2023-06-30"; dated "17/01/2024"; dated "2024-02-01"] in
  (exists t, In t ts /\ PyDate.strptime (date t) = None)
  /\ apply_filters january ts = (ts, [FilterWarning]).
Proof.
  cbv zeta.
  assert (Hbad : exists t,
             In t [dated "2023-06-30"; dated "17/01/2024"; dated "2024-02-01"]
             /\ PyDate.strptime (date t) = None).
  { exists (dated "17/01/2024"). split; [right; left|]; reflexivity. }
  split; [exact Hbad|].
  exact (proj1 (proj2 (unparsed_date_drops_date_constraint january _
                         {| PyDate.year := 2024; PyDate.month := 1;
                            PyDate.day := 1 |}
                         {| PyDate.year := 2024; PyDate.month := 1;
                            PyDate.day := 31 |}
                         eq_refl eq_refl Hbad))).
Defined.

(** * Validation at the input boundary *)

Lemma validate_input_rejects_nonpositive (categories : list string)
    (date_str amount_str reason_str category_str : string)
    (x : PyFloat.float) :
  PyFloat.of_string amount_str = Some x ->
  PyFloat.leb x PyFloat.zero = true ->
  fst (validate_input categories date_str amount_str reason_str category_str)
  = false.
Proof.
  intros Hx Hle. unfold validate_input.
  destruct (negb (truthy date_str) || negb (truthy amount_str)
            || negb (truthy reason_str) || negb (truthy category_str));
    [reflexivity|].
  destruct (negb (mem category_str categories)); [reflexivity|].
  destruct (PyDate.strptime date_str); [|reflexivity].
  now rewrite Hx, Hle.
Qed.

(** No submission whose amount is no number or is not above zero adds a
    transaction to the ledger. *)
Lemma add_transaction_keeps_ledger (can_open : bool) (cut : option nat)
    (categories : list string) (f : form) (st : App.app) :
  (PyFloat.of_string (amount_entry f) = None
   \/ exists x, PyFloat.of_string (amount_entry f) = Some x
                /\ PyFloat.leb x PyFloat.zero = true) ->
  App.transactions (fst (App.add_transaction can_open cut categories f st))
  = App.transactions st.
Proof.
  intro H. unfold App.add_transaction.
  destruct (validate_input categories (date_entry f) (amount_entry f)
              (reason_entry f) (category_var f)) as [ok boxes] eqn:E.
  destruct H as [Hnone|(x & Hx & Hle)].
  - rewrite Hnone. now destruct ok.
  - pose proof (validate_input_rejects_nonpositive categories (date_entry f)
                  (amount_entry f) (reason_entry f) (category_var f) x Hx Hle)
      as Hrej.
    rewrite E in Hrej. cbn [fst] in Hrej. now subst ok.
Qed.

(** C9, where the code departs from it: with a date, a reason and a category
    that pass and an amount that is no number, [validate_input] shows the
    message for an invalid amount and returns [True]; [add_transaction] goes
    on to [float], which raises: whatever the state, the handler ends by the
    exception, nothing is saved, and the ledger stays as it was. *)
Theorem validate_input_accepts_non_numeric_amount :
  validate_input default_categories "2024-01-01" "abc" "Pay" "Salary"
  = (true, [InputError "Invalid amount. Enter a numeric value."])
  /\ forall (can_open : bool) (cut : option nat) (st : App.app),
       App.add_transaction can_open cut default_categories
                           (form_with_amount "abc") st
       = (App.with_ledger st (App.transactions st) (App.next_ident st)
            [App.Shown (InputError "Invalid amount. Enter a numeric value.")],
          true).
Proof. split; [reflexivity | intros; reflexivity]. Qed.

(** * Further properties of the codec *)

Lemma rstrip_cons (c : ascii) (r : string) :
  rstrip (String c r)
  = match rstrip r with
    | EmptyString => if isspace c then EmptyString else String c EmptyString
    | r' => String c r'
    end.
Proof. reflexivity. Qed.

Lemma rstrip_idempotent (s : string) : rstrip (rstrip s) = rstrip s.
Proof.
  induction s as [|c r IH]; [reflexivity|]. rewrite rstrip_cons.
  destruct (rstrip r) as [|a b] eqn:E.
  - destruct (isspace c) eqn:Hc; [reflexivity|].
    rewrite rstrip_cons. cbn [rstrip]. now rewrite Hc.
  - rewrite rstrip_cons, IH. reflexivity.
Qed.

Lemma lstrip_head (s : string) (c : ascii) (r : string) :
  lstrip s = String c r -> isspace c = false.
Proof.
  induction s as [|a s IH]; cbn [lstrip]; [discriminate|].
  destruct (isspace a) eqn:Ha; [exact IH|]. intro H. now inversion H; subst.
Qed.

Lemma rstrip_keeps_head (c : ascii) (r : string) :
  isspace c = false -> exists r', rstrip (String c r) = String c r'.
Proof.
  intro Hc. rewrite rstrip_cons. destruct (rstrip r) as [|a b].
  - rewrite Hc. now exists EmptyString.
  - now exists (String a b).
Qed.

Lemma strip_idempotent (s : string) : strip (strip s) = strip s.
Proof.
  unfold strip. destruct (lstrip s) as [|c r] eqn:E; [reflexivity|].
  pose proof (lstrip_head s c r E) as Hc.
  destruct (rstrip_keeps_head c r Hc) as [r' Hr']. rewrite Hr'.
  cbn [lstrip]. rewrite Hc, <- Hr'. apply rstrip_idempotent.
Qed.

Lemma decode_row_short (r : row) :
  (List.length r < 5)%nat -> decode_row r = None.
Proof.
  intro H. do 5 (destruct r as [|? r]; [reflexivity|]).
  cbn [List.length] in H. lia.
Qed.

(** X1: a row fails to decode exactly when it has fewer than five fields or
    [float] does not accept its fifth field; nothing else about a row is
    checked. *)
Theorem decode_row_fails_iff (r : row) :
  decode_row r = None
  <-> (List.length r < 5)%nat \/ PyFloat.of_string (nth 4 r "") = None.
Proof.
  split.
  - intro H. destruct (Nat.ltb_spec (List.length r) 5) as [Hlt|Hge];
      [now left|right].
    do 5 (destruct r as [|? r]; [cbn [List.length] in Hge; lia|]).
    cbn [nth]. unfold decode_row in H. destruct (split_parts r).
    now destruct (PyFloat.of_string s3).
  - intros [Hlt|Hbad]; [now apply decode_row_short|].
    destruct (Nat.ltb_spec (List.length r) 5) as [Hlt|Hge];
      [now apply decode_row_short|].
    do 5 (destruct r as [|? r]; [cbn [List.length] in Hge; lia|]).
    now apply decode_row_amount_rejected.
Qed.

Lemma split_parts_mode_short (parts : list string) :
  (List.length parts <= 1)%nat ->
  fst (split_parts parts) = "Online" \/ fst (split_parts parts) = "Cash".
Proof.
  intro H. destruct parts as [|p [|q parts]].
  - now left.
  - rewrite split_parts_one.
    destruct (mem p ["Online"; "Cash"]) eqn:E; [|now left].
    apply mem_online_cash in E. exact E.
  - cbn [List.length] in H. lia.
Qed.

(** X2: every transaction a row decodes to has notes without white space
    around them; a row of at most six fields gets the mode Online or Cash,
    and a row of seven or more fields gets its last field as the mode,
    whatever it is. *)
Theorem decode_row_notes_and_mode (r : row) (t : Transaction) :
  decode_row r = Some t ->
  strip (notes t) = notes t
  /\ ((List.length r <= 6)%nat -> mode t = "Online" \/ mode t = "Cash")
  /\ ((7 <= List.length r)%nat -> mode t = last r "").
Proof.
  intro H. do 5 (destruct r as [|? r]; [discriminate|]).
  destruct (PyFloat.of_string s3) as [x|] eqn:Hx;
    [|now rewrite decode_row_amount_rejected in H].
  rewrite (decode_row_split _ _ _ _ _ _ Hx) in H. inversion H; subst t; clear H.
  cbn [notes mode List.length]. split; [apply strip_idempotent|]. split.
  - intro Hlen. apply split_parts_mode_short. lia.
  - intro Hlen. destruct (exists_last (l := r)) as (pre & m & ->).
    { intros ->. cbn [List.length] in Hlen. lia. }
    rewrite length_app in Hlen. cbn [List.length] in Hlen.
    rewrite split_parts_many by (intros ->; cbn [List.length] in Hlen; lia).
    cbn [fst].
    change (s :: s0 :: s1 :: s2 :: s3 :: pre ++ [m])
      with ((s :: s0 :: s1 :: s2 :: s3 :: pre) ++ [m]).
    now rewrite last_last.
Qed.

Lemma decode_row_notes_and_mode_witness :
  decode_row ["2024-01-01"; "Credit"; "Salary"; "Pay"; "10"; " tip "; "card "]
  = Some {| date := "2024-01-01"; transaction_type := "Credit";
            category := "Salary"; reason := "Pay"; amount := PyFloat.of_Z 10;
            notes := "tip"; mode := "card " |}
  /\ mode {| date := "2024-01-01"; transaction_type := "Credit";
             category := "Salary"; reason := "Pay"; amount := PyFloat.of_Z 10;
             notes := "tip"; mode := "card " |} = "card ".
Proof.
  split; [reflexivity|].
  exact (proj2 (proj2 (decode_row_notes_and_mode
                         ["2024-01-01"; "Credit"; "Salary"; "Pay"; "10";
                          " tip "; "card "] _ eq_refl))
           ltac:(cbn; lia)).
Defined.

Lemma decode_row_some (r : row) (t : Transaction) :
  decode_row r = Some t ->
  exists d ty c re a parts x,
    r = d :: ty :: c :: re :: a :: parts
    /\ PyFloat.of_string a = Some x
    /\ t = {| date := d; transaction_type := ty; category := c; reason := re;
              amount := x;
              notes := strip (join (snd (split_parts parts)));
              mode := fst (split_parts parts) |}.
Proof.
  intro H. destruct r as [|d [|ty [|c [|re [|a parts]]]]]; try discriminate.
  destruct (PyFloat.of_string a) as [x|] eqn:Hx;
    [|now rewrite decode_row_amount_rejected in H].
  rewrite (decode_row_split _ _ _ _ _ _ Hx) in H. inversion H.
  exists d, ty, c, re, a, parts, x. repeat split. exact Hx.
Qed.

Lemma load_exact (header : row) (rows : list row) (raised : bool) :
  load_transactions_from_csv
    (Some {| rows_read := header :: rows; reader_raised := raised |})
  = (flat_map decoded rows,
     header_warning header ++ flat_map reported rows
     ++ (if raised then [LoadError] else [])).
Proof.
  unfold load_transactions_from_csv, header_warning.
  cbn [rows_read reader_raised]. rewrite load_rows_spec. cbn [fst snd app].
  destruct raised; [now rewrite <- app_assoc | now rewrite app_nil_r].
Qed.

Lemma row_accounting (r : row) :
  (List.length (decoded r) + List.length (reported r)
   + (if is_blank r then 1 else 0) = 1)%nat.
Proof.
  unfold decoded, reported, is_blank. destruct r as [|f r]; [reflexivity|].
  now destruct (decode_row (f :: r)).
Qed.

(** X3: loading accounts for every data row the reader yields: a row is
    loaded as one transaction, or reported in one message box, or is blank;
    so the transactions, the message boxes and the blank rows add up to the
    data rows, the header warning if there is one, and one more message box,
    the loading error, when the reader raised after these rows. *)
Theorem load_accounts_for_every_row (header : row) (rows : list row)
    (raised : bool) :
  let loaded :=
    load_transactions_from_csv
      (Some {| rows_read := header :: rows; reader_raised := raised |}) in
  (List.length (fst loaded) + List.length (snd loaded)
   + List.length (filter is_blank rows)
   = List.length rows + List.length (header_warning header)
     + (if raised then 1 else 0))%nat.
Proof.
  cbv zeta. rewrite load_exact. cbn [fst snd]. rewrite !length_app.
  assert (Hr : (List.length (if raised then [LoadError] else [])
                = if raised then 1 else 0)%nat) by now destruct raised.
  rewrite Hr. clear Hr.
  induction rows as [|r rows IH]; cbn [flat_map filter List.length]; [lia|].
  rewrite !length_app. pose proof (row_accounting r) as Hr.
  destruct (is_blank r); cbn [List.length]; lia.
Qed.

Lemma reported_is_data_error (r : row) (d : dialog) :
  In d (reported r) -> d = CsvDataError r.
Proof.
  unfold reported. destruct r as [|f r]; [contradiction|].
  destruct (decode_row (f :: r)); [contradiction|].
  intros [<-|[]]. reflexivity.
Qed.

(** X4: the first row of a file is never data: whatever it holds, the
    ledger is the one loaded from the rows after it, and the header warning
    is shown exactly when it differs from the seven expected names. *)
Theorem load_first_row_is_header (first : row) (rows : list row)
    (raised : bool) :
  let loaded :=
    load_transactions_from_csv
      (Some {| rows_read := first :: rows; reader_raised := raised |}) in
  fst loaded
  = fst (load_transactions_from_csv
           (Some {| rows_read := expected_header :: rows;
                    reader_raised := raised |}))
  /\ (In (HeaderMismatch first) (snd loaded) <-> first <> expected_header).
Proof.
  cbv zeta. rewrite !load_exact. cbn [fst snd]. split; [reflexivity|].
  unfold header_warning.
  destruct (list_eq_dec string_dec first expected_header) as [E|E].
  - split; [|tauto]. cbn [app]. intro Hin.
    apply in_app_or in Hin. destruct Hin as [Hin|Hin].
    + apply in_flat_map in Hin. destruct Hin as (r & _ & Hr).
      apply reported_is_data_error in Hr. discriminate.
    + destruct raised; [destruct Hin as [Hin|[]]; discriminate | contradiction].
  - split; [tauto|]. intros _. now left.
Qed.

(** X5: every loaded transaction has notes without white space around
    them. *)
Theorem loaded_notes_are_stripped (file : option reading) :
  Forall (fun t => strip (notes t) = notes t)
         (fst (load_transactions_from_csv file)).
Proof.
  destruct file as [[[|header rows] raised]|]; try apply Forall_nil.
  rewrite load_exact. cbn [fst]. apply Forall_forall. intros t Ht.
  apply in_flat_map in Ht. destruct Ht as (r & _ & Hr).
  unfold decoded in Hr. destruct (decode_row r) as [t'|] eqn:E; [|contradiction].
  destruct Hr as [->|[]].
  destruct (decode_row_some r t E) as (d & ty & c & re & a & parts & x & _ & _ & ->).
  cbn [notes]. apply strip_idempotent.
Qed.

(** A transaction whose notes have no white space around them is decoded
    from its row as it is. *)
Lemma decode_encode_kept (t : Transaction) :
  strip (notes t) = notes t ->
  valid_binary PyFloat.prec64 PyFloat.emax64 (amount t) = true ->
  decode_row (encode_row t) = Some t.
Proof.
  intros Hnotes Hfloat. unfold encode_row.
  rewrite (decode_row_split _ _ _ _ _ _ (repr_reads_back _ Hfloat)).
  change [notes t; mode t] with ([notes t] ++ [mode t]).
  rewrite split_parts_many by discriminate.
  cbn [fst snd join String.concat]. rewrite Hnotes. now destruct t.
Qed.

(** X6: the rows of a ledger load as that ledger: when the reader yields
    the header and then, for every transaction of a ledger, the row that
    saving hands to the writer for it, the loaded ledger is that ledger and
    no row is reported, provided the notes have no white space around them
    and the amounts are binary64 values; the only message box there can be
    is the loading error of a reader that raises after these rows. *)
Theorem load_encoded_ledger (ts : list Transaction) (raised : bool) :
  Forall (fun t => strip (notes t) = notes t
                   /\ valid_binary PyFloat.prec64 PyFloat.emax64 (amount t)
                      = true) ts ->
  load_transactions_from_csv
    (Some {| rows_read := expected_header :: map encode_row ts;
             reader_raised := raised |})
  = (ts, if raised then [LoadError] else []).
Proof.
  intro H. rewrite load_exact.
  assert (Hrows : flat_map decoded (map encode_row ts) = ts
                  /\ flat_map reported (map encode_row ts) = []).
  { induction H as [|t ts [Hnotes Hfloat] Hts [IH1 IH2]];
      [split; reflexivity|].
    cbn [map flat_map]. rewrite IH1, IH2.
    unfold decoded, reported, encode_row at 2.
    rewrite (decode_encode_kept t Hnotes Hfloat). split; reflexivity. }
  destruct Hrows as [-> ->]. reflexivity.
Qed.

Lemma load_encoded_ledger_witness :
  Forall (fun t => strip (notes t) = notes t
                   /\ valid_binary PyFloat.prec64 PyFloat.emax64 (amount t)
                      = true) [lunch; dated "2024-01-17"]
  /\ load_transactions_from_csv
       (Some {| rows_read :=
                  [expected_header; encode_row lunch;
                   encode_row (dated "2024-01-17")];
                reader_raised := false |})
     = ([lunch; dated "2024-01-17"], []).
Proof.
  assert (H : Forall (fun t => strip (notes t) = notes t
                               /\ valid_binary PyFloat.prec64 PyFloat.emax64
                                                (amount t) = true)
                     [lunch; dated "2024-01-17"]).
  { repeat (apply Forall_cons; [split; reflexivity|]). apply Forall_nil. }
  split; [exact H|]. exact (load_encoded_ledger _ false H).
Defined.

(** * Further properties of the form *)

Lemma truthy_iff (s : string) : truthy s = true <-> s <> "".
Proof. destruct s; cbn; split; congruence. Qed.

Lemma required_fields (a b c d : string) :
  negb (truthy a) || negb (truthy b) || negb (truthy c) || negb (truthy d)
  = false
  <-> a <> "" /\ b <> "" /\ c <> "" /\ d <> "".
Proof.
  rewrite !orb_false_iff, !negb_false_iff, !truthy_iff. tauto.
Qed.

(** X8: [validate_input] returns [True] exactly when the four texts are not
    empty, the category is one of the list, the date parses, and the amount
    either is no number at all for [float] or is a float that is not below
    or equal to zero; it returns [True] without a message box exactly when,
    in addition, the amount is a number. *)
Theorem validate_input_verdict (categories : list string)
    (date_str amount_str reason_str category_str : string) :
  let v := validate_input categories date_str amount_str reason_str
                          category_str in
  let fields_pass :=
    (date_str <> "" /\ amount_str <> "" /\ reason_str <> ""
     /\ category_str <> "")
    /\ mem category_str categories = true
    /\ PyDate.strptime date_str <> None in
  (fst v = true
   <-> fields_pass
       /\ (PyFloat.of_string amount_str = None
           \/ exists x, PyFloat.of_string amount_str = Some x
                        /\ PyFloat.leb x PyFloat.zero = false))
  /\ (v = (true, [])
      <-> fields_pass
          /\ exists x, PyFloat.of_string amount_str = Some x
                       /\ PyFloat.leb x PyFloat.zero = false).
Proof.
  cbv zeta. unfold validate_input.
  pose proof (required_fields date_str amount_str reason_str category_str)
    as Hreq.
  destruct (negb (truthy date_str) || negb (truthy amount_str)
            || negb (truthy reason_str) || negb (truthy category_str)).
  { cbn [fst]. split; (split; [discriminate|]); intros [[Hf _] _];
      apply Hreq in Hf; discriminate. }
  assert (Hfields : date_str <> "" /\ amount_str <> "" /\ reason_str <> ""
                    /\ category_str <> "") by now apply Hreq.
  destruct (mem category_str categories) eqn:Hcat; cbn [negb].
  2:{ cbn [fst]. split; (split; [discriminate|]);
        intros [(_ & Hm & _) _]; discriminate. }
  destruct (PyDate.strptime date_str) as [d|] eqn:Hdate.
  2:{ cbn [fst]. split; (split; [discriminate|]);
        intros [(_ & _ & Hd) _]; congruence. }
  destruct (PyFloat.of_string amount_str) as [x|] eqn:Hx.
  - destruct (PyFloat.leb x PyFloat.zero) eqn:Hle; cbn [fst].
    + split; (split; [discriminate|]).
      * intros [_ [Hn|(y & Hy & Hly)]]; congruence.
      * intros [_ (y & Hy & Hly)]; congruence.
    + split; (split; [intros _|reflexivity]).
      * split; [split; [exact Hfields|split; [reflexivity|discriminate]]|].
        right. exists x. now split.
      * split; [split; [exact Hfields|split; [reflexivity|discriminate]]|].
        exists x. now split.
  - cbn [fst]. split; split.
    + intros _.
      split; [split; [exact Hfields|split; [reflexivity|discriminate]]|].
      now left.
    + reflexivity.
    + discriminate.
    + intros [_ (y & Hy & _)]. discriminate.
Qed.

(** X9: [validate_input] shows at most one message box, and whenever it
    returns [False] it shows exactly one. *)
Theorem validate_input_messages (categories : list string)
    (date_str amount_str reason_str category_str : string) :
  let v := validate_input categories date_str amount_str reason_str
                          category_str in
  (List.length (snd v) <= 1)%nat
  /\ (fst v = false -> exists message, snd v = [InputError message]).
Proof.
  cbv zeta. unfold validate_input.
  destruct (negb (truthy date_str) || negb (truthy amount_str)
            || negb (truthy reason_str) || negb (truthy category_str)).
  { split; [cbn; lia|]. intros _. eexists. reflexivity. }
  destruct (negb (mem category_str categories)).
  { split; [cbn; lia|]. intros _. eexists. reflexivity. }
  destruct (PyDate.strptime date_str).
  2:{ split; [cbn; lia|]. intros _. eexists. reflexivity. }
  destruct (PyFloat.of_string amount_str) as [x|].
  - destruct (PyFloat.leb x PyFloat.zero).
    + split; [cbn; lia|]. intros _. eexists. reflexivity.
    + split; [cbn; lia|discriminate].
  - split; [cbn; lia|discriminate].
Qed.


(** The handlers work on the state of the application. *)

Lemma app_within_dates_some (s e : PyDate.date) (os kept : list App.entry) :
  App.within_dates s e os = Some kept ->
  kept = filter (fun o => dated_within s e (App.fields o)) os.
Proof.
  revert kept. induction os as [|o os IH]; intros kept H;
    cbn [App.within_dates] in H.
  - now inversion H.
  - cbn [filter]. unfold dated_within at 1.
    destruct (PyDate.strptime (date (App.fields o))) as [d|]; [|discriminate].
    destruct (App.within_dates s e os) as [l|]; [|discriminate].
    rewrite <- (IH l eq_refl).
    destruct (PyDate.leb s d && PyDate.leb d e); now inversion H.
Qed.

Lemma app_other_constraints_filter (c : criteria) (l : list App.entry) :
  App.other_constraints c l = filter (entry_passes c) l.
Proof.
  unfold App.other_constraints. cbv zeta.
  rewrite filter_when, !filter_unless, !filter_filter.
  apply filter_ext. intro o. unfold entry_passes, passes. cbv zeta.
  now rewrite !orb_assoc, !andb_assoc.
Qed.

(** The filter leaves everything but the filtered list and the message
    boxes as it is, and the filtered list is the ledger with some objects
    left out. *)
Lemma app_apply_filters_spec (st : App.app) :
  let st' := App.apply_filters st in
  App.transactions st' = App.transactions st
  /\ App.next_ident st' = App.next_ident st
  /\ App.disk st' = App.disk st
  /\ App.current_balance st' = App.current_balance st
  /\ App.widgets st' = App.widgets st
  /\ exists keep,
       App.filtered_transactions st' = filter keep (App.transactions st).
Proof.
  cbv zeta. unfold App.apply_filters, App.date_constraint.
  destruct (PyDate.strptime (filter_start_date_entry (App.widgets st)))
    as [s|].
  2:{ cbn. repeat split. eexists. apply app_other_constraints_filter. }
  destruct (PyDate.strptime (filter_end_date_entry (App.widgets st)))
    as [e|].
  2:{ cbn. repeat split. eexists. apply app_other_constraints_filter. }
  destruct (App.within_dates s e (App.transactions st)) as [kept|] eqn:E.
  - cbn. repeat split.
    rewrite (app_within_dates_some s e _ kept E),
      app_other_constraints_filter, filter_filter.
    eexists. reflexivity.
  - cbn. repeat split. eexists. apply app_other_constraints_filter.
Qed.

Lemma app_save_and_update_spec (can_open : bool) (cut : option nat)
    (st : App.app) :
  let st' := App.save_and_update can_open cut st in
  App.transactions st' = App.transactions st
  /\ App.next_ident st' = App.next_ident st
  /\ App.disk st'
     = fst (save_transactions_to_csv can_open cut (ledger_of st)
                                     (App.disk st))
  /\ App.current_balance st' = calculate_balance (ledger_of st) None
  /\ App.widgets st' = App.widgets st
  /\ exists keep,
       App.filtered_transactions st' = filter keep (App.transactions st).
Proof.
  cbv zeta. unfold App.save_and_update, ledger_of.
  destruct (save_transactions_to_csv can_open cut
              (map App.fields (App.transactions st)) (App.disk st))
    as [disk' shown].
  match goal with |- context [App.apply_filters ?x] =>
    destruct (app_apply_filters_spec x) as (H1 & H2 & H3 & H4 & H5 & H6)
  end.
  cbn [App.transactions App.next_ident App.disk App.current_balance
       App.widgets] in *.
  rewrite H1, H2, H3, H4, H5. repeat split. exact H6.
Qed.





(** * Amounts that are not numbers *)

Lemma add_nan_r (x : PyFloat.float) : PyFloat.add x S754_nan = S754_nan.
Proof. now destruct x. Qed.

Lemma sub_nan_r (x : PyFloat.float) : PyFloat.sub x S754_nan = S754_nan.
Proof. now destruct x. Qed.

Lemma balance_stays_nan (ts : list Transaction) :
  fold_left balance_step ts S754_nan = S754_nan.
Proof.
  induction ts as [|t ts IH]; [reflexivity|]. cbn [fold_left].
  unfold balance_step at 2.
  now destruct (transaction_type t =? "Credit")%string.
Qed.

Lemma balance_nan (ts : list Transaction) (acc : PyFloat.float) :
  (exists t, In t ts /\ amount t = S754_nan) ->
  fold_left balance_step ts acc = S754_nan.
Proof.
  intros (t & Hin & Ht). revert acc.
  induction ts as [|u ts IH]; intro acc; [contradiction|].
  cbn [fold_left]. destruct Hin as [->|Hin]; [|now apply IH].
  unfold balance_step at 2. rewrite Ht, add_nan_r, sub_nan_r.
  destruct (transaction_type t =? "Credit")%string; apply balance_stays_nan.
Qed.

Lemma cond_sum_stays_nan (P : Transaction -> bool) (ts : list Transaction) :
  fold_left (cond_add P) ts S754_nan = S754_nan.
Proof.
  induction ts as [|t ts IH]; [reflexivity|]. cbn [fold_left].
  unfold cond_add at 2. now destruct (P t).
Qed.

Lemma cond_sum_nan (P : Transaction -> bool) (ts : list Transaction)
    (acc : PyFloat.float) :
  (exists t, In t ts /\ P t = true /\ amount t = S754_nan) ->
  fold_left (cond_add P) ts acc = S754_nan.
Proof.
  intros (t & Hin & HP & Ht). revert acc.
  induction ts as [|u ts IH]; intro acc; [contradiction|].
  cbn [fold_left]. destruct Hin as [->|Hin]; [|now apply IH].
  unfold cond_add at 2. rewrite HP, Ht, add_nan_r. apply cond_sum_stays_nan.
Qed.



(** X12: one amount that is NaN makes the balance NaN, in whatever place of
    the ledger it stands and whatever the other amounts are; so it does the
    total of the credits, when it is the amount of a Credit, and the total of
    the debits otherwise. *)
Theorem nan_amount_spoils_balance (ts : list Transaction) (t : Transaction) :
  In t ts -> amount t = S754_nan ->
  calculate_balance ts None = S754_nan
  /\ calculate_balance ts (Some (mode t))
     = (if truthy (mode t) then S754_nan else calculate_balance ts None)
  /\ (if is_credit t
      then total_credits (calculate_summary ts)
      else total_debits (calculate_summary ts)) = S754_nan.
Proof.
  intros Hin Ht. split; [|split].
  - unfold calculate_balance. apply balance_nan. now exists t.
  - unfold calculate_balance. destruct (truthy (mode t)); [|reflexivity].
    apply balance_nan. exists t. split; [|exact Ht].
    apply filter_In. split; [exact Hin|apply String.eqb_refl].
  - unfold calculate_summary.
    destruct (summary_fields ts summary_zero) as (H1 & H2 & _).
    destruct (is_credit t) eqn:E.
    + rewrite H1. apply cond_sum_nan. now exists t.
    + rewrite H2. apply cond_sum_nan. exists t. unfold is_debit.
      now rewrite E.
Qed.

Lemma nan_amount_spoils_balance_witness :
  let ts := loaded_from [sample_row "2024-01-01" "Credit" "100" "Cash";
                         sample_row "2024-01-02" "Debit" "nan" "Cash";
                         sample_row "2024-01-03" "Credit" "30" "Online"] in
  calculate_balance ts None = S754_nan
  /\ total_debits (calculate_summary ts) = S754_nan.
Proof.
  cbv zeta.
  pose proof (nan_amount_spoils_balance
                (loaded_from [sample_row "2024-01-01" "Credit" "100" "Cash";
                              sample_row "2024-01-02" "Debit" "nan" "Cash";
                              sample_row "2024-01-03" "Credit" "30" "Online"])
                {| date := "2024-01-02"; transaction_type := "Debit";
                   category := "Food"; reason := "Lunch"; amount := S754_nan;
                   notes := ""; mode := "Cash" |}
                ltac:(right; left; reflexivity) eq_refl) as (H1 & _ & H3).
  split; [exact H1|exact H3].
Defined.

(** * Further properties of the filter *)

Lemma within_dates_some (s e : PyDate.date) (ts kept : list Transaction) :
  within_dates s e ts = Some kept -> kept = filter (dated_within s e) ts.
Proof.
  revert kept. induction ts as [|t ts IH]; intros kept H; cbn [within_dates] in H.
  - now inversion H.
  - cbn [filter]. unfold dated_within at 1.
    destruct (PyDate.strptime (date t)) as [d|]; [|discriminate].
    destruct (within_dates s e ts) as [l|]; [|discriminate].
    rewrite <- (IH l eq_refl).
    destruct (PyDate.leb s d && PyDate.leb d e); now inversion H.
Qed.

(** X13: whatever the criteria and the dates in the ledger, the filtered
    list is the ledger with some transactions left out: the kept ones stand
    in their order of the ledger and none is added or repeated; and at most
    one warning is shown, the one about the dates. *)
Theorem apply_filters_keeps_order (c : criteria) (ts : list Transaction) :
  (exists keep, fst (apply_filters c ts) = filter keep ts)
  /\ (snd (apply_filters c ts) = []
      \/ snd (apply_filters c ts) = [FilterWarning]).
Proof.
  unfold apply_filters, date_constraint.
  destruct (PyDate.strptime (filter_start_date_entry c)) as [s|].
  2:{ cbn [fst snd]. split; [|now right].
      exists (passes c). apply other_constraints_filter. }
  destruct (PyDate.strptime (filter_end_date_entry c)) as [e|].
  2:{ cbn [fst snd]. split; [|now right].
      exists (passes c). apply other_constraints_filter. }
  destruct (within_dates s e ts) as [kept|] eqn:E.
  - cbn [fst snd]. split; [|now left].
    rewrite (within_dates_some s e ts kept E), other_constraints_filter,
      filter_filter.
    eexists. reflexivity.
  - cbn [fst snd]. split; [|now right].
    exists (passes c). apply other_constraints_filter.
Qed.

Lemma date_leb_iff (a b : PyDate.date) :
  PyDate.leb a b = true
  <-> PyDate.year a < PyDate.year b
      \/ (PyDate.year a = PyDate.year b
          /\ (PyDate.month a < PyDate.month b
              \/ (PyDate.month a = PyDate.month b
                  /\ PyDate.day a <= PyDate.day b))).
Proof.
  unfold PyDate.leb.
  rewrite !orb_true_iff, !andb_true_iff, !orb_true_iff, !andb_true_iff.
  rewrite !Z.ltb_lt, !Z.eqb_eq, Z.leb_le. tauto.
Qed.

Lemma date_leb_trans (a b c : PyDate.date) :
  PyDate.leb a b = true -> PyDate.leb b c = true -> PyDate.leb a c = true.
Proof. rewrite !date_leb_iff. lia. Qed.

(** X14: when both bounds parse, every date of the ledger parses and the
    end lies before the start, the filtered list is empty and no warning is
    shown. *)
Theorem reversed_range_shows_nothing (c : criteria) (ts : list Transaction)
    (s e : PyDate.date) :
  PyDate.strptime (filter_start_date_entry c) = Some s ->
  PyDate.strptime (filter_end_date_entry c) = Some e ->
  (forall t, In t ts -> PyDate.strptime (date t) <> None) ->
  date_ltb e s = true ->
  apply_filters c ts = ([], []).
Proof.
  intros Hs He Hall Hrev.
  rewrite (apply_filters_dates_parse c ts s e Hs He Hall). f_equal.
  apply date_ltb_not_leb in Hrev.
  induction ts as [|t ts IH]; [reflexivity|]. cbn [filter].
  rewrite IH by (intros u Hu; apply Hall; now right).
  unfold dated_within. destruct (PyDate.strptime (date t)) as [d|];
    [|reflexivity].
  destruct (PyDate.leb s d) eqn:H1; [|reflexivity].
  destruct (PyDate.leb d e) eqn:H2; [|reflexivity].
  rewrite (date_leb_trans s d e H1 H2) in Hrev. discriminate.
Qed.

Lemma reversed_range_shows_nothing_witness :
  let ts := [dated "2024-01-01"; dated "2024-01-17"; dated "2024-01-31"] in
  (forall t, In t ts -> PyDate.strptime (date t) <> None)
  /\ apply_filters january_reversed ts = ([], []).
Proof.
  cbv zeta.
  assert (Hall : forall t,
             In t [dated "2024-01-01"; dated "2024-01-17"; dated "2024-01-31"]
             -> PyDate.strptime (date t) <> None).
  { intros t Ht. repeat (destruct Ht as [<-|Ht]; [discriminate|]).
    contradiction. }
  split; [exact Hall|].
  exact (reversed_range_shows_nothing january_reversed _
           {| PyDate.year := 2024; PyDate.month := 1; PyDate.day := 31 |}
           {| PyDate.year := 2024; PyDate.month := 1; PyDate.day := 1 |}
           eq_refl eq_refl Hall eq_refl).
Defined.

(** X15: with All for type, mode and category and no search text, the
    filter keeps the whole ledger when a date entry does not parse (an empty
    entry, say), and shows the warning; when both parse and every date of
    the ledger parses it keeps the transactions within the two dates. *)
Theorem unconstrained_filter (c : criteria) (ts : list Transaction) :
  filter_type_var c = "All" -> filter_mode_var c = "All" ->
  filter_category_var c = "All" -> lower (search_entry c) = "" ->
  (PyDate.strptime (filter_start_date_entry c) = None
   \/ PyDate.strptime (filter_end_date_entry c) = None ->
   apply_filters c ts = (ts, [FilterWarning]))
  /\ (forall s e,
        PyDate.strptime (filter_start_date_entry c) = Some s ->
        PyDate.strptime (filter_end_date_entry c) = Some e ->
        (forall t, In t ts -> PyDate.strptime (date t) <> None) ->
        apply_filters c ts = (filter (dated_within s e) ts, [])).
Proof.
  intros Ht Hm Hc Hsearch.
  assert (Hpass : forall t, passes c t = true).
  { intro t. unfold passes. cbv zeta. now rewrite Ht, Hm, Hc, Hsearch. }
  split.
  - intro Hbound. rewrite (apply_filters_bound_unparsed c ts Hbound). f_equal.
    clear Hbound. induction ts as [|t ts IH]; [reflexivity|].
    cbn [filter]. now rewrite Hpass, IH.
  - intros s e Hs He Hall.
    rewrite (apply_filters_dates_parse c ts s e Hs He Hall). f_equal.
    apply filter_ext. intro t. now rewrite Hpass, andb_true_r.
Qed.

Lemma unconstrained_filter_witness :
  PyDate.strptime (filter_start_date_entry no_criteria) = None
  /\ apply_filters no_criteria quarters = (quarters, [FilterWarning]).
Proof.
  split; [reflexivity|].
  exact (proj1 (unconstrained_filter no_criteria quarters
                  eq_refl eq_refl eq_refl eq_refl)
           (or_introl eq_refl)).
Defined.

(** * The balances by mode *)

Lemma net_bound (g : Z) (ts : list Transaction) :
  Z.abs (sum_where is_credit g ts - sum_where is_debit g ts) <= sum_abs g ts.
Proof.
  induction ts as [|t ts IH]; cbn [sum_where sum_abs]; [lia|].
  unfold is_debit at 1. destruct (is_credit t); cbn [negb]; lia.
Qed.

Lemma filtered_balance_exact (g : Z) (f : Transaction -> bool)
    (ts : list Transaction) :
  0 <= g <= 1022 ->
  Forall (fun t => whole g (amount t)) ts ->
  sum_abs g ts < 2 ^ 53 ->
  fold_left balance_step (filter f ts) PyFloat.zero
  = dyadic (sum_where is_credit g (filter f ts)
            - sum_where is_debit g (filter f ts)) (- g).
Proof.
  intros Hg Hw Hb. rewrite (zero_dyadic g).
  rewrite (balance_exact g Hg (filter f ts) 0).
  - reflexivity.
  - rewrite Forall_forall in *. intros t Ht. apply filter_In in Ht.
    now apply Hw.
  - pose proof (sum_abs_filter g f ts). cbn [Z.abs]. lia.
Qed.

Lemma net_by_mode (g : Z) (ts : list Transaction) :
  Forall (fun t => mode t = "Online" \/ mode t = "Cash") ts ->
  let on := filter (fun t => (mode t =? "Online")%string) ts in
  let cash := filter (fun t => (mode t =? "Cash")%string) ts in
  sum_where is_credit g ts - sum_where is_debit g ts
  = (sum_where is_credit g on - sum_where is_debit g on)
    + (sum_where is_credit g cash - sum_where is_debit g cash).
Proof.
  cbv zeta. induction 1 as [|t ts Ht Hts IH]; [reflexivity|].
  cbn [filter sum_where].
  destruct Ht as [E|E]; rewrite E; cbn [String.eqb Ascii.eqb Bool.eqb];
    cbn [sum_where]; lia.
Qed.

(** X16: when every transaction has the mode Online or Cash, every amount
    is a whole multiple of [2 ^ (- g)] and the absolute values of the amounts
    sum to less than [2 ^ 53] such units, the balance of the whole list is
    the Online balance plus the Cash balance. *)
Theorem mode_balances_add_up (g : Z) (ts : list Transaction) :
  0 <= g <= 1022 ->
  Forall (fun t => whole g (amount t)) ts ->
  sum_abs g ts < 2 ^ 53 ->
  Forall (fun t => mode t = "Online" \/ mode t = "Cash") ts ->
  calculate_balance ts None
  = PyFloat.add (calculate_balance ts (Some "Online"))
                (calculate_balance ts (Some "Cash")).
Proof.
  intros Hg Hw Hb Hmodes. unfold calculate_balance. cbn [truthy].
  rewrite !(filtered_balance_exact g) by assumption.
  rewrite (zero_dyadic g), (balance_exact g Hg ts 0 Hw) by (cbn [Z.abs]; lia).
  pose proof (net_by_mode g ts Hmodes) as Hsplit. cbv zeta in Hsplit.
  pose proof (net_bound g ts).
  pose proof (net_bound g (filter (fun t => (mode t =? "Online")%string) ts)).
  pose proof (net_bound g (filter (fun t => (mode t =? "Cash")%string) ts)).
  pose proof (sum_abs_filter g (fun t => (mode t =? "Online")%string) ts).
  pose proof (sum_abs_filter g (fun t => (mode t =? "Cash")%string) ts).
  rewrite add_dyadic by lia. f_equal. lia.
Qed.

Lemma mode_balances_add_up_witness :
  Forall (fun t => mode t = "Online" \/ mode t = "Cash") quarters
  /\ sum_abs 2 quarters < 2 ^ 53
  /\ calculate_balance quarters None
     = PyFloat.add (calculate_balance quarters (Some "Online"))
                   (calculate_balance quarters (Some "Cash")).
Proof.
  assert (Hm : Forall (fun t => mode t = "Online" \/ mode t = "Cash") quarters).
  { let l := eval vm_compute in quarters in change quarters with l.
    repeat (apply Forall_cons; [(now left) || (now right)|]).
    apply Forall_nil. }
  assert (Hb : sum_abs 2 quarters < 2 ^ 53) by (vm_compute; reflexivity).
  split; [exact Hm|]. split; [exact Hb|].
  exact (mode_balances_add_up 2 quarters ltac:(lia) quarters_whole Hb Hm).
Defined.

(** * Properties of the category list *)

Lemma mem_In (x : string) (l : list string) : mem x l = true <-> In x l.
Proof.
  unfold mem. rewrite existsb_exists. split.
  - intros (y & Hy & E). apply String.eqb_eq in E. now subst.
  - intro H. exists x. split; [exact H|apply String.eqb_refl].
Qed.

Lemma insort_perm (x : string) (l : list string) :
  Permutation (insort x l) (x :: l).
Proof.
  induction l as [|y l IH]; cbn [insort]; [reflexivity|].
  destruct (String.leb x y); [reflexivity|].
  rewrite IH. apply perm_swap.
Qed.

Lemma sorted_perm (l : list string) : Permutation (sorted l) l.
Proof.
  induction l as [|x l IH]; cbn [sorted]; [reflexivity|].
  rewrite insort_perm. now apply perm_skip.
Qed.

Lemma insort_sorted (x : string) (l : list string) :
  Sorted str_le l -> Sorted str_le (insort x l).
Proof.
  induction 1 as [|y l Hl IH Hhd]; cbn [insort].
  - repeat constructor.
  - destruct (String.leb x y) eqn:E.
    + constructor; [now constructor|]. constructor. exact E.
    + constructor; [exact IH|].
      assert (Hyx : str_le y x).
      { destruct (String.leb_total x y) as [H|H]; [congruence|exact H]. }
      destruct Hhd as [|z l' Hyz]; cbn [insort].
      * now constructor.
      * destruct (String.leb x z); now constructor.
Qed.

Lemma sorted_is_sorted (l : list string) : Sorted str_le (sorted l).
Proof.
  induction l as [|x l IH]; cbn [sorted]; [constructor|].
  now apply insort_sorted.
Qed.

Lemma sorted_fixed (l : list string) : Sorted str_le l -> sorted l = l.
Proof.
  induction 1 as [|x l Hl IH Hhd]; [reflexivity|]. cbn [sorted]. rewrite IH.
  destruct Hhd as [|y l' Hxy]; [reflexivity|]. cbn [insort].
  unfold str_le in Hxy. now rewrite Hxy.
Qed.

Lemma sorted_In (c : string) (l : list string) : In c (sorted l) <-> In c l.
Proof.
  split; apply Permutation_in; [|symmetry]; apply sorted_perm.
Qed.

Lemma sorted_NoDup (l : list string) : NoDup l -> NoDup (sorted l).
Proof.
  apply Permutation_NoDup. symmetry. apply sorted_perm.
Qed.


Lemma write_category_all (categories : list string) (buffer : string) :
  fold_left write_category categories buffer
  = (buffer ++ category_text categories)%string.
Proof.
  unfold category_text. revert buffer.
  induction categories as [|c categories IH]; intro buffer.
  - cbn [fold_left map String.concat]. now rewrite str_app_nil_r.
  - cbn [fold_left map]. rewrite IH, concat_cons. unfold write_category.
    now rewrite str_app_assoc.
Qed.

Lemma save_categories_text (categories : list string) (old : option string) :
  save_categories true None categories old
  = (Some (category_text categories), []).
Proof.
  unfold save_categories. now rewrite write_category_all.
Qed.

Lemma category_text_cons (c : string) (cs : list string) :
  category_text (c :: cs)
  = (c ++ String LF (category_text cs))%string.
Proof.
  unfold category_text. cbn [map]. rewrite concat_cons.
  now rewrite str_app_assoc.
Qed.

Lemma universal_newlines_line (c rest : string) :
  one_line c = true ->
  universal_newlines (c ++ String LF rest)
  = (c ++ String LF (universal_newlines rest))%string.
Proof.
  induction c as [|a c IH]; intro H.
  - reflexivity.
  - cbn [one_line] in H. apply andb_true_iff in H. destruct H as [H Hc].
    apply andb_true_iff in H. destruct H as [Hcr _].
    apply negb_true_iff in Hcr.
    cbn [String.append universal_newlines]. rewrite Hcr. now rewrite IH.
Qed.

Lemma split_lines_line (c rest : string) :
  one_line c = true ->
  split_lines (c ++ String LF rest)
  = (c ++ String LF EmptyString)%string :: split_lines rest.
Proof.
  induction c as [|a c IH]; intro H.
  - reflexivity.
  - cbn [one_line] in H. apply andb_true_iff in H. destruct H as [H Hc].
    apply andb_true_iff in H. destruct H as [_ Hlf].
    apply negb_true_iff in Hlf.
    cbn [String.append split_lines]. rewrite Hlf. now rewrite IH.
Qed.

Lemma readlines_category_text (categories : list string) :
  Forall (fun c => one_line c = true) categories ->
  readlines (category_text categories)
  = map (fun c => (c ++ String LF EmptyString)%string) categories.
Proof.
  unfold readlines. induction 1 as [|c cs Hc Hcs IH]; [reflexivity|].
  rewrite category_text_cons, universal_newlines_line by exact Hc.
  rewrite split_lines_line by exact Hc. cbn [map]. now rewrite IH.
Qed.

Lemma lstrip_length (s : string) :
  (String.length (lstrip s) <= String.length s)%nat.
Proof.
  induction s as [|c r IH]; cbn [lstrip String.length]; [lia|].
  destruct (isspace c); cbn [String.length]; lia.
Qed.

Lemma rstrip_length (s : string) :
  (String.length (rstrip s) <= String.length s)%nat.
Proof.
  induction s as [|c r IH]; [cbn; lia|]. rewrite rstrip_cons.
  destruct (rstrip r) as [|a b]; cbn [String.length] in *.
  - destruct (isspace c); cbn [String.length]; lia.
  - lia.
Qed.

Lemma strip_fixed_parts (s : string) :
  strip s = s -> lstrip s = s /\ rstrip s = s.
Proof.
  intro H. unfold strip in H.
  assert (Hl : lstrip s = s).
  { destruct s as [|c r]; [reflexivity|]. cbn [lstrip] in *.
    destruct (isspace c); [|reflexivity].
    pose proof (rstrip_length (lstrip r)). pose proof (lstrip_length r).
    rewrite H in *. cbn [String.length] in *. lia. }
  rewrite Hl in H. now split.
Qed.

Lemma rstrip_line_feed (s : string) :
  rstrip (s ++ String LF EmptyString) = rstrip s.
Proof.
  induction s as [|c r IH]; [reflexivity|].
  cbn [String.append]. now rewrite !rstrip_cons, IH.
Qed.

Lemma strip_line (c : string) :
  strip c = c -> strip (c ++ String LF EmptyString) = c.
Proof.
  intro H. destruct (strip_fixed_parts c H) as [Hl Hr]. unfold strip.
  destruct c as [|a r]; [reflexivity|].
  assert (Ha : isspace a = false) by (now apply (lstrip_head _ a r Hl)).
  cbn [String.append lstrip]. rewrite Ha.
  change (String a (r ++ String LF EmptyString))
    with (String a r ++ String LF EmptyString)%string.
  now rewrite rstrip_line_feed.
Qed.

Lemma strip_lines (categories : list string) :
  Forall plain_name categories ->
  map strip (map (fun c => (c ++ String LF EmptyString)%string) categories)
  = categories.
Proof.
  induction 1 as [|c cs [Hc _] Hcs IH]; [reflexivity|].
  cbn [map]. now rewrite IH, strip_line.
Qed.

(** X18: the category file gives back what was saved, in ascending order
    and without duplicates: for names that have no white space around them
    and no line break inside, loading the file written by a save that did not
    fail gives the saved list sorted, each name once; a list that was
    already ascending without duplicates comes back as it was. *)
Theorem load_after_save_categories (categories : list string)
    (old : option string) (can_open : bool) (cut : option nat) :
  Forall plain_name categories ->
  let saved := fst (save_categories true None categories old) in
  load_categories can_open cut saved
  = (sorted (nodup string_dec categories), saved, [])
  /\ (Sorted str_le categories -> NoDup categories ->
      load_categories can_open cut saved = (categories, saved, [])).
Proof.
  intro H. cbv zeta. rewrite save_categories_text. cbn [fst].
  assert (Hload : load_categories can_open cut
                    (Some (category_text categories))
                  = (sorted (nodup string_dec categories),
                     Some (category_text categories), [])).
  { cbn [load_categories]. rewrite readlines_category_text.
    - now rewrite strip_lines.
    - rewrite Forall_forall in *. intros c Hc. now apply H. }
  split; [exact Hload|]. intros Hsorted Hnodup.
  now rewrite Hload, nodup_fixed_point, sorted_fixed.
Qed.

Lemma load_after_save_categories_witness :
  Forall plain_name default_categories
  /\ load_categories true None
       (fst (save_categories true None default_categories None))
     = (["Entertainment"; "Food"; "Other"; "Salary"; "Transportation";
         "Utilities"],
        fst (save_categories true None default_categories None), []).
Proof.
  assert (H : Forall plain_name default_categories)
    by (repeat (apply Forall_cons; [split; reflexivity|]); apply Forall_nil).
  split; [exact H|].
  exact (proj1 (load_after_save_categories default_categories None true None H)).
Defined.

(** X19: [add_category] stores neither an empty name nor a name the list
    already has: in both cases the list and the file stay as they are and one
    warning is shown.  Otherwise the name, stripped of the white space around
    it, joins the list, which comes out in ascending order with one name
    more, keeps being without duplicates when it was, and is what is
    saved. *)
Theorem add_category_outcome (can_open : bool) (cut : option nat)
    (text : string) (categories : list string) (file : option string) :
  let new := strip text in
  let '(categories', file', boxes) :=
    add_category can_open cut text categories file in
  (new = "" ->
   categories' = categories /\ file' = file /\ boxes = [EmptyCategoryName])
  /\ (new <> "" -> In new categories ->
      categories' = categories /\ file' = file /\ boxes = [CategoryExists])
  /\ (new <> "" -> ~ In new categories ->
      Sorted str_le categories'
      /\ (forall c, In c categories' <-> In c categories \/ c = new)
      /\ List.length categories' = S (List.length categories)
      /\ (NoDup categories -> NoDup categories')
      /\ (file', boxes) = save_categories can_open cut categories' file).
Proof.
  cbv zeta. unfold add_category.
  destruct (truthy (strip text)) eqn:Ht.
  - apply truthy_iff in Ht.
    destruct (mem (strip text) categories) eqn:Hm; cbn [negb andb].
    + apply mem_In in Hm. repeat split; tauto.
    + assert (Hnot : ~ In (strip text) categories).
      { intro Hin. apply mem_In in Hin. congruence. }
      destruct (save_categories can_open cut
                  (sorted (categories ++ [strip text])) file)
        as [file' boxes] eqn:Hsave.
      split; [tauto|]. split; [tauto|]. intros _ _.
      split; [apply sorted_is_sorted|]. split; [|split; [|split]].
      * intro c. rewrite sorted_In, in_app_iff. cbn [In]. intuition.
      * rewrite (Permutation_length (sorted_perm _)), length_app.
        cbn [List.length]. lia.
      * intro Hnd. apply sorted_NoDup.
        apply NoDup_app; [exact Hnd|repeat constructor; intros []|].
        intros c Hc [<-|[]]. tauto.
      * symmetry. exact Hsave.
  - cbn [andb negb].
    assert (Hempty : strip text = "") by (now destruct (strip text)).
    repeat split; congruence.
Qed.

Lemma list_remove_In (x c : string) (l : list string) :
  NoDup l -> (In c (list_remove x l) <-> In c l /\ c <> x).
Proof.
  induction 1 as [|y l Hy Hl IH]; cbn [list_remove]; [tauto|].
  destruct (String.eqb_spec y x) as [->|Hne].
  - cbn [In]. split.
    + intro Hc. split; [now right|]. intros ->. tauto.
    + intros [[->|Hc] Hne]; tauto.
  - cbn [In]. rewrite IH. split.
    + intros [->|[Hc Hcx]]; [split; [now left|congruence]|tauto].
    + intros [[->|Hc] Hcx]; tauto.
Qed.

Lemma list_remove_length (x : string) (l : list string) :
  In x l -> S (List.length (list_remove x l)) = List.length l.
Proof.
  induction l as [|y l IH]; [contradiction|]. cbn [list_remove].
  destruct (String.eqb_spec y x) as [->|Hne]; [reflexivity|].
  intros [E|Hin]; [congruence|]. cbn [List.length]. now rewrite IH.
Qed.

(** X20: [delete_category] changes nothing unless a name is selected, the
    question is answered with yes and the name is in the list.  Then, for a
    list without duplicates, the name is gone and every other name stays, the
    list is one name shorter and is what is saved, and [validate_input] no
    longer accepts the name as a category. *)
Theorem delete_category_outcome (can_open : bool) (cut : option nat)
    (selected : option string) (confirmed : bool) (categories : list string)
    (file : option string) :
  let '(categories', file', boxes) :=
    delete_category can_open cut selected confirmed categories file in
  ((selected = None \/ confirmed = false
    \/ exists name, selected = Some name /\ ~ In name categories) ->
   categories' = categories /\ file' = file /\ boxes = [])
  /\ (forall name,
        selected = Some name -> confirmed = true -> In name categories ->
        NoDup categories ->
        (forall c, In c categories' <-> In c categories /\ c <> name)
        /\ S (List.length categories') = List.length categories
        /\ (file', boxes) = save_categories can_open cut categories' file
        /\ forall date_str amount_str reason_str,
             fst (validate_input categories' date_str amount_str reason_str
                                 name) = false).
Proof.
  unfold delete_category.
  destruct selected as [name|]; [|split; [tauto|discriminate]].
  destruct confirmed; [|split; [tauto|discriminate]].
  destruct (mem name categories) eqn:Hm.
  - apply mem_In in Hm.
    destruct (save_categories can_open cut (list_remove name categories)
                file) as [file' boxes] eqn:Hsave.
    split.
    + intros [H|[H|(n & Hn & Hnot)]]; try discriminate.
      inversion Hn; subst n. tauto.
    + intros n Hn _ Hin Hnd. inversion Hn; subst n.
      split; [intro c; now apply list_remove_In|].
      split; [now apply list_remove_length|].
      split; [symmetry; exact Hsave|].
      intros date_str amount_str reason_str. unfold validate_input.
      destruct (negb (truthy date_str) || negb (truthy amount_str)
                || negb (truthy reason_str) || negb (truthy name));
        [reflexivity|].
      destruct (mem name (list_remove name categories)) eqn:E; [|reflexivity].
      apply mem_In, (list_remove_In name name categories Hnd) in E. tauto.
  - split; [tauto|]. intros n Hn _ Hin _. inversion Hn; subst n.
    apply mem_In in Hin. congruence.
Qed.

(** * Properties of the running application *)

Lemma filter_incl_of {A : Type} (keep : A -> bool) (l m : list A) :
  m = filter keep l -> incl m l.
Proof. intros -> x Hx. now apply filter_In in Hx. Qed.

Lemma same_object (l : list App.entry) (x o : App.entry) :
  NoDup (map App.ident l) -> In x l -> In o l ->
  App.ident x = App.ident o -> x = o.
Proof.
  induction l as [|y l IH]; intros Hnd Hx Ho E; [contradiction|].
  cbn [map] in Hnd. inversion Hnd as [|? ? Hy Hl]; subst.
  destruct Hx as [->|Hx], Ho as [->|Ho]; auto.
  - exfalso. apply Hy. rewrite E. now apply in_map.
  - exfalso. apply Hy. rewrite <- E. now apply in_map.
Qed.

Lemma index_found (o : App.entry) (l : list App.entry) :
  NoDup (map App.ident l) -> In o l ->
  exists before after,
    l = before ++ o :: after
    /\ App.index o l = Some (List.length before)
    /\ ~ In o (before ++ after).
Proof.
  induction l as [|x l IH]; intros Hnd Hin; [contradiction|].
  cbn [map] in Hnd. inversion Hnd as [|? ? Hx Hl]; subst.
  cbn [App.index]. destruct (Nat.eqb_spec (App.ident x) (App.ident o)) as [E|E].
  - assert (x = o).
    { apply (same_object (x :: l)); auto; now left. }
    subst x. exists [], l. repeat split. cbn [app]. intro Ho.
    apply Hx. now apply in_map.
  - destruct Hin as [->|Hin]; [congruence|].
    destruct (IH Hl Hin) as (before & after & -> & Hidx & Hnot).
    exists (x :: before), after. rewrite Hidx. repeat split.
    cbn [app]. intros [->|Ho]; [congruence|tauto].
Qed.

Lemma index_absent (o : App.entry) (l : list App.entry) :
  App.index o l = None -> ~ In o l.
Proof.
  induction l as [|x l IH]; cbn [App.index]; [tauto|].
  destruct (Nat.eqb_spec (App.ident x) (App.ident o)) as [E|E];
    [discriminate|].
  destruct (App.index o l); [discriminate|]. intros _ [->|H]; [congruence|].
  now apply IH.
Qed.

Lemma firstn_skipn_middle {A : Type} (before after : list A) (x : A) :
  firstn (List.length before) (before ++ x :: after) = before
  /\ skipn (S (List.length before)) (before ++ x :: after) = after.
Proof.
  split.
  - rewrite firstn_app, Nat.sub_diag, firstn_all. cbn [firstn].
    now rewrite app_nil_r.
  - induction before as [|b before IH]; [reflexivity|]. exact IH.
Qed.

Lemma well_formed_filtered (st : App.app) (keep : App.entry -> bool) :
  NoDup (map App.ident (App.transactions st)) ->
  Forall (fun o => (App.ident o < App.next_ident st)%nat)
         (App.transactions st) ->
  Forall (fun o => strip (notes (App.fields o)) = notes (App.fields o))
         (App.transactions st) ->
  App.filtered_transactions st = filter keep (App.transactions st) ->
  well_formed st.
Proof.
  intros H1 H2 H3 H4. repeat split; auto.
  eapply filter_incl_of. exact H4.
Qed.

(** The state after the ledger was replaced, saved, and the filter applied
    once or twice. *)
Lemma well_formed_after_save (can_open : bool) (cut : option nat)
    (st : App.app) (again : bool) :
  NoDup (map App.ident (App.transactions st)) ->
  Forall (fun o => (App.ident o < App.next_ident st)%nat)
         (App.transactions st) ->
  Forall (fun o => strip (notes (App.fields o)) = notes (App.fields o))
         (App.transactions st) ->
  let saved := App.save_and_update can_open cut st in
  well_formed (if again then App.apply_filters saved else saved).
Proof.
  intros H1 H2 H3. cbv zeta.
  destruct (app_save_and_update_spec can_open cut st)
    as (E1 & E2 & _ & _ & _ & keep & E6).
  destruct again.
  - destruct (app_apply_filters_spec (App.save_and_update can_open cut st))
      as (F1 & F2 & _ & _ & _ & keep' & F6).
    apply (well_formed_filtered _ keep'); rewrite ?F1, ?F2, ?E1, ?E2; auto.
    now rewrite F6, E1.
  - apply (well_formed_filtered _ keep); rewrite ?E1, ?E2; auto.
Qed.

Lemma NoDup_remove_middle {A : Type} (before after : list A) (x : A) :
  NoDup (before ++ x :: after) -> NoDup (before ++ after).
Proof. apply NoDup_remove_1. Qed.

(** X21: [delete_transaction] deletes the very object that stands in the
    selected row of the filtered list, found by its identity: the ledger
    afterwards is the ledger before without this one object, the others in
    their order, also when another transaction has the same date, type,
    category, reason, amount, notes and mode; nothing is raised.  Without the
    confirmation nothing changes. *)
Theorem delete_removes_selected_object (can_open : bool) (cut : option nat)
    (i : nat) (o : App.entry) (st : App.app) :
  well_formed st ->
  nth_error (App.filtered_transactions st) i = Some o ->
  (exists before after,
     App.transactions st = before ++ o :: after
     /\ App.delete_transaction can_open cut (Some i) true st
        = (App.apply_filters
             (App.save_and_update can_open cut
                (App.with_ledger st (before ++ after) (App.next_ident st) [])),
           false)
     /\ App.transactions
          (fst (App.delete_transaction can_open cut (Some i) true st))
        = before ++ after
     /\ ~ In o (before ++ after))
  /\ App.delete_transaction can_open cut (Some i) false st = (st, false).
Proof.
  intros (Hnd & Hlt & Hnotes & Hincl) Hsel. split; [|reflexivity].
  assert (Hin : In o (App.transactions st))
    by (apply Hincl; eapply nth_error_In; exact Hsel).
  destruct (index_found o (App.transactions st) Hnd Hin)
    as (before & after & Hsplit & Hidx & Hnot).
  exists before, after. split; [exact Hsplit|].
  assert (Hrun : App.delete_transaction can_open cut (Some i) true st
                 = (App.apply_filters
                      (App.save_and_update can_open cut
                         (App.with_ledger st (before ++ after)
                                          (App.next_ident st) [])),
                    false)).
  { unfold App.delete_transaction. rewrite Hsel, Hidx, Hsplit.
    now destruct (firstn_skipn_middle before after o) as [-> ->]. }
  split; [exact Hrun|]. split; [|exact Hnot].
  rewrite Hrun. cbn [fst].
  destruct (app_apply_filters_spec
              (App.save_and_update can_open cut
                 (App.with_ledger st (before ++ after) (App.next_ident st) [])))
    as (F1 & _).
  destruct (app_save_and_update_spec can_open cut
              (App.with_ledger st (before ++ after) (App.next_ident st) []))
    as (E1 & _).
  now rewrite F1, E1.
Qed.

Lemma objects_idents (ts : list Transaction) (n : nat) :
  map App.ident (App.objects n ts) = seq n (List.length ts)
  /\ map App.fields (App.objects n ts) = ts.
Proof.
  revert n. induction ts as [|t ts IH]; intro n; [split; reflexivity|].
  cbn [App.objects map List.length seq]. destruct (IH (S n)) as [-> ->].
  split; reflexivity.
Qed.

Lemma sample_state_well_formed (ts : list Transaction)
    (file : option string) :
  Forall (fun t => strip (notes t) = notes t) ts ->
  well_formed (sample_state ts file).
Proof.
  intro Hnotes. unfold well_formed, sample_state.
  cbn [App.transactions App.filtered_transactions App.next_ident].
  destruct (objects_idents ts 0) as [Hid Hf].
  split; [rewrite Hid; apply seq_NoDup|]. split; [|split].
  - apply Forall_forall. intros o Ho.
    apply (in_map App.ident) in Ho. rewrite Hid in Ho.
    apply in_seq in Ho. lia.
  - apply Forall_forall. intros o Ho.
    apply (in_map App.fields) in Ho. rewrite Hf in Ho.
    rewrite Forall_forall in Hnotes. now apply Hnotes.
  - apply incl_refl.
Qed.

Lemma delete_removes_selected_object_witness :
  let st := sample_state [lunch; dated "2024-01-17"; lunch] None in
  let o := {| App.ident := 2; App.fields := lunch |} in
  well_formed st
  /\ nth_error (App.filtered_transactions st) 2 = Some o
  /\ exists before after,
       App.transactions st = before ++ o :: after
       /\ App.transactions
            (fst (App.delete_transaction true None (Some 2%nat) true st))
          = before ++ after.
Proof.
  cbv zeta.
  assert (Hwf : well_formed
                  (sample_state [lunch; dated "2024-01-17"; lunch] None)).
  { apply sample_state_well_formed.
    repeat (apply Forall_cons; [reflexivity|]). apply Forall_nil. }
  split; [exact Hwf|]. split; [reflexivity|].
  destruct (delete_removes_selected_object true None 2
              {| App.ident := 2; App.fields := lunch |}
              (sample_state [lunch; dated "2024-01-17"; lunch] None)
              Hwf eq_refl) as [(before & after & Hsplit & _ & Hafter & _) _].
  exists before, after. split; [exact Hsplit|exact Hafter].
Defined.

(** Of two transactions with the same fields, the selected one goes. *)
Example delete_among_equals :
  map App.ident
    (App.transactions
       (fst (App.delete_transaction true None (Some 2%nat) true
               (sample_state [lunch; dated "2024-01-17"; lunch] None))))
  = [0%nat; 1%nat].
Proof. vm_compute. reflexivity. Qed.

(** X22: [save_edit] puts the new transaction in the place of the edited
    object, found by its identity: when the form passes [validate_input] and
    its amount is a number, the ledger afterwards is the ledger before with
    the object made from the form where the edited one stood, every other
    object in its place; when [validate_input] returns [False] the ledger is
    left as it is. *)
Theorem save_edit_replaces_in_place (can_open : bool) (cut : option nat)
    (categories : list string) (old : App.entry) (f : form) (st : App.app) :
  well_formed st ->
  In old (App.transactions st) ->
  let checked :=
    validate_input categories (date_entry f) (amount_entry f)
                   (reason_entry f) (category_var f) in
  let out := App.save_edit can_open cut categories old f st in
  (forall x,
     fst checked = true -> PyFloat.of_string (amount_entry f) = Some x ->
     snd out = false
     /\ exists before after,
          App.transactions st = before ++ old :: after
          /\ App.transactions (fst out)
             = before ++ App.make (App.next_ident st) f x :: after)
  /\ (fst checked = false ->
      snd out = false /\ App.transactions (fst out) = App.transactions st).
Proof.
  intros (Hnd & Hlt & Hnotes & Hincl) Hin. cbv zeta. unfold App.save_edit.
  destruct (validate_input categories (date_entry f) (amount_entry f)
              (reason_entry f) (category_var f)) as [ok shown].
  cbn [fst]. split.
  - intros x -> Hx. rewrite Hx.
    cbn [App.with_ledger App.transactions App.next_ident].
    destruct (index_found old (App.transactions st) Hnd Hin)
      as (before & after & Hsplit & Hidx & _).
    rewrite Hidx. cbn [snd fst]. split; [reflexivity|].
    exists before, after. split; [exact Hsplit|].
    match goal with |- App.transactions (App.apply_filters ?a) = _ =>
      destruct (app_apply_filters_spec a) as (F1 & _); rewrite F1
    end.
    match goal with |- App.transactions (App.save_and_update _ _ ?a) = _ =>
      destruct (app_save_and_update_spec can_open cut a) as (E1 & _);
        rewrite E1
    end.
    cbn [App.with_ledger App.transactions]. rewrite Hsplit.
    now destruct (firstn_skipn_middle before after old) as [-> ->].
  - intros ->. split; reflexivity.
Qed.

Lemma save_edit_replaces_in_place_witness :
  let st := sample_state [lunch; dated "2024-01-17"; lunch] None in
  let old := {| App.ident := 2; App.fields := lunch |} in
  let f := form_with_amount "80.5" in
  well_formed st /\ In old (App.transactions st)
  /\ exists before after,
       App.transactions st = before ++ old :: after
       /\ App.transactions
            (fst (App.save_edit true None default_categories old f st))
          = before ++ App.make 3 f (PyFloat.of_decimal false 805 (-1)) :: after.
Proof.
  cbv zeta.
  assert (Hwf : well_formed
                  (sample_state [lunch; dated "2024-01-17"; lunch] None)).
  { apply sample_state_well_formed.
    repeat (apply Forall_cons; [reflexivity|]). apply Forall_nil. }
  assert (Hin : In {| App.ident := 2; App.fields := lunch |}
                   (App.transactions
                      (sample_state [lunch; dated "2024-01-17"; lunch] None)))
    by (right; right; left; reflexivity).
  split; [exact Hwf|]. split; [exact Hin|].
  exact (proj2 (proj1 (save_edit_replaces_in_place true None
                         default_categories
                         {| App.ident := 2; App.fields := lunch |}
                         (form_with_amount "80.5")
                         (sample_state [lunch; dated "2024-01-17"; lunch] None)
                         Hwf Hin)
                  (PyFloat.of_decimal false 805 (-1)) eq_refl eq_refl)).
Defined.

Lemma index_some (o : App.entry) (l : list App.entry) (i : nat) :
  App.index o l = Some i ->
  exists before x after, l = before ++ x :: after /\ List.length before = i.
Proof.
  revert i. induction l as [|y l IH]; intros i H; cbn [App.index] in H;
    [discriminate|].
  destruct (App.ident y =? App.ident o)%nat.
  - inversion H. now exists [], y, l.
  - destruct (App.index o l) as [j|]; [|discriminate]. inversion H.
    destruct (IH j eq_refl) as (before & x & after & -> & Hlen).
    exists (y :: before), x, after. cbn [List.length app]. now rewrite Hlen.
Qed.

Lemma well_formed_same_ledger (st : App.app) (n : nat) (shown : list App.box) :
  well_formed st -> (App.next_ident st <= n)%nat ->
  well_formed (App.with_ledger st (App.transactions st) n shown).
Proof.
  intros (H1 & H2 & H3 & H4) Hn. unfold well_formed, App.with_ledger.
  cbn [App.transactions App.filtered_transactions App.next_ident].
  repeat split; auto. eapply Forall_impl; [|exact H2]. cbn. intros; lia.
Qed.

Lemma fresh_not_in (l : list App.entry) (n : nat) :
  Forall (fun o => (App.ident o < n)%nat) l -> ~ In n (map App.ident l).
Proof.
  intros H Hin. apply in_map_iff in Hin. destruct Hin as (o & E & Ho).
  rewrite Forall_forall in H. specialize (H o Ho). lia.
Qed.

Lemma make_notes_stripped (n : nat) (f : form) (x : PyFloat.float) :
  strip (notes (App.fields (App.make n f x)))
  = notes (App.fields (App.make n f x)).
Proof. cbn. apply strip_idempotent. Qed.

Lemma loaded_notes_stripped_aux (read : option reading) :
  Forall (fun t => strip (notes t) = notes t)
         (fst (load_transactions_from_csv read)).
Proof.
  destruct read as [[[|header rows] raised]|]; try apply Forall_nil.
  rewrite load_exact. cbn [fst]. apply Forall_forall. intros t Ht.
  apply in_flat_map in Ht. destruct Ht as (r & _ & Hr).
  unfold decoded in Hr. destruct (decode_row r) as [t'|] eqn:E; [|contradiction].
  destruct Hr as [->|[]].
  destruct (decode_row_some r t E)
    as (d & ty & c & re & a & parts & x & _ & _ & ->).
  cbn [notes]. apply strip_idempotent.
Qed.

Lemma objects_well_formed (ts : list Transaction) (st : App.app) :
  Forall (fun t => strip (notes t) = notes t) ts ->
  App.transactions st = App.objects 0 ts ->
  App.filtered_transactions st = App.objects 0 ts ->
  App.next_ident st = List.length ts ->
  well_formed st.
Proof.
  intros Hnotes HT HF Hn. unfold well_formed. rewrite HT, HF, Hn.
  destruct (objects_idents ts 0) as [Hid Hf].
  split; [rewrite Hid; apply seq_NoDup|]. split; [|split].
  - apply Forall_forall. intros o Ho.
    apply (in_map App.ident) in Ho. rewrite Hid in Ho.
    apply in_seq in Ho. lia.
  - apply Forall_forall. intros o Ho.
    apply (in_map App.fields) in Ho. rewrite Hf in Ho.
    rewrite Forall_forall in Hnotes. now apply Hnotes.
  - apply incl_refl.
Qed.

Lemma init_well_formed (c : criteria) (file : option string)
    (read : option reading) :
  well_formed (App.init c file read).
Proof.
  unfold App.init.
  pose proof (loaded_notes_stripped_aux read) as Hnotes.
  destruct (load_transactions_from_csv read) as [ts shown].
  cbn [fst] in Hnotes. now apply (objects_well_formed ts).
Qed.

Lemma run_well_formed (can_open : bool) (cut : option nat)
    (categories : list string) (a : App.action) (st : App.app) :
  well_formed st -> well_formed (App.run can_open cut categories a st).
Proof.
  intros Hwf. pose proof Hwf as (Hnd & Hlt & Hnotes & Hincl).
  destruct a as [f|old f|selected confirmed|confirmed|]; cbn [App.run].
  + unfold App.add_transaction.
    destruct (validate_input categories (date_entry f) (amount_entry f)
                (reason_entry f) (category_var f)) as [ok shown].
    destruct ok; [|now apply well_formed_same_ledger].
    destruct (PyFloat.of_string (amount_entry f)) as [x|];
      [|now apply well_formed_same_ledger].
    cbn [fst App.with_ledger App.transactions App.next_ident].
    apply (well_formed_after_save can_open cut _ false);
      cbn [App.with_ledger App.transactions App.next_ident].
    * rewrite map_app. cbn [map App.make App.ident].
      apply NoDup_app; [exact Hnd|repeat constructor; intros []|].
      intros n Hn [<-|[]]. now apply (fresh_not_in _ _ Hlt).
    * apply Forall_app. split.
      -- eapply Forall_impl; [|exact Hlt]. cbn. intros; lia.
      -- repeat constructor.
    * apply Forall_app. split; [exact Hnotes|].
      constructor; [apply make_notes_stripped|constructor].
  + unfold App.save_edit.
    destruct (validate_input categories (date_entry f) (amount_entry f)
                (reason_entry f) (category_var f)) as [ok shown].
    destruct ok; [|now apply well_formed_same_ledger].
    destruct (PyFloat.of_string (amount_entry f)) as [x|];
      [|now apply well_formed_same_ledger].
    cbn [App.with_ledger App.transactions App.next_ident].
    destruct (App.index old (App.transactions st)) as [i|] eqn:Hidx.
    * destruct (index_some old _ i Hidx)
        as (before & y & after & Hsplit & Hlen).
      cbn [fst]. subst i. rewrite Hsplit.
      destruct (firstn_skipn_middle before after y) as [-> ->].
      rewrite Hsplit in Hnd, Hlt, Hnotes.
      apply (well_formed_after_save can_open cut _ true);
        cbn [App.with_ledger App.transactions App.next_ident].
      -- rewrite map_app in *. cbn [map App.make App.ident] in *.
         apply NoDup_remove_1 in Hnd.
         apply (Permutation_NoDup (Permutation_middle _ _ _)).
         constructor; [|exact Hnd].
         rewrite <- map_app. apply fresh_not_in.
         apply Forall_app in Hlt. destruct Hlt as [Hb Ha].
         inversion Ha; subst. apply Forall_app. now split.
      -- apply Forall_app in Hlt. destruct Hlt as [Hb Ha].
         inversion Ha; subst. apply Forall_app. split.
         ++ eapply Forall_impl; [|exact Hb]. cbn. intros; lia.
         ++ constructor; [cbn; lia|].
            eapply Forall_impl; [|eassumption]. cbn. intros; lia.
      -- apply Forall_app in Hnotes. destruct Hnotes as [Hb Ha].
         inversion Ha; subst. apply Forall_app. split; [exact Hb|].
         constructor; [apply make_notes_stripped|assumption].
    * cbn [fst].
      apply (well_formed_same_ledger
               (App.with_ledger st (App.transactions st) (App.next_ident st)
                                (map App.Shown shown))
               (S (App.next_ident st)) []);
        [now apply well_formed_same_ledger|cbn; lia].
  + unfold App.delete_transaction.
    destruct selected as [i|]; [|now apply well_formed_same_ledger].
    destruct confirmed; [|exact Hwf].
    destruct (nth_error (App.filtered_transactions st) i) as [o|];
      [|exact Hwf].
    destruct (App.index o (App.transactions st)) as [j|] eqn:Hidx;
      [|exact Hwf].
    destruct (index_some o _ j Hidx) as (before & y & after & Hsplit & Hlen).
    cbn [fst]. subst j. rewrite Hsplit.
    destruct (firstn_skipn_middle before after y) as [-> ->].
    rewrite Hsplit in Hnd, Hlt, Hnotes.
    apply (well_formed_after_save can_open cut _ true);
      cbn [App.with_ledger App.transactions App.next_ident].
    * rewrite map_app in *. cbn [map] in Hnd. now apply NoDup_remove_1 in Hnd.
    * apply Forall_app in Hlt. destruct Hlt as [Hb Ha].
      inversion Ha; subst. apply Forall_app. now split.
    * apply Forall_app in Hnotes. destruct Hnotes as [Hb Ha].
      inversion Ha; subst. apply Forall_app. now split.
  + unfold App.clear_all_transactions. destruct confirmed; [|exact Hwf].
    apply (well_formed_after_save can_open cut _ true);
      cbn [App.with_ledger App.transactions map]; constructor.
  + destruct (app_apply_filters_spec st) as (F1 & F2 & _ & _ & _ & keep & F6).
    apply (well_formed_filtered _ keep); rewrite ?F1, ?F2; auto.
Qed.

(** X23: the state stays well formed: after [__init__] and after every
    button handler, whatever the forms and selections, the objects of the
    ledger are distinct, the notes of every transaction have no white space
    around them, and the filtered list holds objects of the ledger only, so
    that a selected row always names a transaction of the ledger. *)
Theorem state_stays_well_formed (can_open : bool) (cut : option nat)
    (categories : list string) (c : criteria) (file : option string)
    (read : option reading) :
  well_formed (App.init c file read)
  /\ forall (a : App.action) (st : App.app),
       well_formed st ->
       well_formed (App.run can_open cut categories a st).
Proof.
  split; [apply init_well_formed|].
  intros a st. apply run_well_formed.
Qed.

Lemma saved_state (st : App.app) (again : bool) :
  let saved := App.save_and_update true None st in
  let st' := if again then App.apply_filters saved else saved in
  App.transactions st' = App.transactions st
  /\ App.disk st'
     = Some (file_bytes (expected_header :: map encode_row (ledger_of st)))
  /\ App.current_balance st' = calculate_balance (ledger_of st) None
  /\ exists y, st' = App.apply_filters y.
Proof.
  cbv zeta.
  destruct (app_save_and_update_spec true None st)
    as (E1 & _ & E3 & E4 & _).
  unfold save_transactions_to_csv in E3. rewrite written_bytes in E3.
  cbn [fst] in E3.
  destruct again.
  - destruct (app_apply_filters_spec (App.save_and_update true None st))
      as (F1 & _ & F3 & F4 & _).
    rewrite F1, F3, F4, E1, E3, E4. repeat split. eexists. reflexivity.
  - rewrite E1, E3, E4. repeat split. unfold App.save_and_update.
    destruct (save_transactions_to_csv true None
                (map App.fields (App.transactions st)) (App.disk st)).
    eexists. reflexivity.
Qed.

Lemma app_filter_twice (y : App.app) :
  App.filtered_transactions (App.apply_filters (App.apply_filters y))
  = App.filtered_transactions (App.apply_filters y).
Proof.
  unfold App.apply_filters at 1 3.
  destruct (app_apply_filters_spec y) as (F1 & _ & _ & _ & F5 & _).
  cbv zeta in F1, F5. rewrite F1, F5.
  destruct (App.date_constraint _ _ (App.transactions y)). reflexivity.
Qed.

Lemma run_saves_changes (categories : list string) (a : App.action)
    (st : App.app) :
  let st' := App.run true None categories a st in
  App.transactions st' <> App.transactions st ->
  App.disk st'
  = Some (file_bytes (expected_header :: map encode_row (ledger_of st')))
  /\ App.current_balance st' = calculate_balance (ledger_of st') None
  /\ exists y, st' = App.apply_filters y.
Proof.
  cbv zeta. unfold ledger_of.
  destruct a as [f|old f|selected confirmed|confirmed|]; cbn [App.run].
  - unfold App.add_transaction.
    destruct (validate_input categories (date_entry f) (amount_entry f)
                (reason_entry f) (category_var f)) as [ok shown].
    destruct ok; [|cbn; congruence].
    destruct (PyFloat.of_string (amount_entry f)) as [x|]; [|cbn; congruence].
    cbn [fst]. intros _.
    match goal with |- context [App.save_and_update true None ?x] =>
      destruct (saved_state x false) as (T & D & B & Y)
    end.
    cbv zeta in T, D, B, Y. unfold ledger_of in *. now rewrite T, D, B.
  - unfold App.save_edit.
    destruct (validate_input categories (date_entry f) (amount_entry f)
                (reason_entry f) (category_var f)) as [ok shown].
    destruct ok; [|cbn; congruence].
    destruct (PyFloat.of_string (amount_entry f)) as [x|]; [|cbn; congruence].
    cbn [App.with_ledger App.transactions App.next_ident].
    destruct (App.index old (App.transactions st)) as [i|];
      [|cbn; congruence].
    cbn [fst]. intros _.
    match goal with |- context [App.save_and_update true None ?x] =>
      destruct (saved_state x true) as (T & D & B & Y)
    end.
    cbv zeta in T, D, B, Y. unfold ledger_of in *. now rewrite T, D, B.
  - unfold App.delete_transaction.
    destruct selected as [i|]; [|cbn; congruence].
    destruct confirmed; [|cbn; congruence].
    destruct (nth_error (App.filtered_transactions st) i) as [o|];
      [|cbn; congruence].
    destruct (App.index o (App.transactions st)) as [j|];
      [|cbn; congruence].
    cbn [fst]. intros _.
    match goal with |- context [App.save_and_update true None ?x] =>
      destruct (saved_state x true) as (T & D & B & Y)
    end.
    cbv zeta in T, D, B, Y. unfold ledger_of in *. now rewrite T, D, B.
  - unfold App.clear_all_transactions. destruct confirmed; [|congruence].
    intros _.
    match goal with |- context [App.save_and_update true None ?x] =>
      destruct (saved_state x true) as (T & D & B & Y)
    end.
    cbv zeta in T, D, B, Y. unfold ledger_of in *. now rewrite T, D, B.
  - destruct (app_apply_filters_spec st) as (F1 & _). congruence.
Qed.

(** X24: every change of the ledger is saved and shown: when a button
    handler leaves the ledger different from what it was and the saving does
    not fail, the file holds the lines of the header and of one row for each
    transaction of the new ledger, in order, the stored balance is the
    balance of the new ledger, and the filtered list is the one the filter
    gives for the new ledger. *)
Theorem ledger_changes_are_saved (categories : list string) (a : App.action)
    (st : App.app) :
  let st' := App.run true None categories a st in
  App.transactions st' <> App.transactions st ->
  App.disk st'
  = Some (file_bytes (expected_header :: map encode_row (ledger_of st')))
  /\ App.current_balance st' = calculate_balance (ledger_of st') None
  /\ App.filtered_transactions st'
     = App.filtered_transactions (App.apply_filters st').
Proof.
  cbv zeta. intro Hchanged.
  destruct (run_saves_changes categories a st Hchanged)
    as (Hdisk & Hbalance & y & Hy).
  split; [exact Hdisk|]. split; [exact Hbalance|].
  rewrite Hy. symmetry. apply app_filter_twice.
Qed.

Lemma ledger_changes_are_saved_witness :
  let st := sample_state [lunch; dated "2024-01-17"] None in
  let st' := App.run true None default_categories
                     (App.Delete (Some 0%nat) true) st in
  App.transactions st' <> App.transactions st
  /\ App.disk st'
     = Some (file_bytes [expected_header; encode_row (dated "2024-01-17")]).
Proof.
  cbv zeta.
  assert (Hchanged :
            App.transactions
              (App.run true None default_categories
                       (App.Delete (Some 0%nat) true)
                       (sample_state [lunch; dated "2024-01-17"] None))
            <> App.transactions
                 (sample_state [lunch; dated "2024-01-17"] None))
    by (vm_compute; discriminate).
  split; [exact Hchanged|].
  exact (proj1 (ledger_changes_are_saved default_categories
                  (App.Delete (Some 0%nat) true)
                  (sample_state [lunch; dated "2024-01-17"] None) Hchanged)).
Defined.
